(** * Weather_app.py: the forecast aggregator, the text renderer and the
    command-line entry point, as a shallow embedding.

    Conventions of the embedding.
    - A Python exception is a value of [exn]; code that can raise lives in
      the [result] monad.
    - JSON numbers are exact rationals ([Qc], canonical fractions, so that
      Python's [==] on numbers is Leibniz equality). [statistics.mean]
      sums its data exactly as fractions and divides by the count, which is
      what [statistics_mean] does; its last step on float data, rounding to
      the nearest float, is treated in [rounded_mean_bounds].
    - A [dict] keyed by strings is a [gmap string _]; a JSON object with a
      fixed set of optional keys is a record of [option] fields.
    - The iteration order of a Python [set] is not fixed by the language:
      it is a parameter, the class [PySetOrder]. *)

From Stdlib Require Import Ascii QArith Qcanon Qround Lqa.
From stdpp Require Import sorting numbers gmap strings list.

(** ** Exceptions and the result monad *)

(** The subclasses of [Exception] that the program meets. *)
Inductive exn_class :=
  | KeyError | IndexError | ValueError | StatisticsError | RuntimeError
  | HTTPError | ConnectionError | JSONDecodeError | OSError.

Record exn := Exn { exn_kind : exn_class; exn_msg : string }.

Inductive result (A : Type) :=
  | Ok (a : A)
  | Raise (e : exn).
Arguments Ok {A} a.
Arguments Raise {A} e.

Global Instance result_ret : MRet result := λ A a, Ok a.
Global Instance result_bind : MBind result := λ A B f r,
  match r with
  | Ok a => f a
  | Raise e => Raise e
  end.

Definition is_Ok {A} (r : result A) : Prop :=
  match r with Ok _ => True | Raise _ => False end.

(** A [for] loop whose body may raise. *)
Fixpoint foldM {A B} (f : B → A → result B) (l : list A) (b : B) : result B :=
  match l with
  | [] => Ok b
  | x :: l' => b' ← f b x; foldM f l' b'
  end.

(** [for x in l: out.append(f x)] where [f] may raise. *)
Fixpoint mapM {A B} (f : A → result B) (l : list A) : result (list B) :=
  match l with
  | [] => Ok []
  | x :: l' => y ← f x; ys ← mapM f l'; Ok (y :: ys)
  end.

(** ** Python built-ins used by the aggregator *)

(** [l.count(x)] *)
Definition count {A} `{EqDecision A} (l : list A) (x : A) : nat :=
  length (filter (x =.) l).

(** [max(it, key=key)]: the first item whose key is not exceeded later on;
    [ValueError] on an empty iterable. *)
Definition max_key_from {A} (key : A → nat) (first : A) (rest : list A) : A :=
  fold_left (λ best y, if decide (key best < key y)%nat then y else best)
            rest first.

Definition py_max_key {A} (key : A → nat) (it : list A) : result A :=
  match it with
  | [] => Raise (Exn ValueError "max() arg is an empty sequence")
  | x :: rest => Ok (max_key_from key x rest)
  end.

(** [min(l)] and [max(l)] on numbers: the first extremal item. *)
Definition py_min (l : list Qc) : result Qc :=
  match l with
  | [] => Raise (Exn ValueError "min() arg is an empty sequence")
  | x :: rest =>
      Ok (fold_left (λ best y, if decide (y < best)%Qc then y else best) rest x)
  end.

Definition py_max (l : list Qc) : result Qc :=
  match l with
  | [] => Raise (Exn ValueError "max() arg is an empty sequence")
  | x :: rest =>
      Ok (fold_left (λ best y, if decide (best < y)%Qc then y else best) rest x)
  end.

Definition Qc_sum (l : list Qc) : Qc := foldr Qcplus (Q2Qc 0) l.

(** [statistics.mean(l)]: exact sum divided by the number of data points;
    [StatisticsError] on no data. *)
Definition statistics_mean (l : list Qc) : result Qc :=
  match l with
  | [] => Raise (Exn StatisticsError "mean requires at least one data point")
  | _ => Ok (Qc_sum l / Qc_of_Z (Z.of_nat (length l)))%Qc
  end.

(** The order in which [set(l)] is iterated. The language only promises
    that every distinct element comes up once. CPython fixes the order per
    process (the hash seed of strings is drawn at start-up) and per insertion
    sequence: two elements whose hashes meet in the table are iterated in
    the order they were added. So the order is a function of the list the
    set is built from, and an instance of the class stands for one
    process. *)
Class PySetOrder := {
  set_iter : ∀ {A} `{EqDecision A}, list A → list A;
  set_iter_NoDup : ∀ {A} `{EqDecision A} (l : list A), NoDup (set_iter l);
  elem_of_set_iter : ∀ {A} `{EqDecision A} (l : list A) (x : A),
    x ∈ set_iter l ↔ x ∈ l;
}.

(** ** datetime: the part of the library the program calls *)

Section datetime.
Local Open Scope Z_scope.

Record pydate := PyDate { year : Z; month : Z; day : Z }.
Record pydatetime :=
  PyDateTime { dt_date : pydate; hour : Z; minute : Z; second : Z }.

Definition DAYS_IN_MONTH : list Z :=
  [-1; 31; 28; 31; 30; 31; 30; 31; 31; 30; 31; 30; 31].
Definition DAYS_BEFORE_MONTH : list Z :=
  [-1; 0; 31; 59; 90; 120; 151; 181; 212; 243; 273; 304; 334].
Definition tbl (t : list Z) (i : Z) : Z := default 0 (t !! Z.to_nat i).

Definition DI400Y : Z := 146097.
Definition DI100Y : Z := 36524.
Definition DI4Y : Z := 1461.

(** Proleptic Gregorian ordinal (1 = 0001-01-01) to year, month, day. *)
Definition ord2ymd (ordinal : Z) : pydate :=
  let n := ordinal - 1 in
  let n400 := n `div` DI400Y in
  let n := n `mod` DI400Y in
  let year := n400 * 400 + 1 in
  let n100 := n `div` DI100Y in
  let n := n `mod` DI100Y in
  let n4 := n `div` DI4Y in
  let n := n `mod` DI4Y in
  let n1 := n `div` 365 in
  let n := n `mod` 365 in
  let year := year + n100 * 100 + n4 * 4 + n1 in
  if bool_decide (n1 = 4 ∨ n100 = 4) then PyDate (year - 1) 12 31
  else
    let leapyear := bool_decide (n1 = 3 ∧ (n4 ≠ 24 ∨ n100 = 3)) in
    let month := Z.shiftr (n + 50) 5 in
    let preceding :=
      tbl DAYS_BEFORE_MONTH month
      + (if bool_decide (month > 2) && leapyear then 1 else 0) in
    if bool_decide (preceding > n) then
      let month := month - 1 in
      let preceding :=
        preceding
        - (tbl DAYS_IN_MONTH month
           + (if bool_decide (month = 2) && leapyear then 1 else 0)) in
      PyDate year month (n - preceding + 1)
    else PyDate year month (n - preceding + 1).

(** The inverse direction, as the library has it. *)
Definition is_leap (y : Z) : bool :=
  bool_decide (y `mod` 4 = 0 ∧ (y `mod` 100 ≠ 0 ∨ y `mod` 400 = 0)).
Definition days_before_year (year : Z) : Z :=
  let y := year - 1 in y * 365 + y `div` 4 - y `div` 100 + y `div` 400.
Definition days_before_month (year month : Z) : Z :=
  tbl DAYS_BEFORE_MONTH month
  + (if bool_decide (month > 2) && is_leap year then 1 else 0).
Definition ymd2ord (d : pydate) : Z :=
  days_before_year (year d) + days_before_month (year d) (month d) + day d.

(** The last steps of [ord2ymd]: month and day from the day of the year
    (counted from 0) and the leap-year flag. *)
Definition month_day (leapyear : bool) (n : Z) : Z * Z :=
  let month := Z.shiftr (n + 50) 5 in
  let preceding :=
    tbl DAYS_BEFORE_MONTH month
    + (if bool_decide (month > 2) && leapyear then 1 else 0) in
  if bool_decide (preceding > n) then
    let month := month - 1 in
    let preceding :=
      preceding
      - (tbl DAYS_IN_MONTH month
         + (if bool_decide (month = 2) && leapyear then 1 else 0)) in
    (month, n - preceding + 1)
  else (month, n - preceding + 1).

Definition month_day_ok (leapyear : bool) (n : Z) : Prop :=
  let md := month_day leapyear n in
  1 ≤ md.1 ≤ 12 ∧ 1 ≤ md.2 ≤ 31
  ∧ tbl DAYS_BEFORE_MONTH md.1
    + (if bool_decide (md.1 > 2) && leapyear then 1 else 0) + md.2 = n + 1.

Global Instance month_day_ok_dec leapyear n : Decision (month_day_ok leapyear n).
Proof. unfold month_day_ok. cbn zeta. apply _. Defined.

(** Ordinal of 1970-01-01 and of 9999-12-31. *)
Definition EPOCH_ORDINAL : Z := 719163.
Definition MAX_ORDINAL : Z := 3652059.

(** [datetime.datetime.utcfromtimestamp(ts)] for an integer [ts]: the UTC
    date and time, or an exception when the year is outside 1..9999 (the
    library raises [ValueError], or [OverflowError] or [OSError] when the
    value does not even fit the platform's time type; all are caught alike
    by [except Exception], and one class stands for them). *)
Definition utcfromtimestamp (ts : Z) : result pydatetime :=
  let days := ts `div` 86400 in
  let secs := ts `mod` 86400 in
  let ordinal := EPOCH_ORDINAL + days in
  if bool_decide (1 ≤ ordinal ≤ MAX_ORDINAL) then
    Ok (PyDateTime (ord2ymd ordinal)
                   (secs `div` 3600) ((secs `mod` 3600) `div` 60) (secs `mod` 60))
  else Raise (Exn ValueError "year is out of range").

(** The last [w] decimal digits of [n], most significant first: what
    [%0wd] prints for [0 ≤ n < 10^w]. *)
Definition digit (n : Z) : ascii := ascii_of_nat (48 + Z.to_nat (n `mod` 10)).
Fixpoint zdigits (w : nat) (n : Z) (acc : string) : string :=
  match w with
  | O => acc
  | S w' => zdigits w' (n `div` 10) (String (digit n) acc)
  end.

(** [d.isoformat()], i.e. ["%04d-%02d-%02d" % (year, month, day)] *)
Definition isoformat (d : pydate) : string :=
  zdigits 4 (year d) (String "-" (zdigits 2 (month d) (String "-" (zdigits 2 (day d) "")))).

(** [dt.strftime("%Y-%m-%d %H:%M")], with the year on four digits (some
    platforms print years below 1000 unpadded). *)
Definition strftime_ymd_hm (dt : pydatetime) : string :=
  String.app (isoformat (dt_date dt))
    (String " " (zdigits 2 (hour dt) (String ":" (zdigits 2 (minute dt) "")))).
End datetime.

(** [pretty_time_from_unix(ts, tz_shift)] *)
Definition pretty_time_from_unix (ts : Z) (tz_shift : Z) : result string :=
  dt ← utcfromtimestamp (ts + tz_shift);
  Ok (strftime_ymd_hm dt).

(** ** The daily aggregator *)

(** One element of the forecast's ["list"]: [dt], [main.temp],
    [weather[0].description] and the optional [weather[0].icon]. *)
Record entry := Entry {
  entry_dt : Z;
  entry_temp : Qc;
  entry_description : string;
  entry_icon : option string;
}.

(** The forecast payload: only the ["list"] key is read, with [.get]. *)
Record forecast_json := ForecastJson { fc_list : option (list entry) }.

Record bucket := Bucket {
  temps : list Qc;
  descs : list string;
  icons : list (option string);
}.

Record DaySummary := mkDaySummary {
  date : string;
  min_temp : Qc;
  max_temp : Qc;
  avg_temp : Qc;
  typical_weather : string;
  icon : option string;
}.

(** The key a sample is filed under: the UTC date of its timestamp. *)
Definition date_key (ts : Z) : result string :=
  dt ← utcfromtimestamp ts;
  Ok (isoformat (dt_date dt)).

(** Body of the first loop. *)
Definition add_entry (buckets : gmap string bucket) (e : entry)
  : result (gmap string bucket) :=
  k ← date_key (entry_dt e);
  let b := default (Bucket [] [] []) (buckets !! k) in
  Ok (<[k := Bucket (temps b ++ [entry_temp e])
                    (descs b ++ [entry_description e])
                    (icons b ++ [entry_icon e])]> buckets).

(** [buckets[d]] *)
Definition getitem (buckets : gmap string bucket) (d : string) : result bucket :=
  match buckets !! d with
  | Some b => Ok b
  | None => Raise (Exn KeyError d)
  end.

(** [sorted(buckets.keys())] *)
Definition sorted_keys (buckets : gmap string bucket) : list string :=
  merge_sort String.le (map_to_list buckets).*1.

Section aggregator.
Context {O : PySetOrder}.

(** [max(set(l), key=l.count)] *)
Definition most_common {A} `{EqDecision A} (l : list A) : result A :=
  py_max_key (count l) (set_iter l).

(** Body of the second loop: the summary of the bucket filed under [d]. *)
Definition summarize_bucket (d : string) (b : bucket) : result DaySummary :=
  most_common_desc ← most_common (descs b);
  most_common_icon ←
    match icons b with
    | [] => Ok None
    | _ => most_common (icons b)
    end;
  mi ← py_min (temps b);
  ma ← py_max (temps b);
  av ← statistics_mean (temps b);
  Ok (mkDaySummary d mi ma av most_common_desc most_common_icon).

Definition summarize_day (buckets : gmap string bucket) (d : string)
  : result DaySummary :=
  b ← getitem buckets d;
  summarize_bucket d b.

Definition summarize_items (items : list entry) : result (list DaySummary) :=
  buckets ← foldM add_entry items ∅;
  mapM (summarize_day buckets) (sorted_keys buckets).

Definition summarize_forecast (forecast : forecast_json)
  : result (list DaySummary) :=
  summarize_items (default [] (fc_list forecast)).
End aggregator.

(** Two iteration orders that [PySetOrder] allows: the distinct elements in
    the order of their last occurrence, and of their first occurrence. On a
    list without repetition both are insertion order, which is what CPython
    does when the hashes collide in the table (for the strings "clear sky"
    and "light rain" of [tie_day] below: CPython 3.11 under
    PYTHONHASHSEED=15). *)
Definition last_occurrences {A} `{EqDecision A} (l : list A) : list A :=
  remove_dups l.
Definition first_occurrences {A} `{EqDecision A} (l : list A) : list A :=
  reverse (remove_dups (reverse l)).

Global Program Instance last_occurrence_order : PySetOrder | 10 :=
  {| set_iter A _ l := last_occurrences l |}.
Next Obligation. intros. apply NoDup_remove_dups. Qed.
Next Obligation. intros. apply elem_of_remove_dups. Qed.

Global Program Instance first_occurrence_order : PySetOrder | 20 :=
  {| set_iter A _ l := first_occurrences l |}.
Next Obligation.
  intros. unfold first_occurrences.
  rewrite reverse_Permutation. apply NoDup_remove_dups.
Qed.
Next Obligation.
  intros. unfold first_occurrences.
  by rewrite elem_of_reverse, elem_of_remove_dups, elem_of_reverse.
Qed.

(** ** Text helpers of the renderer *)

(** [str.lower] and [str.upper] on one character (ASCII letters; other
    bytes are left as they are). *)
Definition ascii_lower (c : ascii) : ascii :=
  let n := nat_of_ascii c in
  if bool_decide (65 ≤ n ≤ 90)%nat then ascii_of_nat (n + 32) else c.
Definition ascii_upper (c : ascii) : ascii :=
  let n := nat_of_ascii c in
  if bool_decide (97 ≤ n ≤ 122)%nat then ascii_of_nat (n - 32) else c.

Fixpoint lower (s : string) : string :=
  match s with
  | EmptyString => EmptyString
  | String c s' => String (ascii_lower c) (lower s')
  end.

(** [s.capitalize()] *)
Definition capitalize (s : string) : string :=
  match s with
  | EmptyString => EmptyString
  | String c s' => String (ascii_upper c) (lower s')
  end.

(** [round(x, 1)]: to one decimal, ties to even. *)
Definition round1 (x : Qc) : Qc :=
  let y := (x * Qc_of_Z 10)%Qc in
  let f := Qfloor y in
  let r := (y - Qc_of_Z f)%Qc in
  let half := Q2Qc (1 # 2) in
  let k := if decide (r < half)%Qc then f
           else if decide (half < r)%Qc then (f + 1)%Z
           else if Z.even f then f else (f + 1)%Z in
  Q2Qc (k # 10).

(** [l[:k]] *)
Definition slice_to {A} (l : list A) (k : Z) : list A :=
  let len := Z.of_nat (length l) in
  let stop := if bool_decide (k < 0)%Z then Z.max 0 (len + k) else Z.min k len in
  take (Z.to_nat stop) l.

(** ** Payloads of the current-weather endpoint and of the geocoder *)

Record weather_obj := WeatherObj {
  w_main : option string;
  w_description : option string;
  w_icon : option string;
}.

Record main_obj := MainObj {
  m_temp : option Qc;
  m_feels_like : option Qc;
  m_temp_min : option Qc;
  m_temp_max : option Qc;
  m_humidity : option Qc;
  m_pressure : option Qc;
}.

Record wind_obj := WindObj { wind_speed : option Qc; wind_gust : option Qc }.
Record coord_obj := CoordObj { coord_lat : option Qc; coord_lon : option Qc }.

Record current_json := CurrentJson {
  cur_name : option string;
  cur_sys_country : option string;
  cur_weather : option (list weather_obj);
  cur_main : option main_obj;
  cur_wind : option wind_obj;
  cur_timezone : option Z;
  cur_dt : option Z;
  cur_coord : option coord_obj;
}.

Record geo_item := GeoItem {
  geo_lat : Qc;
  geo_lon : Qc;
  geo_name : option string;
  geo_state : option string;
  geo_country : option string;
}.

(** ** Output *)

(** What a [print] call writes. The lines of the two reports are kept
    structured: a constructor stands for the f-string of the source and
    carries the values substituted into it. *)
Inductive line :=
  | Text (s : string)
  | ResolvedLocation (name : string) (lat lon : Qc)
  | SavedRawData (path : string)
  | ErrorLine (e : exn)
  | CurrentHeader (name country : string)
  | CurrentAsOf (local_time : string)
  | CurrentCondition (main description : string)
  | CurrentTemperature (temp feels_like : option Qc) (units_label : string)
  | CurrentMinMax (temp_min temp_max : option Qc) (units_label : string)
  | CurrentHumidity (humidity : option Qc)
  | CurrentPressure (pressure : option Qc)
  | CurrentWind (speed gust : option Qc)
  | CurrentCoordinates (lat lon : option Qc)
  | ForecastHeader (n : Z)
  | ForecastDay (date desc : string) (mi ma av : Qc) (units_label : string).

(** The document [json.dump] writes: a JSON object, keys in insertion order. *)
Inductive saved_value :=
  | SavedStr (s : string)
  | SavedCurrent (c : current_json)
  | SavedForecast (f : forecast_json).

Inductive endpoint := Geocoding | CurrentWeather | Forecast.

Inductive event :=
  | Stdout (l : line)
  | Stderr (l : line)
  | HttpGet (which : endpoint)
  | FileWrite (path : string) (doc : list (string * saved_value)).

(** How a piece of code ends: it returns, an [Exception] propagates out of
    it, or [sys.exit] was called ([SystemExit] is not an [Exception]). *)
Inductive outcome (A : Type) :=
  | Return (a : A)
  | Except (e : exn)
  | Exit (code : Z).
Arguments Return {A} a.
Arguments Except {A} e.
Arguments Exit {A} code.

(** Code that prints, calls the network or writes a file: the events it
    caused, in order, and how it ended. *)
Definition io (A : Type) : Type := list event * outcome A.

Global Instance io_ret : MRet io := λ A a, ([], Return a).
Global Instance io_bind : MBind io := λ A B f m,
  match m.2 with
  | Return a => (m.1 ++ (f a).1, (f a).2)
  | Except e => (m.1, Except e)
  | Exit c => (m.1, Exit c)
  end.

Definition emit (e : event) : io unit := ([e], Return ()).
Definition print (l : line) : io unit := emit (Stdout l).
Definition eprint (l : line) : io unit := emit (Stderr l).
Definition lift {A} (r : result A) : io A :=
  match r with
  | Ok a => ([], Return a)
  | Raise e => ([], Except e)
  end.

(** [sys.exit(code)] *)
Definition sys_exit {A} (code : Z) : io A := ([], Exit code).

(** [try: body / except Exception as e: handler e] *)
Definition try_except {A} (body : io A) (handler : exn → io A) : io A :=
  match body.2 with
  | Except e => (body.1 ++ (handler e).1, (handler e).2)
  | _ => body
  end.

(** [for x in l: body x] *)
Fixpoint for_each {A} (l : list A) (body : A → io unit) : io unit :=
  match l with
  | [] => mret ()
  | x :: l' => body x;; for_each l' body
  end.

(** The exit status of the interpreter once the top level has run: 0 when
    it returns, the code given to [sys.exit], and 1 (after a traceback) when
    an exception is left uncaught. *)
Definition exit_status {A} (o : outcome A) : Z :=
  match o with
  | Return _ => 0
  | Except _ => 1
  | Exit code => code
  end.

(** ** The text renderer *)

(** Truth value of an optional string: [None] and [""] are false. *)
Definition truthy (o : option string) : bool :=
  match o with
  | Some (String _ _) => true
  | _ => false
  end.

Definition day_line (units_label : string) (d : DaySummary) : line :=
  ForecastDay (date d) (capitalize (typical_weather d))
              (round1 (min_temp d)) (round1 (max_temp d)) (round1 (avg_temp d))
              units_label.

Definition print_forecast_summary
    (summary : list DaySummary) (units_label : string) (days : Z) : io unit :=
  print (ForecastHeader (Z.min days (Z.of_nat (length summary))));;
  for_each (slice_to summary days) (λ d, print (day_line units_label d));;
  print (Text "").

Definition print_current_weather
    (current : current_json) (units_label : string) : io unit :=
  let name := default "" (cur_name current) in
  let country := default "" (cur_sys_country current) in
  print (CurrentHeader name country);;
  weather ← lift (match default [WeatherObj None None None] (cur_weather current) with
                  | [] => Raise (Exn IndexError "list index out of range")
                  | w :: _ => Ok w
                  end);
  let main := default (MainObj None None None None None None) (cur_main current) in
  let wind := default (WindObj None None) (cur_wind current) in
  let tz_shift := default 0%Z (cur_timezone current) in
  let ts := default 0%Z (cur_dt current) in
  as_of ← lift (pretty_time_from_unix ts tz_shift);
  print (CurrentAsOf as_of);;
  print (CurrentCondition (default "" (w_main weather))
                          (default "" (w_description weather)));;
  print (CurrentTemperature (m_temp main) (m_feels_like main) units_label);;
  print (CurrentMinMax (m_temp_min main) (m_temp_max main) units_label);;
  print (CurrentHumidity (m_humidity main));;
  print (CurrentPressure (m_pressure main));;
  print (CurrentWind (wind_speed wind) (wind_gust wind));;
  match cur_coord current with
  | Some (CoordObj None None) | None => mret ()
  | Some c => print (CurrentCoordinates (coord_lat c) (coord_lon c))
  end;;
  print (Text "").

(** ** The command line *)

Record args := Args {
  args_city : option string;
  args_lat : option Qc;
  args_lon : option Qc;
  args_api_key : option string;
  args_units : string;
  args_save_json : option string;
  args_days : Z;
  args_streamlit : bool;
}.

(** What a run depends on besides its arguments: the environment variable,
    the answer of each endpoint (after [raise_for_status] and [r.json()]),
    whether the output file can be opened, how a float prints, and the
    Streamlit front end. *)
Record env := Env {
  environ_OPENWEATHER_API_KEY : option string;
  float_str : Qc → string;
  geocoding_response : option string → string → result (list geo_item);
  current_response : Qc → Qc → string → string → result current_json;
  forecast_response : Qc → Qc → string → string → result forecast_json;
  open_for_writing : string → result unit;
  run_streamlit_app : args → io unit;
}.

Definition get_api_key (w : env) (cli_key : option string) : result string :=
  let key := if truthy cli_key then cli_key else environ_OPENWEATHER_API_KEY w in
  match key with
  | Some (String c k) => Ok (String c k)
  | _ => Raise (Exn RuntimeError
      "OpenWeather API key not provided. Set OPENWEATHER_API_KEY or use --api-key.")
  end.

(** [sep.join(parts)] *)
Fixpoint join (sep : string) (parts : list string) : string :=
  match parts with
  | [] => ""
  | [p] => p
  | p :: rest => p +:+ sep +:+ join sep rest
  end.

(** The display name [geocode_city] builds from the first match. *)
Definition resolved_name_of (item : geo_item) : string :=
  let name_parts :=
    [default "" (geo_name item)]
    ++ (if truthy (geo_state item) then [default "" (geo_state item)] else [])
    ++ (if truthy (geo_country item) then [default "" (geo_country item)] else []) in
  join ", " (filter (λ p, p ≠ "") name_parts).

Definition not_found (city : option string) : exn :=
  Exn ValueError ("Could not find location for '" +:+ default "None" city +:+ "'").

Definition geocode_city (w : env) (city : option string) (api_key : string)
  : io (Qc * Qc * string) :=
  emit (HttpGet Geocoding);;
  data ← lift (geocoding_response w city api_key);
  match data with
  | [] => lift (Raise (not_found city))
  | item :: _ => mret (geo_lat item, geo_lon item, resolved_name_of item)
  end.

Definition fetch_current_weather (w : env) (lat lon : Qc) (api_key units : string)
  : io current_json :=
  emit (HttpGet CurrentWeather);;
  lift (current_response w lat lon api_key units).

Definition fetch_forecast (w : env) (lat lon : Qc) (api_key units : string)
  : io forecast_json :=
  emit (HttpGet Forecast);;
  lift (forecast_response w lat lon api_key units).

Definition units_label_of (units : string) : string :=
  if decide (units = "metric") then "°C"
  else if decide (units = "imperial") then "°F" else "K".

(** The object handed to [json.dump]. *)
Definition saved_document (resolved_name : string) (curr : current_json)
    (forecast : forecast_json) : list (string * saved_value) :=
  [("resolved", SavedStr resolved_name);
   ("current", SavedCurrent curr);
   ("forecast", SavedForecast forecast)].

(** The first [if] of the [try] block: coordinates from the command line
    when both are given, from the geocoder otherwise. *)
Definition resolve_location (w : env) (a : args) (api_key : string)
  : io (Qc * Qc * string) :=
  match args_lat a, args_lon a with
  | Some lat, Some lon =>
      mret (lat, lon, float_str w lat +:+ "," +:+ float_str w lon)
  | _, _ => geocode_city w (args_city a) api_key
  end.

(** The [if args.save_json:] block. Opening the file may fail; the dump
    itself, of values that came out of a JSON parser, is one write. *)
Definition save_raw_data (w : env) (a : args) (resolved_name : string)
    (curr : current_json) (forecast : forecast_json) : io unit :=
  match args_save_json a with
  | Some (String c p) =>
      let path := String c p in
      let out := saved_document resolved_name curr forecast in
      lift (open_for_writing w path);;
      emit (FileWrite path out);;
      print (SavedRawData path)
  | _ => mret ()
  end.

Section cli.
Context {O : PySetOrder}.

(** What follows the two fetches in the [try] block. *)
Definition report (w : env) (a : args) (units_label resolved_name : string)
    (curr : current_json) (forecast : forecast_json) : io unit :=
  save_raw_data w a resolved_name curr forecast;;
  print_current_weather curr units_label;;
  summary ← lift (summarize_forecast forecast);
  print_forecast_summary summary units_label (args_days a).

(** The body of the [try] block of [run_cli]. *)
Definition run_cli_body (w : env) (a : args) (api_key units units_label : string)
  : io unit :=
  '(lat, lon, resolved_name) ← resolve_location w a api_key;
  print (ResolvedLocation resolved_name lat lon);;
  curr ← fetch_current_weather w lat lon api_key units;
  forecast ← fetch_forecast w lat lon api_key units;
  report w a units_label resolved_name curr forecast.

Definition run_cli (w : env) (a : args) : io unit :=
  api_key ← lift (get_api_key w (args_api_key a));
  let units := lower (args_units a) in
  let units_label := units_label_of units in
  try_except (run_cli_body w a api_key units units_label)
             (λ e, eprint (ErrorLine e);; sys_exit 1).

Definition main (w : env) (a : args) : io unit :=
  match args_lat a, args_lon a with
  | Some _, None =>
      eprint (Text "[!] --lon is required when --lat is provided.");;
      sys_exit 2
  | _, _ => mret ()
  end;;
  if args_streamlit a then run_streamlit_app w a
  else
    (if bool_decide (args_lat a = None) && negb (truthy (args_city a)) then
       eprint (Text "Usage: provide --city 'City,COUNTRY' OR --lat LAT --lon LON");;
       print (Text "Example: python Weather_App.py --city 'Hyderabad,IN' --units metric");;
       sys_exit 2
     else mret ());;
    run_cli w a.
End cli.

(** ** Vocabulary of the statements *)

(** The timestamps [utcfromtimestamp] accepts: those whose UTC date falls in
    the years 1 to 9999. *)
Definition supported_timestamp (ts : Z) : Prop :=
  (1 ≤ EPOCH_ORDINAL + ts `div` 86400 ≤ MAX_ORDINAL)%Z.

(** The UTC calendar date of a timestamp, and its ISO string. *)
Definition utc_date (ts : Z) : pydate := ord2ymd (EPOCH_ORDINAL + ts `div` 86400)%Z.
Definition day_of (e : entry) : string := isoformat (utc_date (entry_dt e)).

(** The samples of one day, in input order, and the bucket they make. *)
Definition group (d : string) (items : list entry) : list entry :=
  filter (λ e, day_of e = d) items.

Definition bucket_of (g : list entry) : bucket :=
  Bucket (entry_temp <$> g) (entry_description <$> g) (entry_icon <$> g).

Definition bucket_app (b1 b2 : bucket) : bucket :=
  Bucket (temps b1 ++ temps b2) (descs b1 ++ descs b2) (icons b1 ++ icons b2).

(** What a bucket becomes once the samples [g] of its day have been filed. *)
Definition bucket_extend (o : option bucket) (g : list entry) : option bucket :=
  match g with
  | [] => o
  | _ => Some (bucket_app (default (Bucket [] [] []) o) (bucket_of g))
  end.

(** The distinct days of the input, ascending. *)
Definition sorted_days (items : list entry) : list string :=
  merge_sort String.le (remove_dups (day_of <$> items)).

(** [x] occurs in [l] strictly more often than every other value. *)
Definition strict_majority {A} `{EqDecision A} (l : list A) (x : A) : Prop :=
  ∀ y, y ≠ x → (count l y < count l x)%nat.

(** [x] occurs in [l] at least as often as every other value. *)
Definition most_frequent {A} `{EqDecision A} (l : list A) (x : A) : Prop :=
  x ∈ l ∧ ∀ y, (count l y ≤ count l x)%nat.

(** The typical conditions and the icons of an aggregation, day by day. *)
Definition typical_conditions (r : result (list DaySummary)) : result (list string) :=
  match r with
  | Ok out => Ok (typical_weather <$> out)
  | Raise e => Raise e
  end.

(** The day lines among the events of a run. *)
Definition is_day_line (ev : event) : bool :=
  match ev with
  | Stdout (ForecastDay _ _ _ _ _ _) => true
  | _ => false
  end.
Definition rendered_days (t : list event) : list event :=
  filter (λ ev, is_day_line ev) t.

(** A run that only writes to standard output. *)
Definition only_prints (t : list event) : Prop :=
  ∀ ev, ev ∈ t → ∃ l, ev = Stdout l.

(** A run in which [sys.exit] is not called. *)
Definition never_exits {A} (m : io A) : Prop := ∀ code, m.2 ≠ Exit code.

(** The command lines [main] rejects before anything else: a latitude
    without a longitude, and neither a latitude nor a city. *)
Definition usage_error (a : args) : Prop :=
  (is_Some (args_lat a) ∧ args_lon a = None)
  ∨ (args_lat a = None ∧ truthy (args_city a) = false).

(** The runtime failures of a text-mode run, step by step: the step named
    raises [e] after every earlier step has succeeded. A network, HTTP or
    JSON error is a [Raise] of the endpoint's response; a place the
    geocoder does not know is the [ValueError] of [geocode_city]. *)
Section failures.
Context {O : PySetOrder}.
Context (w : env) (a : args) (api_key units units_label : string).

Inductive runtime_failure : exn → Prop :=
  | location_failure e :
      (resolve_location w a api_key).2 = Except e →
      runtime_failure e
  | current_weather_failure lat lon name e :
      (resolve_location w a api_key).2 = Return (lat, lon, name) →
      current_response w lat lon api_key units = Raise e →
      runtime_failure e
  | forecast_failure lat lon name curr e :
      (resolve_location w a api_key).2 = Return (lat, lon, name) →
      current_response w lat lon api_key units = Ok curr →
      forecast_response w lat lon api_key units = Raise e →
      runtime_failure e
  | save_failure lat lon name curr forecast e :
      (resolve_location w a api_key).2 = Return (lat, lon, name) →
      current_response w lat lon api_key units = Ok curr →
      forecast_response w lat lon api_key units = Ok forecast →
      (save_raw_data w a name curr forecast).2 = Except e →
      runtime_failure e
  | current_report_failure lat lon name curr forecast e :
      (resolve_location w a api_key).2 = Return (lat, lon, name) →
      current_response w lat lon api_key units = Ok curr →
      forecast_response w lat lon api_key units = Ok forecast →
      (save_raw_data w a name curr forecast).2 = Return () →
      (print_current_weather curr units_label).2 = Except e →
      runtime_failure e
  | summary_failure lat lon name curr forecast e :
      (resolve_location w a api_key).2 = Return (lat, lon, name) →
      current_response w lat lon api_key units = Ok curr →
      forecast_response w lat lon api_key units = Ok forecast →
      (save_raw_data w a name curr forecast).2 = Return () →
      (print_current_weather curr units_label).2 = Return () →
      summarize_forecast forecast = Raise e →
      runtime_failure e.
End failures.

(** Calendar order of two dates: by year, then month, then day. *)
Definition date_compare (d1 d2 : pydate) : comparison :=
  match (year d1 ?= year d2)%Z with
  | Eq => match (month d1 ?= month d2)%Z with
          | Eq => (day d1 ?= day d2)%Z
          | c => c
          end
  | c => c
  end.

Definition month_day_lt (a b : Z * Z) : Prop :=
  (a.1 < b.1 ∨ (a.1 = b.1 ∧ a.2 < b.2))%Z.

(** The endpoints asked in a run, and the lines written to the standard
    error stream, in order. *)
Definition requests (t : list event) : list endpoint :=
  omap (λ ev, match ev with HttpGet which => Some which | _ => None end) t.
Definition stderr_lines (t : list event) : list line :=
  omap (λ ev, match ev with Stderr l => Some l | _ => None end) t.

(** ** Sample inputs *)

(** Two samples of 1970-01-01 with different conditions, in both orders. *)
Definition tie_day : list entry :=
  [Entry 0 (Qc_of_Z 10) "clear sky" (Some "01d");
   Entry 10800 (Qc_of_Z 12) "light rain" (Some "10d")].
Definition tie_day_swapped : list entry :=
  [Entry 10800 (Qc_of_Z 12) "light rain" (Some "10d");
   Entry 0 (Qc_of_Z 10) "clear sky" (Some "01d")].


(** The scenario of the specification: 10, 20 and 15 degrees, clear twice. *)
Definition scenario_day : list entry :=
  [Entry 86400 (Qc_of_Z 10) "clear" None;
   Entry 97200 (Qc_of_Z 20) "clear" None;
   Entry 108000 (Qc_of_Z 15) "rain" None].

(** Three summaries to render. *)
Definition three_days : list DaySummary :=
  [mkDaySummary "1970-01-01" (Qc_of_Z 3) (Qc_of_Z 3) (Qc_of_Z 3) "snow" None;
   mkDaySummary "1970-01-02" (Qc_of_Z 10) (Qc_of_Z 20) (Qc_of_Z 15) "clear" None;
   mkDaySummary "1970-01-04" (Qc_of_Z 4) (Qc_of_Z 4) (Qc_of_Z 4) "fog" (Some "50d")].

(** A run in which every endpoint answers and the geocoder knows one place,
    with and without the API key in the environment. *)
Definition sample_current : current_json :=
  CurrentJson (Some "London") (Some "GB") None None None (Some 3600%Z) (Some 82800%Z) None.

Definition sample_env (key : option string) : env :=
  Env key (λ _, "0.0")
      (λ _ _, Ok [GeoItem (Qc_of_Z 51) (Qc_of_Z 0) (Some "London") None (Some "GB")])
      (λ _ _ _ _, Ok sample_current)
      (λ _ _ _ _, Ok (ForecastJson (Some scenario_day)))
      (λ _, Ok ())
      (λ _, mret ()).

Definition london_args : args :=
  Args (Some "London") None None None "metric" (Some "out.json") 5 false.

(** Samples of two days: two on 1970-01-02, one on 1970-01-03; and the
    second day alone. *)
Definition two_days : list entry :=
  [Entry 86400 (Qc_of_Z 10) "clear" None;
   Entry 129600 (Qc_of_Z 14) "clear" None;
   Entry 172800 (Qc_of_Z 7) "rain" (Some "10d")].
Definition last_day : list entry :=
  [Entry 172800 (Qc_of_Z 7) "rain" (Some "10d")].

(** A command line with coordinates, and a run in which the geocoder knows
    no place. *)
Definition coords_args : args :=
  Args None (Some (Qc_of_Z 51)) (Some (Qc_of_Z 0)) (Some "secret") "metric" None 5 false.

Definition nowhere_env : env :=
  Env (Some "secret") (λ _, "0.0")
      (λ _ _, Ok [])
      (λ _ _ _ _, Ok sample_current)
      (λ _ _ _ _, Ok (ForecastJson (Some scenario_day)))
      (λ _, Ok ())
      (λ _, mret ()).

(** * Properties *)

(** ** The result monad and its loops *)

Lemma bind_Ok {A B} (f : A → result B) (r : result A) (b : B) :
  r ≫= f = Ok b ↔ ∃ a, r = Ok a ∧ f a = Ok b.
Proof.
  destruct r as [a|e]; simpl; split.
  - eauto.
  - by intros (? & [= <-] & ?).
  - done.
  - by intros (? & [=] & _).
Qed.

Lemma mapM_Ok {A B} (f : A → result B) (l : list A) (out : list B) :
  mapM f l = Ok out ↔ Forall2 (λ x y, f x = Ok y) l out.
Proof.
  revert out. induction l as [|x l IH]; intros out; simpl.
  - split; [intros [= <-]; constructor | by inversion 1].
  - rewrite bind_Ok. split.
    + intros (y & Hy & Hrest). apply bind_Ok in Hrest as (ys & Hys & [= <-]).
      constructor; [done|]. by apply IH.
    + inversion 1 as [|? y ? ys Hy Hys]; subst. exists y. split; [done|].
      apply bind_Ok. exists ys. split; [by apply IH | done].
Qed.

Lemma mapM_total {A B} (f : A → result B) (l : list A) :
  Forall (λ x, is_Ok (f x)) l → ∃ out, mapM f l = Ok out.
Proof.
  induction 1 as [|x l Hx _ [out Hout]]; simpl; [by eexists|].
  destruct (f x) as [y|]; [|done]. simpl. rewrite Hout. by eexists.
Qed.

Lemma mapM_ext {A B} (f g : A → result B) (l : list A) :
  (∀ x, x ∈ l → f x = g x) → mapM f l = mapM g l.
Proof.
  induction l as [|x l IH]; intros Hfg; simpl; [done|].
  rewrite (Hfg x) by left. rewrite IH; [done|]. intros; apply Hfg. by right.
Qed.

(** ** [count], [max] with a key, [min], [max], [mean] *)

Lemma count_Permutation {A} `{EqDecision A} (l1 l2 : list A) (x : A) :
  l1 ≡ₚ l2 → count l1 x = count l2 x.
Proof. intros Hp. unfold count. by rewrite Hp. Qed.

Lemma count_pos {A} `{EqDecision A} (l : list A) (x : A) :
  (0 < count l x)%nat ↔ x ∈ l.
Proof.
  unfold count. induction l as [|y l IH]; simpl.
  - split; [lia | by inversion 1].
  - rewrite filter_cons. destruct (decide (x = y)) as [->|Hne]; simpl.
    + split; [left | lia].
    + rewrite IH. split; [by right | inversion 1; by subst].
Qed.

Lemma max_key_from_spec {A} (key : A → nat) (x : A) (rest : list A) :
  let m := max_key_from key x rest in
  m ∈ x :: rest ∧ ∀ y, y ∈ x :: rest → (key y ≤ key m)%nat.
Proof.
  unfold max_key_from. revert x. induction rest as [|z rest IH]; intros x; simpl.
  - split; [left|]. by intros y ->%list_elem_of_singleton.
  - destruct (IH (if decide (key x < key z)%nat then z else x)) as [Hin Hmax].
    split.
    + apply elem_of_cons in Hin as [->|Hin].
      * case_decide; [right; left | left].
      * by do 2 right.
    + intros y Hy.
      assert (key x ≤ key (if decide (key x < key z)%nat then z else x)
              ∧ key z ≤ key (if decide (key x < key z)%nat then z else x))%nat
        as [Hx Hz] by (case_decide; lia).
      apply elem_of_cons in Hy as [->|Hy].
      { etrans; [exact Hx|]. apply Hmax. left. }
      apply elem_of_cons in Hy as [->|Hy].
      { etrans; [exact Hz|]. apply Hmax. left. }
      apply Hmax. by right.
Qed.

Lemma py_max_key_spec {A} (key : A → nat) (it : list A) (m : A) :
  py_max_key key it = Ok m → m ∈ it ∧ ∀ y, y ∈ it → (key y ≤ key m)%nat.
Proof.
  destruct it as [|x rest]; simpl; [done|]. intros [= <-].
  apply max_key_from_spec.
Qed.

Lemma py_min_spec (l : list Qc) (m : Qc) :
  py_min l = Ok m → m ∈ l ∧ ∀ y, y ∈ l → (m ≤ y)%Qc.
Proof.
  destruct l as [|x rest]; simpl; [done|]. intros [= <-].
  revert x. induction rest as [|z rest IH]; intros x; simpl.
  - split; [left|]. intros y ->%list_elem_of_singleton. apply Qcle_refl.
  - set (b := if decide (z < x)%Qc then z else x).
    destruct (IH b) as [Hin Hmin].
    assert (b ≤ x ∧ b ≤ z)%Qc as [Hx Hz].
    { unfold b. case_decide.
      - split; [by apply Qclt_le_weak | apply Qcle_refl].
      - split; [apply Qcle_refl | by apply Qcnot_lt_le]. }
    split.
    + apply elem_of_cons in Hin as [->|Hin].
      * unfold b. case_decide; [right; left | left].
      * by do 2 right.
    + intros y Hy.
      apply elem_of_cons in Hy as [->|Hy].
      { eapply Qcle_trans; [|exact Hx]. apply Hmin. left. }
      apply elem_of_cons in Hy as [->|Hy].
      { eapply Qcle_trans; [|exact Hz]. apply Hmin. left. }
      apply Hmin. by right.
Qed.

Lemma py_max_spec (l : list Qc) (m : Qc) :
  py_max l = Ok m → m ∈ l ∧ ∀ y, y ∈ l → (y ≤ m)%Qc.
Proof.
  destruct l as [|x rest]; simpl; [done|]. intros [= <-].
  revert x. induction rest as [|z rest IH]; intros x; simpl.
  - split; [left|]. intros y ->%list_elem_of_singleton. apply Qcle_refl.
  - set (b := if decide (x < z)%Qc then z else x).
    destruct (IH b) as [Hin Hmax].
    assert (x ≤ b ∧ z ≤ b)%Qc as [Hx Hz].
    { unfold b. case_decide.
      - split; [by apply Qclt_le_weak | apply Qcle_refl].
      - split; [apply Qcle_refl | by apply Qcnot_lt_le]. }
    split.
    + apply elem_of_cons in Hin as [->|Hin].
      * unfold b. case_decide; [right; left | left].
      * by do 2 right.
    + intros y Hy.
      apply elem_of_cons in Hy as [->|Hy].
      { eapply Qcle_trans; [exact Hx|]. apply Hmax. left. }
      apply elem_of_cons in Hy as [->|Hy].
      { eapply Qcle_trans; [exact Hz|]. apply Hmax. left. }
      apply Hmax. by right.
Qed.

Lemma Qc_sum_Permutation (l1 l2 : list Qc) : l1 ≡ₚ l2 → Qc_sum l1 = Qc_sum l2.
Proof.
  unfold Qc_sum. induction 1 as [|x l1 l2 _ IH|x y l|l1 l2 l3 _ IH1 _ IH2]; simpl.
  - done.
  - by rewrite IH.
  - by rewrite !Qcplus_assoc, (Qcplus_comm y x).
  - by rewrite IH1.
Qed.

Lemma Qc_of_nat_S (n : nat) :
  Qc_of_Z (Z.of_nat (S n)) = (Qc_of_Z (Z.of_nat n) + 1)%Qc.
Proof. by rewrite Nat2Z.inj_succ, <-Z.add_1_r, Z2Qc_inj_add, Z2Qc_inj_1. Qed.

Lemma Qc_of_nat_pos (n : nat) : (0 < n)%nat → (0 < Qc_of_Z (Z.of_nat n))%Qc.
Proof. intros. rewrite <-Z2Qc_inj_0. apply (proj1 (Z2Qc_inj_lt _ _)). lia. Qed.

(** A sum lies between [length] times a lower and an upper bound. *)
Lemma Qc_sum_bounds (l : list Qc) (lo hi : Qc) :
  (∀ x, x ∈ l → lo ≤ x ∧ x ≤ hi)%Qc →
  (lo * Qc_of_Z (Z.of_nat (length l)) ≤ Qc_sum l
   ∧ Qc_sum l ≤ hi * Qc_of_Z (Z.of_nat (length l)))%Qc.
Proof.
  induction l as [|x l IH]; intros Hb.
  - change (Z.of_nat (length (@nil Qc))) with 0%Z.
    rewrite Z2Qc_inj_0, !Qcmult_0_r. split; apply Qcle_refl.
  - destruct IH as [IHlo IHhi]; [intros; apply Hb; by right|].
    destruct (Hb x) as [Hlo Hhi]; [left|].
    change (Qc_sum (x :: l)) with (x + Qc_sum l)%Qc.
    change (length (x :: l)) with (S (length l)).
    rewrite Qc_of_nat_S, !Qcmult_plus_distr_r, !Qcmult_1_r.
    rewrite !(Qcplus_comm _ lo), !(Qcplus_comm _ hi).
    split; by apply Qcplus_le_compat.
Qed.

Lemma statistics_mean_spec (l : list Qc) (a : Qc) :
  statistics_mean l = Ok a →
  l ≠ [] ∧ a = (Qc_sum l / Qc_of_Z (Z.of_nat (length l)))%Qc.
Proof. destruct l; simpl; [done|]. by intros [= <-]. Qed.

Lemma statistics_mean_bounds (l : list Qc) (a lo hi : Qc) :
  statistics_mean l = Ok a →
  (∀ x, x ∈ l → lo ≤ x ∧ x ≤ hi)%Qc →
  (lo ≤ a ∧ a ≤ hi)%Qc.
Proof.
  intros [Hne ->]%statistics_mean_spec Hb.
  destruct (Qc_sum_bounds l lo hi Hb) as [Hlo Hhi].
  assert (0 < Qc_of_Z (Z.of_nat (length l)))%Qc as Hn.
  { apply Qc_of_nat_pos. destruct l; [done | simpl; lia]. }
  set (n := Qc_of_Z (Z.of_nat (length l))) in *.
  assert (n ≠ 0%Qc) as Hn0 by (by apply not_symmetry, Qclt_not_eq).
  split; apply (Qcmult_lt_0_le_reg_r _ _ n Hn);
    unfold Qcdiv; rewrite <-Qcmult_assoc, Qcmult_inv_l, Qcmult_1_r; done.
Qed.

(** For float data the library converts the exact mean to the nearest
    float. Whatever the rounding, as long as it is monotone and leaves the
    bounds themselves unchanged (the minimum and the maximum of float data
    are floats), the rounded mean stays between them. *)
Lemma rounded_mean_bounds (rnd : Qc → Qc) (l : list Qc) (a lo hi : Qc) :
  (∀ x y, x ≤ y → rnd x ≤ rnd y)%Qc →
  rnd lo = lo → rnd hi = hi →
  statistics_mean l = Ok a →
  (∀ x, x ∈ l → lo ≤ x ∧ x ≤ hi)%Qc →
  (lo ≤ rnd a ∧ rnd a ≤ hi)%Qc.
Proof.
  intros Hmono Hlo Hhi Ha Hb.
  destruct (statistics_mean_bounds l a lo hi Ha Hb) as [H1 H2].
  split; [rewrite <-Hlo | rewrite <-Hhi]; by apply Hmono.
Qed.


(** ** Calendar dates *)

Section datetime_facts.
Local Open Scope Z_scope.

(** The years before a year [400a + 100b + 4c + e + 1] hold that many
    days. *)
Lemma days_before_year_split (a b c e : Z) :
  0 ≤ b ≤ 3 → 0 ≤ c ≤ 24 → 0 ≤ e ≤ 3 →
  days_before_year (400 * a + 100 * b + 4 * c + e + 1)
  = 146097 * a + 36524 * b + 1461 * c + 365 * e.
Proof.
  intros Hb Hc He. unfold days_before_year. cbn zeta.
  replace (400 * a + 100 * b + 4 * c + e + 1 - 1)
    with (400 * a + 100 * b + 4 * c + e) by lia.
  rewrite <-(Z.div_unique (400 * a + 100 * b + 4 * c + e) 4 (100 * a + 25 * b + c) e) by lia.
  rewrite <-(Z.div_unique (400 * a + 100 * b + 4 * c + e) 100 (4 * a + b) (4 * c + e)) by lia.
  rewrite <-(Z.div_unique (400 * a + 100 * b + 4 * c + e) 400 a (100 * b + 4 * c + e)) by lia.
  lia.
Qed.

Lemma is_leap_split (a b c e : Z) :
  0 ≤ b ≤ 3 → 0 ≤ c ≤ 24 → 0 ≤ e ≤ 3 →
  is_leap (400 * a + 100 * b + 4 * c + e + 1)
  = bool_decide (e = 3 ∧ (c ≠ 24 ∨ b = 3)).
Proof.
  intros Hb Hc He. unfold is_leap.
  set (y := 400 * a + 100 * b + 4 * c + e + 1).
  assert (y `mod` 4 = (e + 1) `mod` 4) as ->.
  { unfold y. replace (400 * a + 100 * b + 4 * c + e + 1)
      with ((e + 1) + (100 * a + 25 * b + c) * 4) by lia. apply Z.mod_add. lia. }
  assert (y `mod` 100 = (4 * c + e + 1) `mod` 100) as ->.
  { unfold y. replace (400 * a + 100 * b + 4 * c + e + 1)
      with ((4 * c + e + 1) + (4 * a + b) * 100) by lia. apply Z.mod_add. lia. }
  assert (y `mod` 400 = (100 * b + 4 * c + e + 1) `mod` 400) as ->.
  { unfold y. replace (400 * a + 100 * b + 4 * c + e + 1)
      with ((100 * b + 4 * c + e + 1) + a * 400) by lia. apply Z.mod_add. lia. }
  apply bool_decide_ext. Z.div_mod_to_equations. lia.
Qed.

Lemma month_day_spec (leapyear : bool) (n : Z) :
  0 ≤ n ≤ 364 → month_day_ok leapyear n.
Proof.
  intros Hn.
  assert (Forall (month_day_ok leapyear) (seqZ 0 365)) as Hall.
  { apply (bool_decide_unpack _). by destruct leapyear; vm_compute. }
  eapply Forall_forall in Hall; [exact Hall|]. apply elem_of_seqZ. lia.
Qed.

(** [ord2ymd] read off the decomposition of the day number into 400-year,
    100-year and 4-year cycles, years and days. *)
Lemma ord2ymd_split (n : Z) :
  ∃ a b c e r,
    n - 1 = 146097 * a + 36524 * b + 1461 * c + 365 * e + r
    ∧ 0 ≤ b ≤ 4 ∧ 0 ≤ c ≤ 24 ∧ 0 ≤ e ≤ 4 ∧ 0 ≤ r ≤ 364
    ∧ 36524 * b + 1461 * c + 365 * e + r < 146097
    ∧ 1461 * c + 365 * e + r < 36524
    ∧ 365 * e + r < 1461
    ∧ ord2ymd n
      = if bool_decide (e = 4 ∨ b = 4)
        then PyDate (400 * a + 100 * b + 4 * c + e) 12 31
        else let md := month_day (bool_decide (e = 3 ∧ (c ≠ 24 ∨ b = 3))) r in
             PyDate (400 * a + 100 * b + 4 * c + e + 1) md.1 md.2.
Proof.
  unfold ord2ymd, DI400Y, DI100Y, DI4Y.
  set (n0 := n - 1).
  set (a := n0 `div` 146097). set (r1 := n0 `mod` 146097).
  set (b := r1 `div` 36524). set (r2 := r1 `mod` 36524).
  set (c := r2 `div` 1461). set (r3 := r2 `mod` 1461).
  set (e := r3 `div` 365). set (r := r3 `mod` 365).
  assert (n0 = 146097 * a + r1 ∧ 0 ≤ r1 < 146097) as [Hn0 Hr1].
  { unfold a, r1. split; [apply Z.div_mod; lia | apply Z.mod_pos_bound; lia]. }
  assert (r1 = 36524 * b + r2 ∧ 0 ≤ r2 < 36524) as [Hr1' Hr2].
  { unfold b, r2. split; [apply Z.div_mod; lia | apply Z.mod_pos_bound; lia]. }
  assert (r2 = 1461 * c + r3 ∧ 0 ≤ r3 < 1461) as [Hr2' Hr3].
  { unfold c, r3. split; [apply Z.div_mod; lia | apply Z.mod_pos_bound; lia]. }
  assert (r3 = 365 * e + r ∧ 0 ≤ r < 365) as [Hr3' Hr4].
  { unfold e, r. split; [apply Z.div_mod; lia | apply Z.mod_pos_bound; lia]. }
  clearbody a r1 b r2 c r3 e r.
  exists a, b, c, e, r. repeat (split; [lia|]).
  case_bool_decide; [f_equal; lia|].
  unfold month_day. cbn zeta.
  replace (a * 400 + 1 + b * 100 + c * 4 + e) with (400 * a + 100 * b + 4 * c + e + 1) by lia.
  by case_bool_decide.
Qed.

Lemma ord2ymd_ymd2ord (n : Z) : ymd2ord (ord2ymd n) = n.
Proof.
  destruct (ord2ymd_split n)
    as (a & b & c & e & r & Hn & Hb & Hc & He & Hr & H1 & H2 & H3 & ->).
  unfold ymd2ord, days_before_month. case_bool_decide as Hspecial; cbn [year month day].
  - assert (400 * a + 100 * b + 4 * c + e
            = 400 * a + 100 * (if bool_decide (b = 4) then 3 else b)
              + 4 * (if bool_decide (b = 4) then 24 else c) + 3 + 1) as ->
      by (case_bool_decide; lia).
    rewrite days_before_year_split, is_leap_split by (repeat case_bool_decide; lia).
    rewrite (bool_decide_eq_true_2 (3 = 3 ∧ _)) by (repeat case_bool_decide; lia).
    change (tbl DAYS_BEFORE_MONTH 12) with 334. cbn [andb].
    rewrite (bool_decide_eq_true_2 (12 > 2)) by lia.
    cbn [andb]. case_bool_decide; lia.
  - pose proof (month_day_spec (bool_decide (e = 3 ∧ (c ≠ 24 ∨ b = 3))) r Hr)
      as (_ & _ & Hmd).
    cbn zeta. cbn [year month day].
    rewrite days_before_year_split, is_leap_split by lia.
    cbn zeta in Hmd. lia.
Qed.

Lemma ord2ymd_inj (n1 n2 : Z) : ord2ymd n1 = ord2ymd n2 → n1 = n2.
Proof.
  intros Heq. by rewrite <-(ord2ymd_ymd2ord n1), <-(ord2ymd_ymd2ord n2), Heq.
Qed.

(** Dates in [datetime]'s range have four-digit years and two-digit months
    and days. *)
Lemma ord2ymd_range (n : Z) :
  1 ≤ n ≤ MAX_ORDINAL →
  1 ≤ year (ord2ymd n) ≤ 9999
  ∧ 1 ≤ month (ord2ymd n) ≤ 12
  ∧ 1 ≤ day (ord2ymd n) ≤ 31.
Proof.
  unfold MAX_ORDINAL. intros Hn.
  destruct (ord2ymd_split n)
    as (a & b & c & e & r & Hsplit & Hb & Hc & He & Hr & H1 & H2 & H3 & ->).
  case_bool_decide as Hspecial; cbn [year month day].
  - lia.
  - pose proof (month_day_spec (bool_decide (e = 3 ∧ (c ≠ 24 ∨ b = 3))) r Hr)
      as (Hm & Hd & _).
    cbn zeta in *. split; [lia|]. done.
Qed.

(** ** ISO dates are read back without ambiguity *)

Lemma digit_inj (n m : Z) : digit n = digit m → n `mod` 10 = m `mod` 10.
Proof.
  unfold digit. intros Heq%(f_equal nat_of_ascii).
  assert (0 ≤ n `mod` 10 < 10 ∧ 0 ≤ m `mod` 10 < 10) as [Hn Hm]
    by (split; apply Z.mod_pos_bound; lia).
  rewrite !nat_ascii_embedding in Heq by lia. lia.
Qed.

Lemma zdigits_inj (w : nat) (n m : Z) (acc acc' : string) :
  0 ≤ n < 10 ^ Z.of_nat w → 0 ≤ m < 10 ^ Z.of_nat w →
  zdigits w n acc = zdigits w m acc' → n = m ∧ acc = acc'.
Proof.
  revert n m acc acc'. induction w as [|w IH]; intros n m acc acc' Hn Hm; cbn [zdigits].
  - change (10 ^ Z.of_nat 0) with 1 in *. intros ->. split; [lia|done].
  - rewrite Nat2Z.inj_succ, Z.pow_succ_r in Hn, Hm by lia.
    intros Heq. apply IH in Heq as [Hdiv Hacc].
    + injection Hacc as Hd%digit_inj ->. split; [|done].
      rewrite (Z.div_mod n 10), (Z.div_mod m 10) by lia. congruence.
    + split; [apply Z.div_pos; lia | apply Z.div_lt_upper_bound; lia].
    + split; [apply Z.div_pos; lia | apply Z.div_lt_upper_bound; lia].
Qed.

Lemma String_tail_inj (c : ascii) (s s' : string) : String c s = String c s' → s = s'.
Proof. congruence. Qed.

Lemma isoformat_inj (d1 d2 : pydate) :
  0 ≤ year d1 ≤ 9999 → 0 ≤ month d1 ≤ 99 → 0 ≤ day d1 ≤ 99 →
  0 ≤ year d2 ≤ 9999 → 0 ≤ month d2 ≤ 99 → 0 ≤ day d2 ≤ 99 →
  isoformat d1 = isoformat d2 → d1 = d2.
Proof.
  destruct d1 as [y1 m1 dd1], d2 as [y2 m2 dd2]. unfold isoformat. cbn [year month day].
  intros ?????? Heq.
  apply zdigits_inj in Heq as [-> Heq]; [|simpl; lia..].
  apply String_tail_inj in Heq.
  apply zdigits_inj in Heq as [-> Heq]; [|simpl; lia..].
  apply String_tail_inj in Heq.
  apply zdigits_inj in Heq as [-> _]; [|simpl; lia..].
  done.
Qed.

(** Two samples are filed under the same date exactly when their
    timestamps fall in the same UTC day, that is, have the same quotient by
    86400 seconds. *)
Lemma day_of_eq_iff (e1 e2 : entry) :
  supported_timestamp (entry_dt e1) → supported_timestamp (entry_dt e2) →
  day_of e1 = day_of e2 ↔ entry_dt e1 `div` 86400 = entry_dt e2 `div` 86400.
Proof.
  unfold supported_timestamp, day_of, utc_date. intros H1 H2. split.
  - intros Heq.
    pose proof (ord2ymd_range _ H1) as (? & ? & ?).
    pose proof (ord2ymd_range _ H2) as (? & ? & ?).
    apply isoformat_inj, ord2ymd_inj in Heq; lia.
  - by intros ->.
Qed.

Lemma length_remove_dups_fmap {A B C} `{EqDecision B, EqDecision C}
    (f : A → B) (g : A → C) (l : list A) :
  (∀ x y, x ∈ l → y ∈ l → f x = f y ↔ g x = g y) →
  length (remove_dups (f <$> l)) = length (remove_dups (g <$> l)).
Proof.
  induction l as [|x l IH]; intros Hfg; [done|]. cbn [fmap list_fmap remove_dups].
  assert (f x ∈ f <$> l ↔ g x ∈ g <$> l) as Hin.
  { rewrite !list_elem_of_fmap. split; intros (y & Hy & Hyl); exists y.
    - split; [|done]. apply Hfg; [left | by right | done].
    - split; [|done]. apply Hfg; [left | by right | done]. }
  specialize (IH (λ y z Hy Hz, Hfg y z (list_elem_of_further _ _ _ Hy)
                                        (list_elem_of_further _ _ _ Hz))).
  destruct (decide_rel elem_of (f x) (f <$> l)), (decide_rel elem_of (g x) (g <$> l));
    cbn [length]; [done | tauto | tauto | by rewrite IH].
Qed.
End datetime_facts.

(** ** The first loop: filing samples under their day *)

Lemma date_key_supported (ts : Z) :
  supported_timestamp ts → date_key ts = Ok (isoformat (utc_date ts)).
Proof.
  intros Hs. unfold date_key, utcfromtimestamp.
  rewrite bool_decide_eq_true_2 by exact Hs. done.
Qed.

Lemma date_key_unsupported (ts : Z) :
  ¬ supported_timestamp ts → ¬ is_Ok (date_key ts).
Proof.
  intros Hs. unfold date_key, utcfromtimestamp.
  rewrite bool_decide_eq_false_2 by exact Hs. simpl. tauto.
Qed.

Lemma date_key_Ok (ts : Z) (k : string) :
  date_key ts = Ok k → supported_timestamp ts ∧ k = isoformat (utc_date ts).
Proof.
  intros Hk. destruct (decide (supported_timestamp ts)) as [Hs|Hs].
  - rewrite date_key_supported in Hk by done. by injection Hk as <-.
  - apply date_key_unsupported in Hs. rewrite Hk in Hs. by destruct Hs.
Qed.

Lemma bucket_app_assoc (b1 b2 b3 : bucket) :
  bucket_app (bucket_app b1 b2) b3 = bucket_app b1 (bucket_app b2 b3).
Proof. unfold bucket_app; simpl. by rewrite <-!(assoc_L (++)). Qed.

Lemma group_cons (d : string) (e : entry) (items : list entry) :
  group d (e :: items) = if decide (day_of e = d) then e :: group d items else group d items.
Proof. unfold group. by rewrite filter_cons. Qed.

Lemma add_entry_supported (m : gmap string bucket) (e : entry) :
  supported_timestamp (entry_dt e) →
  add_entry m e
  = Ok (<[day_of e := bucket_app (default (Bucket [] [] []) (m !! day_of e))
                                 (bucket_of [e])]> m).
Proof. intros Hs. unfold add_entry. by rewrite date_key_supported. Qed.

Lemma foldM_add_entry (items : list entry) (m : gmap string bucket) :
  Forall (λ e, supported_timestamp (entry_dt e)) items →
  ∃ m', foldM add_entry items m = Ok m'
        ∧ ∀ d, m' !! d = bucket_extend (m !! d) (group d items).
Proof.
  intros Hs. revert m. induction Hs as [|e items He _ IH]; intros m.
  - exists m. done.
  - cbn [foldM]. rewrite add_entry_supported by done. cbn [mbind result_bind].
    set (b := default (Bucket [] [] []) (m !! day_of e)).
    destruct (IH (<[day_of e := bucket_app b (bucket_of [e])]> m)) as (m' & Hm' & Hlook).
    exists m'. split; [exact Hm'|]. intros d. rewrite Hlook, group_cons.
    destruct (decide (day_of e = d)) as [<-|Hne].
    + rewrite lookup_insert_eq. unfold bucket_extend.
      destruct (group (day_of e) items) as [|e' g]; [done|].
      simpl default. rewrite bucket_app_assoc. done.
    + by rewrite lookup_insert_ne.
Qed.

Lemma foldM_add_entry_Ok (items : list entry) (m m' : gmap string bucket) :
  foldM add_entry items m = Ok m' →
  Forall (λ e, supported_timestamp (entry_dt e)) items.
Proof.
  revert m. induction items as [|e items IH]; intros m; simpl; [constructor|].
  intros (m1 & Hadd & Hrest)%bind_Ok. constructor; [|by eapply IH].
  unfold add_entry in Hadd. apply bind_Ok in Hadd as (k & Hk & _).
  by apply date_key_Ok in Hk as [? _].
Qed.

Lemma group_nil_iff (d : string) (items : list entry) :
  group d items = [] ↔ d ∉ day_of <$> items.
Proof.
  unfold group. rewrite list_elem_of_fmap. split.
  - intros Hnil (e & -> & He).
    assert (e ∈ filter (λ e', day_of e' = day_of e) items) as Hin
      by (by apply list_elem_of_filter).
    rewrite Hnil in Hin. by apply elem_of_nil in Hin.
  - intros Hno. destruct (filter _ items) as [|e g] eqn:Hf; [done|].
    assert (e ∈ filter (λ e', day_of e' = d) items) as [He Hin]%list_elem_of_filter
      by (rewrite Hf; left).
    destruct Hno. by exists e.
Qed.

Lemma bucket_app_nil_l (b : bucket) : bucket_app (Bucket [] [] []) b = b.
Proof. by destruct b. Qed.

(** After the first loop a day has a bucket exactly when a sample falls on
    it, and the bucket holds that day's samples in input order. *)
Lemma buckets_lookup (items : list entry) :
  Forall (λ e, supported_timestamp (entry_dt e)) items →
  ∃ buckets, foldM add_entry items ∅ = Ok buckets
    ∧ ∀ d, buckets !! d
           = if decide (group d items = []) then None
             else Some (bucket_of (group d items)).
Proof.
  intros Hs. destruct (foldM_add_entry items ∅ Hs) as (buckets & Hb & Hlook).
  exists buckets. split; [done|]. intros d. rewrite Hlook, lookup_empty.
  unfold bucket_extend. destruct (group d items) as [|e g]; [done|].
  rewrite decide_False by done. simpl default. by rewrite bucket_app_nil_l.
Qed.

(** ** [sorted(buckets.keys())] *)

Lemma sorted_keys_Sorted (buckets : gmap string bucket) :
  Sorted String.le (sorted_keys buckets).
Proof. apply (Sorted_merge_sort String.le). Qed.

Lemma sorted_days_Sorted (items : list entry) :
  Sorted String.le (sorted_days items).
Proof. apply (Sorted_merge_sort String.le). Qed.

Lemma sorted_days_Permutation (items : list entry) :
  sorted_days items ≡ₚ remove_dups (day_of <$> items).
Proof. apply (merge_sort_Permutation String.le). Qed.

Lemma sorted_days_NoDup (items : list entry) : NoDup (sorted_days items).
Proof. rewrite sorted_days_Permutation. apply NoDup_remove_dups. Qed.

Lemma elem_of_sorted_days (items : list entry) (d : string) :
  d ∈ sorted_days items ↔ ∃ e, e ∈ items ∧ day_of e = d.
Proof.
  rewrite sorted_days_Permutation, elem_of_remove_dups, list_elem_of_fmap.
  split; intros (e & ? & ?); by exists e.
Qed.

Lemma sorted_keys_days (items : list entry) (buckets : gmap string bucket) :
  (∀ d, buckets !! d
        = if decide (group d items = []) then None
          else Some (bucket_of (group d items))) →
  sorted_keys buckets = sorted_days items.
Proof.
  intros Hlook.
  apply (Sorted_unique String.le);
    [apply sorted_keys_Sorted | apply sorted_days_Sorted |].
  unfold sorted_keys. rewrite (merge_sort_Permutation String.le), sorted_days_Permutation.
  apply NoDup_Permutation.
  - apply NoDup_fst_map_to_list.
  - apply NoDup_remove_dups.
  - intros d. rewrite elem_of_remove_dups, list_elem_of_fmap.
    split.
    + intros ((d' & b) & -> & Hin). apply elem_of_map_to_list in Hin. simpl in *.
      rewrite Hlook in Hin. case_decide as Hg; [done|].
      destruct (decide (d' ∈ day_of <$> items)) as [Hd|Hd];
        [| by apply group_nil_iff in Hd].
      exact Hd.
    + intros Hd. assert (group d items ≠ []) as Hg by (by rewrite group_nil_iff; intros []).
      exists (d, bucket_of (group d items)). split; [done|].
      apply elem_of_map_to_list. rewrite Hlook. by rewrite decide_False.
Qed.

(** A sorted list without duplicates is strictly ascending. *)
Lemma Sorted_NoDup_strict (l : list string) :
  Sorted String.le l → NoDup l → StronglySorted (strict String.le) l.
Proof.
  intros Hs%(Sorted_StronglySorted _) Hnd. induction Hs as [|x l Hs IH Hx].
  - constructor.
  - apply NoDup_cons in Hnd as [Hx' Hnd]. constructor; [by apply IH|].
    apply Forall_forall. intros y Hy. split.
    + by eapply Forall_forall in Hx.
    + intros Hyx. eapply Forall_forall in Hx; [|done].
      assert (x = y) as Hxy by (by apply (anti_symm String.le)).
      subst. contradiction.
Qed.

(** ** The second loop: one summary per bucket *)

Section aggregator_facts.
Context {O : PySetOrder}.

Lemma most_common_spec {A} `{EqDecision A} (l : list A) (x : A) :
  most_common l = Ok x → most_frequent l x.
Proof.
  intros [Hin Hmax]%py_max_key_spec. rewrite elem_of_set_iter in Hin.
  split; [exact Hin|]. intros y. destruct (decide (y ∈ l)) as [Hy|Hy].
  - apply Hmax. by rewrite elem_of_set_iter.
  - apply (not_iff_compat (count_pos l y)) in Hy. lia.
Qed.

Lemma most_common_total {A} `{EqDecision A} (l : list A) :
  l ≠ [] → ∃ x, most_common l = Ok x.
Proof.
  intros Hl. unfold most_common. destruct (set_iter l) as [|x it] eqn:Hit.
  - destruct l as [|y l]; [done|].
    assert (y ∈ set_iter (y :: l)) as Hy by (rewrite elem_of_set_iter; left).
    rewrite Hit in Hy. by apply elem_of_nil in Hy.
  - by eexists.
Qed.

Lemma most_frequent_majority {A} `{EqDecision A} (l : list A) (x c : A) :
  most_frequent l x → strict_majority l c → x = c.
Proof.
  intros [_ Hmax] Hc. destruct (decide (x = c)) as [|Hne]; [done|].
  specialize (Hc x Hne). specialize (Hmax c). lia.
Qed.

(** What [summarize_bucket] returns, field by field. *)
Lemma summarize_bucket_Ok (d : string) (b : bucket) (s : DaySummary) :
  summarize_bucket d b = Ok s →
  date s = d
  ∧ most_common (descs b) = Ok (typical_weather s)
  ∧ match icons b with
    | [] => icon s = None
    | _ => most_common (icons b) = Ok (icon s)
    end
  ∧ py_min (temps b) = Ok (min_temp s)
  ∧ py_max (temps b) = Ok (max_temp s)
  ∧ statistics_mean (temps b) = Ok (avg_temp s).
Proof.
  unfold summarize_bucket.
  intros (c & Hc & Hrest)%bind_Ok.
  apply bind_Ok in Hrest as (i & Hi & Hrest).
  apply bind_Ok in Hrest as (mi & Hmi & Hrest).
  apply bind_Ok in Hrest as (ma & Hma & Hrest).
  apply bind_Ok in Hrest as (av & Hav & [= <-]). simpl.
  repeat split; try done. destruct (icons b); [by injection Hi as <-|done].
Qed.

Lemma summarize_bucket_total (d : string) (g : list entry) :
  g ≠ [] → ∃ s, summarize_bucket d (bucket_of g) = Ok s.
Proof.
  intros Hg. destruct g as [|e g]; [done|]. unfold summarize_bucket, bucket_of.
  cbn [temps descs icons fmap list_fmap].
  destruct (most_common_total (entry_description e :: (entry_description <$> g)))
    as [c ->]; [done|].
  destruct (most_common_total (entry_icon e :: (entry_icon <$> g)))
    as [i ->]; [done|].
  by eexists.
Qed.

(** The aggregator, loop by loop: the days of the input in ascending
    order, each summarised from its own samples. *)
Lemma summarize_items_by_day (items : list entry) :
  Forall (λ e, supported_timestamp (entry_dt e)) items →
  ∃ out, summarize_items items = Ok out
    ∧ Forall2 (λ d s, summarize_bucket d (bucket_of (group d items)) = Ok s)
              (sorted_days items) out.
Proof.
  intros Hs. destruct (buckets_lookup items Hs) as (buckets & Hb & Hlook).
  unfold summarize_items. rewrite Hb. cbn [mbind result_bind].
  rewrite (sorted_keys_days items buckets Hlook).
  assert (∀ d, d ∈ sorted_days items → group d items ≠ []) as Hne.
  { intros d (e & He & <-)%elem_of_sorted_days. rewrite group_nil_iff.
    intros []. apply list_elem_of_fmap. eauto. }
  rewrite (mapM_ext _ (λ d, summarize_bucket d (bucket_of (group d items)))).
  - destruct (mapM_total (λ d, summarize_bucket d (bucket_of (group d items)))
                (sorted_days items)) as [out Hout].
    { apply Forall_forall. intros d Hd.
      destruct (summarize_bucket_total d (group d items)) as [s ->]; [auto|done]. }
    exists out. split; [done|]. by apply mapM_Ok.
  - intros d Hd. unfold summarize_day, getitem. rewrite Hlook.
    by rewrite decide_False by auto.
Qed.

Lemma summarize_items_Ok (items : list entry) (out : list DaySummary) :
  summarize_items items = Ok out →
  Forall (λ e, supported_timestamp (entry_dt e)) items.
Proof.
  unfold summarize_items. intros (buckets & Hb & _)%bind_Ok.
  by eapply foldM_add_entry_Ok.
Qed.
End aggregator_facts.

Section aggregator_claims.
Context {O : PySetOrder}.

Local Abbreviation supported items :=
  (Forall (λ e, supported_timestamp (entry_dt e)) items).

(** The shape every statement about the aggregator starts from. *)
Lemma summarize_forecast_spec (items : list entry) :
  supported items →
  ∃ out, summarize_forecast (ForecastJson (Some items)) = Ok out
    ∧ date <$> out = sorted_days items
    ∧ ∀ s, s ∈ out →
        group (date s) items ≠ []
        ∧ summarize_bucket (date s) (bucket_of (group (date s) items)) = Ok s.
Proof.
  intros Hs. destruct (summarize_items_by_day items Hs) as (out & Hout & Hall).
  exists out. split; [exact Hout|].
  assert (∀ d, d ∈ sorted_days items → group d items ≠ []) as Hne.
  { intros d (e & He & <-)%elem_of_sorted_days. rewrite group_nil_iff.
    intros []. apply list_elem_of_fmap. eauto. }
  clear Hout. revert Hall Hne. generalize (sorted_days items). intros days Hall.
  induction Hall as [|d s days out Hd _ IH]; intros Hne.
  - split; [done|]. by intros s ?%elem_of_nil.
  - destruct IH as [IHd IHs]; [intros; apply Hne; by right|].
    pose proof (summarize_bucket_Ok _ _ _ Hd) as (Hdate & _).
    split; [by rewrite fmap_cons, IHd, Hdate|].
    intros s' [->|Hs']%elem_of_cons; [|by apply IHs].
    rewrite Hdate. split; [apply Hne; left | done].
Qed.

(** The aggregator returns exactly on the inputs whose timestamps
    [utcfromtimestamp] accepts; on the others it raises. *)
Lemma summarize_forecast_returns_iff (items : list entry) :
  is_Ok (summarize_forecast (ForecastJson (Some items))) ↔ supported items.
Proof.
  split.
  - destruct (summarize_forecast _) as [out|e] eqn:Hout; [|done].
    intros _. by eapply summarize_items_Ok.
  - intros Hs. by destruct (summarize_forecast_spec items Hs) as (out & -> & _).
Qed.

Lemma day_of_date_key (e : entry) (d : string) :
  supported_timestamp (entry_dt e) →
  date_key (entry_dt e) = Ok d ↔ day_of e = d.
Proof.
  intros Hs. rewrite date_key_supported by done. unfold day_of.
  split; [by intros [= <-] | by intros <-].
Qed.

(** C1: for every input sequence of samples (with timestamps that
    [datetime] can represent) the aggregator returns a list with exactly
    one summary per distinct date of the input: a date is in the output
    iff a sample falls on it, the output is as long as the number of
    distinct dates, which is the number of distinct UTC days (quotients of
    the timestamps by 86400 seconds), its dates are strictly ascending as
    strings and without duplicates; the empty input gives the empty
    output. *)
Theorem summarize_forecast_one_summary_per_date (items : list entry) :
  supported items →
  ∃ out, summarize_forecast (ForecastJson (Some items)) = Ok out
    ∧ (∀ d, d ∈ date <$> out ↔ ∃ e, e ∈ items ∧ date_key (entry_dt e) = Ok d)
    ∧ length out = length (remove_dups (day_of <$> items))
    ∧ length out = length (remove_dups ((λ e, entry_dt e `div` 86400)%Z <$> items))
    ∧ StronglySorted (strict String.le) (date <$> out)
    ∧ NoDup (date <$> out)
    ∧ (items = [] → out = []).
Proof.
  intros Hs. destruct (summarize_forecast_spec items Hs) as (out & Hout & Hd & _).
  exists out. split; [exact Hout|]. rewrite Hd. repeat split.
  - intros (e & He & <-)%elem_of_sorted_days. exists e. split; [done|].
    apply day_of_date_key; [|done]. by eapply Forall_forall in Hs.
  - intros (e & He & Hk). apply elem_of_sorted_days. exists e. split; [done|].
    apply day_of_date_key; [|done]. by eapply Forall_forall in Hs.
  - rewrite <-(length_fmap date), Hd. by rewrite sorted_days_Permutation.
  - rewrite <-(length_fmap date), Hd, sorted_days_Permutation.
    apply length_remove_dups_fmap. intros e1 e2 H1 H2.
    apply day_of_eq_iff; by eapply Forall_forall in Hs.
  - apply Sorted_NoDup_strict; [apply sorted_days_Sorted | apply sorted_days_NoDup].
  - apply sorted_days_NoDup.
  - intros ->. by destruct out.
Qed.

(** *** Reordering the input *)

Lemma group_Permutation (d : string) (items items' : list entry) :
  items' ≡ₚ items → group d items' ≡ₚ group d items.
Proof. intros Hp. unfold group. by rewrite Hp. Qed.

Lemma sorted_days_Permutation_eq (items items' : list entry) :
  items' ≡ₚ items → sorted_days items' = sorted_days items.
Proof.
  intros Hp. apply (Sorted_unique String.le); [apply sorted_days_Sorted..|].
  rewrite !sorted_days_Permutation.
  apply NoDup_Permutation; [apply NoDup_remove_dups..|].
  intros d. by rewrite !elem_of_remove_dups, Hp.
Qed.

Lemma strict_majority_Permutation {A} `{EqDecision A} (l l' : list A) (x : A) :
  l' ≡ₚ l → strict_majority l x → strict_majority l' x.
Proof.
  intros Hp Hx y Hy. rewrite !(count_Permutation l' l) by done. by apply Hx.
Qed.

Lemma strict_majority_elem_string (l : list string) (c : string) :
  strict_majority l c → c ∈ l.
Proof.
  intros Hc. apply count_pos.
  assert (String "a" c ≠ c) as Hne.
  { intros Heq%(f_equal String.length). simpl in Heq. lia. }
  specialize (Hc _ Hne). lia.
Qed.

Lemma strict_majority_elem_option (l : list (option string)) (v : option string) :
  strict_majority l v → v ∈ l.
Proof.
  intros Hv. apply count_pos.
  assert (∃ y, y ≠ v) as [y Hne].
  { destruct v; [by exists None | by exists (Some "")]. }
  specialize (Hv _ Hne). lia.
Qed.

Lemma elem_of_group (d : string) (e : entry) (items : list entry) :
  e ∈ group d items ↔ day_of e = d ∧ e ∈ items.
Proof. unfold group. by rewrite list_elem_of_filter. Qed.

(** Summaries are found by their date. *)
Lemma summary_of_date (items : list entry) (out : list DaySummary) (d : string) :
  date <$> out = sorted_days items →
  group d items ≠ [] → ∃ s, s ∈ out ∧ date s = d.
Proof.
  intros Hd Hg. assert (d ∈ date <$> out) as (s & -> & Hs)%list_elem_of_fmap.
  { rewrite Hd. destruct (group d items) as [|e g] eqn:He; [done|].
    assert (e ∈ group d items) as [? ?]%elem_of_group by (rewrite He; left).
    apply elem_of_sorted_days. eauto. }
  eauto.
Qed.

(** C2: when, among the samples of a day, one condition string occurs
    strictly more often than every other, the summary of that day carries
    that string as its typical condition, whatever order the samples come
    in and whatever order sets are iterated in. *)
Theorem typical_condition_strict_majority
    (items items' : list entry) (d c : string) :
  supported items →
  items' ≡ₚ items →
  strict_majority (entry_description <$> group d items) c →
  ∃ out, summarize_forecast (ForecastJson (Some items')) = Ok out
    ∧ (∃ s, s ∈ out ∧ date s = d)
    ∧ ∀ s, s ∈ out → date s = d → typical_weather s = c.
Proof.
  intros Hs Hp Hc.
  assert (supported items') as Hs' by (by rewrite Hp).
  destruct (summarize_forecast_spec items' Hs') as (out & Hout & Hd & Hall).
  exists out. split; [exact Hout|]. split.
  - apply (summary_of_date items'); [done|].
    intros Hnil. apply strict_majority_elem_string in Hc.
    rewrite <-(group_Permutation d items items' Hp), Hnil in Hc.
    by apply elem_of_nil in Hc.
  - intros s Hin <-. destruct (Hall s Hin) as [_ Hb].
    apply summarize_bucket_Ok in Hb as (_ & Hdesc & _).
    apply most_common_spec in Hdesc. simpl in Hdesc.
    eapply most_frequent_majority; [exact Hdesc|].
    eapply strict_majority_Permutation; [|exact Hc].
    by rewrite (group_Permutation _ _ _ Hp).
Qed.






Lemma Forall2_same_dates (R : DaySummary → DaySummary → Prop)
    (out out' : list DaySummary) :
  date <$> out = date <$> out' →
  (∀ s s', s ∈ out → s' ∈ out' → date s = date s' → R s s') →
  Forall2 R out out'.
Proof.
  revert out'. induction out as [|s out IH]; intros [|s' out'] Hd HR;
    try discriminate Hd; [constructor|].
  injection Hd as Hs Hd. constructor.
  - apply HR; [left | left | done].
  - apply IH; [done|]. intros ?????. apply HR; [by right | by right | done].
Qed.

Lemma DaySummary_eq (s s' : DaySummary) :
  date s = date s' → min_temp s = min_temp s' → max_temp s = max_temp s' →
  avg_temp s = avg_temp s' → typical_weather s = typical_weather s' →
  icon s = icon s' → s = s'.
Proof. destruct s, s'; simpl; congruence. Qed.

(** C5 (as amended): two orders of the same samples give summaries with
    the same dates in the same ascending order and the same minimum,
    maximum and average; the typical condition and the icon agree on every
    day on which one value occurs strictly more often than every other,
    and the two outputs are equal when that is so on every day. *)
Theorem reordered_input_same_summaries (items items' : list entry) :
  supported items →
  items' ≡ₚ items →
  ∃ out out',
    summarize_forecast (ForecastJson (Some items)) = Ok out
    ∧ summarize_forecast (ForecastJson (Some items')) = Ok out'
    ∧ StronglySorted (strict String.le) (date <$> out)
    ∧ Forall2 (λ s s',
        date s = date s' ∧ min_temp s = min_temp s'
        ∧ max_temp s = max_temp s' ∧ avg_temp s = avg_temp s'
        ∧ ((∃ c, strict_majority (entry_description <$> group (date s) items) c) →
           typical_weather s = typical_weather s')
        ∧ ((∃ v, strict_majority (entry_icon <$> group (date s) items) v) →
           icon s = icon s')) out out'
    ∧ ((∀ d, d ∈ date <$> out →
          (∃ c, strict_majority (entry_description <$> group d items) c)
          ∧ (∃ v, strict_majority (entry_icon <$> group d items) v)) →
       out = out').
Proof.
  intros Hs Hp.
  assert (supported items') as Hs' by (by rewrite Hp).
  destruct (summarize_forecast_spec items Hs) as (out & Hout & Hd & Hall).
  destruct (summarize_forecast_spec items' Hs') as (out' & Hout' & Hd' & Hall').
  exists out, out'. split; [exact Hout|]. split; [exact Hout'|].
  split.
  { rewrite Hd. apply Sorted_NoDup_strict;
      [apply sorted_days_Sorted | apply sorted_days_NoDup]. }
  assert (date <$> out = date <$> out') as Hdates
    by (by rewrite Hd, Hd', (sorted_days_Permutation_eq _ _ Hp)).
  match goal with |- Forall2 ?R _ _ ∧ _ => assert (Forall2 R out out') as HF end.
  { apply Forall2_same_dates; [exact Hdates|]. intros s s' Hin Hin' Hdate.
    destruct (Hall s Hin) as [_ Hb]. destruct (Hall' s' Hin') as [_ Hb'].
    rewrite <-Hdate in Hb'.
    pose proof (group_Permutation (date s) _ _ Hp) as Hg.
    apply summarize_bucket_Ok in Hb as (_ & Hc & Hi & Hmin & Hmax & Havg).
    apply summarize_bucket_Ok in Hb' as (_ & Hc' & Hi' & Hmin' & Hmax' & Havg').
    simpl in *.
    apply py_min_spec in Hmin as [Hmin_in Hmin], Hmin' as [Hmin_in' Hmin'].
    apply py_max_spec in Hmax as [Hmax_in Hmax], Hmax' as [Hmax_in' Hmax'].
    apply statistics_mean_spec in Havg as [_ ->], Havg' as [_ ->].
    split; [done|]. split; [|split; [|split; [|split]]].
    - apply Qcle_antisym; [apply Hmin; by rewrite <-Hg | apply Hmin'; by rewrite Hg].
    - apply Qcle_antisym; [apply Hmax'; by rewrite Hg | apply Hmax; by rewrite <-Hg].
    - by rewrite (Qc_sum_Permutation _ _ (fmap_Permutation entry_temp _ _ Hg)),
        !length_fmap, Hg.
    - intros [c Hmaj]. apply most_common_spec in Hc, Hc'.
      rewrite (most_frequent_majority _ _ c Hc Hmaj). symmetry.
      eapply most_frequent_majority; [exact Hc'|].
      eapply strict_majority_Permutation; [|exact Hmaj]. by rewrite Hg.
    - intros [v Hmaj].
      assert (v ∈ entry_icon <$> group (date s) items) as Hv
        by (by apply strict_majority_elem_option).
      destruct (entry_icon <$> group (date s) items) as [|i1 is1] eqn:E1;
        [by apply elem_of_nil in Hv|].
      destruct (entry_icon <$> group (date s) items') as [|i2 is2] eqn:E2.
      { apply (f_equal length) in E1, E2. rewrite length_fmap in E1, E2.
        rewrite Hg, E1 in E2. done. }
      apply most_common_spec in Hi, Hi'.
      rewrite (most_frequent_majority _ _ v Hi Hmaj). symmetry.
      eapply most_frequent_majority; [exact Hi'|].
      eapply strict_majority_Permutation; [|exact Hmaj].
      by rewrite <-E1, <-E2, Hg. }
  split; [exact HF|]. intros Hmaj.
  clear Hout Hout' Hd Hd' Hall Hall' Hdates.
  induction HF as [|s s' out out' (Hdate & Hmin & Hmax & Havg & Hc & Hi) _ IH];
    [done|].
  destruct (Hmaj (date s)) as [Hmc Hmi]; [left|].
  f_equal.
  - apply DaySummary_eq; auto.
  - apply IH. intros d Hin. apply Hmaj. by right.
Qed.

End aggregator_claims.

(** C5 (as stated) fails on a tie: with sets iterated in insertion order, a
    day with one "clear sky" and one "light rain" sample is summarised as
    "clear sky" in one input order and as "light rain" in the other. *)
Lemma tie_depends_on_input_order :
  tie_day_swapped ≡ₚ tie_day
  ∧ typical_conditions
      (summarize_forecast (O:=first_occurrence_order) (ForecastJson (Some tie_day)))
    = Ok ["clear sky"]
  ∧ typical_conditions
      (summarize_forecast (O:=first_occurrence_order) (ForecastJson (Some tie_day_swapped)))
    = Ok ["light rain"]
  ∧ summarize_forecast (O:=first_occurrence_order) (ForecastJson (Some tie_day))
    ≠ summarize_forecast (O:=first_occurrence_order) (ForecastJson (Some tie_day_swapped)).
Proof.
  split; [apply Permutation_swap|]. split; [by vm_compute|]. split; [by vm_compute|].
  intros Heq%(f_equal typical_conditions).
  vm_compute in Heq. discriminate Heq.
Qed.


(** C10: a forecast payload without the ["list"] key is summarised as the
    empty list, as is a payload whose list is empty. *)
Theorem summarize_forecast_missing_list {O : PySetOrder} :
  summarize_forecast (ForecastJson None) = Ok []
  ∧ summarize_forecast (ForecastJson None)
    = summarize_forecast (ForecastJson (Some [])).
Proof. split; reflexivity. Qed.

(** ** The statements at the scenario of the specification *)

Lemma scenario_day_supported :
  Forall (λ e, supported_timestamp (entry_dt e)) scenario_day.
Proof. repeat constructor; by vm_compute. Defined.

Lemma scenario_day_majority :
  strict_majority (entry_description <$> group "1970-01-02" scenario_day) "clear".
Proof.
  intros y Hy. unfold count.
  change (entry_description <$> group "1970-01-02" scenario_day)
    with ["clear"; "clear"; "rain"].
  rewrite !filter_cons, filter_nil. repeat case_decide; simplify_eq; simpl; lia.
Defined.

Lemma summarize_forecast_one_summary_per_date_witness :
  Forall (λ e, supported_timestamp (entry_dt e)) scenario_day
  ∧ ∃ out, summarize_forecast (O:=first_occurrence_order)
             (ForecastJson (Some scenario_day)) = Ok out
      ∧ (∀ d, d ∈ date <$> out
              ↔ ∃ e, e ∈ scenario_day ∧ date_key (entry_dt e) = Ok d)
      ∧ length out = length (remove_dups (day_of <$> scenario_day))
      ∧ length out
        = length (remove_dups ((λ e, entry_dt e `div` 86400)%Z <$> scenario_day))
      ∧ StronglySorted (strict String.le) (date <$> out)
      ∧ NoDup (date <$> out)
      ∧ (scenario_day = [] → out = []).
Proof.
  split; [exact scenario_day_supported|].
  exact (summarize_forecast_one_summary_per_date scenario_day scenario_day_supported).
Defined.

(** ** Runs: traces and outcomes *)

Lemma io_bind_unfold {A B} (m : io A) (f : A → io B) :
  m ≫= f = match m.2 with
           | Return a => (m.1 ++ (f a).1, (f a).2)
           | Except e => (m.1, Except e)
           | Exit c => (m.1, Exit c)
           end.
Proof. reflexivity. Qed.

Lemma never_exits_bind {A B} (m : io A) (f : A → io B) :
  never_exits m → (∀ a, never_exits (f a)) → never_exits (m ≫= f).
Proof.
  intros Hm Hf c. rewrite io_bind_unfold.
  destruct m.2 as [a|e|c'] eqn:E; simpl; [apply Hf | done | by destruct (Hm c')].
Qed.

Lemma never_exits_lift {A} (r : result A) : never_exits (lift r).
Proof. by destruct r. Qed.

Lemma never_exits_emit (ev : event) : never_exits (emit ev).
Proof. done. Qed.

Lemma for_each_print {A} (l : list A) (f : A → line) :
  for_each l (λ x, print (f x)) = ((λ x, Stdout (f x)) <$> l, Return ()).
Proof.
  induction l as [|x l IH]; [done|]. cbn [for_each]. by rewrite IH.
Qed.

Lemma print_forecast_summary_run
    (summary : list DaySummary) (units_label : string) (days : Z) :
  print_forecast_summary summary units_label days
  = (Stdout (ForecastHeader (Z.min days (Z.of_nat (length summary))))
       :: ((λ d, Stdout (day_line units_label d)) <$> slice_to summary days)
       ++ [Stdout (Text "")],
     Return ()).
Proof. unfold print_forecast_summary. by rewrite for_each_print. Qed.

Lemma rendered_days_day_lines (units_label : string) (l : list DaySummary) :
  rendered_days ((λ d, Stdout (day_line units_label d)) <$> l)
  = (λ d, Stdout (day_line units_label d)) <$> l.
Proof.
  unfold rendered_days. induction l as [|d l IH]; [done|].
  rewrite fmap_cons, filter_cons_True by done. by rewrite IH.
Qed.

Lemma rendered_days_print_forecast_summary
    (summary : list DaySummary) (units_label : string) (days : Z) :
  rendered_days (print_forecast_summary summary units_label days).1
  = (λ d, Stdout (day_line units_label d)) <$> slice_to summary days.
Proof.
  rewrite print_forecast_summary_run. cbn [fst]. unfold rendered_days.
  rewrite filter_cons_False by (simpl; tauto).
  rewrite filter_app, (filter_cons_False _ (Stdout (Text ""))) by (simpl; tauto).
  rewrite filter_nil, app_nil_r. apply rendered_days_day_lines.
Qed.

Lemma slice_to_nonneg {A} (l : list A) (k : Z) :
  (0 ≤ k)%Z → slice_to l k = take (Z.to_nat k) l.
Proof.
  intros Hk. unfold slice_to. rewrite bool_decide_eq_false_2 by lia.
  destruct (decide (k ≤ Z.of_nat (length l))%Z).
  - by rewrite Z.min_l.
  - rewrite Z.min_r, Nat2Z.id by lia. rewrite !take_ge; [done|lia..].
Qed.

(** C9 (as amended): for a day count [days ≥ 0] the renderer prints the
    header, then one line for each of the first [min(days, len(summary))]
    summaries, in the order of the list and carrying each summary's own
    date, condition and temperatures, then an empty line; it returns
    normally however short the list is. *)
Theorem print_forecast_summary_first_days
    (summary : list DaySummary) (units_label : string) (days : Z) :
  (0 ≤ days)%Z →
  let run := print_forecast_summary summary units_label days in
  run.2 = Return ()
  ∧ run.1 = Stdout (ForecastHeader (Z.min days (Z.of_nat (length summary))))
              :: rendered_days run.1 ++ [Stdout (Text "")]
  ∧ rendered_days run.1
    = (λ d, Stdout (day_line units_label d)) <$> take (Z.to_nat days) summary
  ∧ Z.of_nat (length (rendered_days run.1))
    = Z.min days (Z.of_nat (length summary)).
Proof.
  intros Hdays run. unfold run.
  rewrite rendered_days_print_forecast_summary, print_forecast_summary_run.
  rewrite slice_to_nonneg by done. cbn [fst snd].
  split; [done|]. split; [done|]. split; [done|].
  rewrite length_fmap, length_take. lia.
Qed.

Lemma print_forecast_summary_first_days_witness :
  (0 ≤ 5)%Z
  ∧ let run := print_forecast_summary three_days "°C" 5 in
    run.2 = Return ()
    ∧ run.1 = Stdout (ForecastHeader (Z.min 5 (Z.of_nat (length three_days))))
                :: rendered_days run.1 ++ [Stdout (Text "")]
    ∧ rendered_days run.1
      = (λ d, Stdout (day_line "°C" d)) <$> take (Z.to_nat 5) three_days
    ∧ Z.of_nat (length (rendered_days run.1))
      = Z.min 5 (Z.of_nat (length three_days)).
Proof.
  split; [lia|]. apply (print_forecast_summary_first_days three_days "°C" 5). lia.
Defined.

(** C9 (as stated) fails for a negative day count: [summary[:-1]] drops the
    last summary, so two of three are rendered, and [min(-1, 3)] is [-1]. *)
Lemma negative_day_count_renders_all_but_last :
  Z.of_nat (length (rendered_days (print_forecast_summary three_days "°C" (-1)).1)) = 2%Z
  ∧ Z.min (-1) (Z.of_nat (length three_days)) = (-1)%Z.
Proof. split; by vm_compute. Qed.

Lemma only_prints_app (t1 t2 : list event) :
  only_prints t1 → only_prints t2 → only_prints (t1 ++ t2).
Proof. intros H1 H2 ev [?|?]%elem_of_app; auto. Qed.

Lemma only_prints_cons (l : line) (t : list event) :
  only_prints t → only_prints (Stdout l :: t).
Proof. intros Ht ev [->|?]%elem_of_cons; eauto. Qed.

Lemma only_prints_nil : only_prints [].
Proof. by intros ev ?%elem_of_nil. Qed.

Lemma only_prints_bind {A B} (m : io A) (f : A → io B) :
  only_prints m.1 → (∀ a, only_prints (f a).1) → only_prints (m ≫= f).1.
Proof.
  intros Hm Hf. rewrite io_bind_unfold.
  destruct m.2; simpl; [apply only_prints_app; auto | done..].
Qed.

Lemma only_prints_lift {A} (r : result A) : only_prints (lift r).1.
Proof. destruct r; apply only_prints_nil. Qed.

Lemma only_prints_print (l : line) : only_prints (print l).1.
Proof. apply only_prints_cons, only_prints_nil. Qed.

Lemma only_prints_print_forecast_summary
    (summary : list DaySummary) (units_label : string) (days : Z) :
  only_prints (print_forecast_summary summary units_label days).1.
Proof.
  rewrite print_forecast_summary_run. cbn [fst].
  apply only_prints_cons, only_prints_app; [|apply only_prints_print].
  intros ev (d & -> & _)%list_elem_of_fmap. eauto.
Qed.

Lemma print_current_weather_prints (current : current_json) (units_label : string) :
  only_prints (print_current_weather current units_label).1
  ∧ never_exits (print_current_weather current units_label).
Proof.
  unfold print_current_weather. split.
  - repeat first
      [ apply only_prints_bind; [|intros ?]
      | apply only_prints_print
      | apply only_prints_lift ].
    destruct (cur_coord current) as [[[?|] [?|]]|];
      first [apply only_prints_print | apply only_prints_nil].
  - repeat first
      [ apply never_exits_bind; [|intros ?]
      | apply never_exits_emit
      | apply never_exits_lift ].
    by destruct (cur_coord current) as [[[?|] [?|]]|].
Qed.

Lemma never_exits_print_forecast_summary
    (summary : list DaySummary) (units_label : string) (days : Z) :
  never_exits (print_forecast_summary summary units_label days).
Proof. by rewrite print_forecast_summary_run. Qed.

(** No file is written while the location is resolved. *)
Lemma resolve_location_run (w : env) (a : args) (api_key : string) :
  never_exits (resolve_location w a api_key)
  ∧ ∀ ev, ev ∈ (resolve_location w a api_key).1 → ev = HttpGet Geocoding.
Proof.
  assert (never_exits (geocode_city w (args_city a) api_key)
          ∧ ∀ ev, ev ∈ (geocode_city w (args_city a) api_key).1 → ev = HttpGet Geocoding)
    as Hgeo.
  { unfold geocode_city. rewrite io_bind_unfold. cbn [emit fst snd].
    rewrite io_bind_unfold.
    destruct (geocoding_response w (args_city a) api_key) as [[|item data]|e]; cbn;
      (split; [done|]); intros ev Hev; rewrite ?app_nil_r in Hev;
      by apply list_elem_of_singleton in Hev. }
  unfold resolve_location.
  destruct (args_lat a) as [lat|], (args_lon a) as [lon|]; try exact Hgeo.
  split; [done|]. by intros ev ?%elem_of_nil.
Qed.

Lemma save_raw_data_run (w : env) (a : args) (resolved_name : string)
    (curr : current_json) (forecast : forecast_json) :
  never_exits (save_raw_data w a resolved_name curr forecast)
  ∧ (save_raw_data w a resolved_name curr forecast).1
    = match args_save_json a with
      | Some (String c p) =>
          match open_for_writing w (String c p) with
          | Ok _ => [FileWrite (String c p) (saved_document resolved_name curr forecast);
                     Stdout (SavedRawData (String c p))]
          | Raise _ => []
          end
      | _ => []
      end.
Proof.
  unfold save_raw_data. destruct (args_save_json a) as [[|c p]|]; [done| |done].
  by destruct (open_for_writing w (String c p)).
Qed.

Section cli_facts.
Context {O : PySetOrder}.

Lemma report_run (w : env) (a : args) (units_label resolved_name : string)
    (curr : current_json) (forecast : forecast_json) :
  never_exits (report w a units_label resolved_name curr forecast)
  ∧ ∃ rest, only_prints rest
      ∧ (report w a units_label resolved_name curr forecast).1
        = (save_raw_data w a resolved_name curr forecast).1 ++ rest.
Proof.
  unfold report.
  destruct (save_raw_data_run w a resolved_name curr forecast) as [Hexit _].
  destruct (print_current_weather_prints curr units_label) as [Hpc Hpc_exit].
  split.
  - apply never_exits_bind; [done|]. intros _.
    apply never_exits_bind; [done|]. intros _.
    apply never_exits_bind; [apply never_exits_lift|]. intros summary.
    apply never_exits_print_forecast_summary.
  - rewrite io_bind_unfold.
    destruct (save_raw_data w a resolved_name curr forecast).2;
      cbn [fst snd];
      [|exists []; split; [apply only_prints_nil | by rewrite app_nil_r]..].
    eexists. split; [|reflexivity].
    apply only_prints_bind; [done|]. intros _.
    apply only_prints_bind; [apply only_prints_lift|]. intros summary.
    apply only_prints_print_forecast_summary.
Qed.

Lemma not_write_of_print (t : list event) (path : string)
    (doc : list (string * saved_value)) :
  only_prints t → FileWrite path doc ∉ t.
Proof. intros Ht Hin. by destruct (Ht _ Hin). Qed.

Lemma not_write_of_geocoding (t : list event) (path : string)
    (doc : list (string * saved_value)) :
  (∀ ev, ev ∈ t → ev = HttpGet Geocoding) → FileWrite path doc ∉ t.
Proof. intros Ht Hin. by specialize (Ht _ Hin). Qed.

(** The events of the [try] block: the location is resolved and printed,
    the two endpoints are asked in turn, and only when both have answered
    does the block go on to save and report. *)
Lemma run_cli_body_run (w : env) (a : args) (api_key units units_label : string) :
  never_exits (run_cli_body w a api_key units units_label)
  ∧ ((∀ path doc, FileWrite path doc ∉ (run_cli_body w a api_key units units_label).1)
     ∨ ∃ t0 lat lon resolved_name curr forecast rest,
         (∀ ev, ev ∈ t0 → ev = HttpGet Geocoding)
         ∧ current_response w lat lon api_key units = Ok curr
         ∧ forecast_response w lat lon api_key units = Ok forecast
         ∧ only_prints rest
         ∧ (run_cli_body w a api_key units units_label).1
           = t0 ++ [Stdout (ResolvedLocation resolved_name lat lon);
                    HttpGet CurrentWeather; HttpGet Forecast]
                ++ (save_raw_data w a resolved_name curr forecast).1 ++ rest).
Proof.
  unfold run_cli_body.
  destruct (resolve_location_run w a api_key) as [Hres_exit Hres].
  split.
  - apply never_exits_bind; [done|]. intros [[lat lon] name].
    apply never_exits_bind; [apply never_exits_emit|]. intros _.
    apply never_exits_bind.
    { unfold fetch_current_weather. apply never_exits_bind;
        [apply never_exits_emit | intros; apply never_exits_lift]. }
    intros curr. apply never_exits_bind.
    { unfold fetch_forecast. apply never_exits_bind;
        [apply never_exits_emit | intros; apply never_exits_lift]. }
    intros forecast. apply report_run.
  - rewrite io_bind_unfold.
    destruct (resolve_location w a api_key) as [t0 [[[lat lon] name]|e|c]];
      cbn [fst snd] in *;
      [|left; intros; by apply not_write_of_geocoding..].
    unfold fetch_current_weather, fetch_forecast.
    destruct (current_response w lat lon api_key units) as [curr|e] eqn:Hcurr.
    2:{ left. intros path doc. cbn. rewrite elem_of_app.
        intros [Hin|Hin]; [by apply not_write_of_geocoding in Hin|].
        repeat (apply elem_of_cons in Hin as [?|Hin]; [done|]).
        by apply elem_of_nil in Hin. }
    destruct (forecast_response w lat lon api_key units) as [forecast|e] eqn:Hfc.
    2:{ left. intros path doc. cbn. rewrite elem_of_app.
        intros [Hin|Hin]; [by apply not_write_of_geocoding in Hin|].
        repeat (apply elem_of_cons in Hin as [?|Hin]; [done|]).
        by apply elem_of_nil in Hin. }
    right. destruct (report_run w a units_label name curr forecast)
      as [_ (rest & Hrest & Hreport)].
    exists t0, lat, lon, name, curr, forecast, rest.
    split; [done|]. split; [done|]. split; [done|]. split; [done|].
    rewrite !io_bind_unfold. cbn [emit print lift fst snd].
    rewrite !io_bind_unfold. cbn [emit print lift fst snd].
    rewrite Hreport. by rewrite <-!app_assoc.
Qed.
End cli_facts.

Section cli_claims.
Context {O : PySetOrder}.

Lemma run_cli_unfold (w : env) (a : args) :
  run_cli w a
  = match get_api_key w (args_api_key a) with
    | Raise e => ([], Except e)
    | Ok api_key =>
        let body := run_cli_body w a api_key (lower (args_units a))
                      (units_label_of (lower (args_units a))) in
        match body.2 with
        | Except e => (body.1 ++ [Stderr (ErrorLine e)], Exit 1)
        | _ => body
        end
    end.
Proof.
  unfold run_cli. destruct (get_api_key w (args_api_key a)) as [api_key|e]; [|done].
  rewrite io_bind_unfold. cbn [lift fst snd app]. unfold try_except.
  destruct (run_cli_body _ _ _ _ _) as [t [[]|e|c]]; reflexivity.
Qed.

Lemma main_text_mode (w : env) (a : args) :
  args_streamlit a = false →
  (usage_error a → (main w a).2 = Exit 2 ∧ ∀ which, HttpGet which ∉ (main w a).1)
  ∧ (¬ usage_error a → main w a = run_cli w a).
Proof.
  intros Hst. unfold main, usage_error. rewrite Hst.
  destruct (args_lat a) as [lat|], (args_lon a) as [lon|];
    destruct (truthy (args_city a)) eqn:Hcity; cbn; split.
  all: try (intros [[[? [=]] [=]]|[[=] [=]]]; fail).
  all: try (intros _; destruct (run_cli w a) as [t [[]|e|c]]; reflexivity).
  all: try (intros _; split; [done|]; intros which Hin;
            repeat (apply elem_of_cons in Hin as [?|Hin]; [done|]);
            by apply elem_of_nil in Hin).
  all: intros Hno; destruct Hno; (left; split; [by eexists|done]) || (right; done).
Qed.

Lemma bind_outcome {A B} (m : io A) (f : A → io B) :
  (m ≫= f).2 = match m.2 with
               | Return a => (f a).2
               | Except e => Except e
               | Exit c => Exit c
               end.
Proof. rewrite io_bind_unfold. by destruct m.2. Qed.

(** Two equations for the outcome of the same step are merged. *)
Ltac merge_steps :=
  repeat match goal with
    | H : context [(_, _).2] |- _ => progress cbn [snd] in H
    | H1 : ?x = _, H2 : context [?x] |- _ =>
        lazymatch type of H2 with
        | ?x = _ => rewrite H1 in H2
        | (?x).2 = _ => rewrite H1 in H2
        end
    | H : Ok _ = Ok _ |- _ => injection H as H; subst
    | H : Raise _ = Raise _ |- _ => injection H as H; subst
    | H : Return _ = Return _ |- _ => injection H as H; subst
    | H : Except _ = Except _ |- _ => injection H as H; subst
    | H : (_, _) = (_, _) |- _ => injection H as ?; subst
    | H : _ = _ |- _ => discriminate H
    end.

(** The [try] block ends with an exception exactly on a runtime failure. *)
Lemma run_cli_body_Except (w : env) (a : args) (api_key units units_label : string)
    (e : exn) :
  (run_cli_body w a api_key units units_label).2 = Except e
  ↔ runtime_failure w a api_key units units_label e.
Proof.
  unfold run_cli_body, report, fetch_current_weather, fetch_forecast.
  rewrite bind_outcome.
  destruct (resolve_location w a api_key) as [t0 [[[lat lon] name]|e0|c0]] eqn:Hres;
    cbn [fst snd].
  2,3: split;
    [ intros [= <-]; apply location_failure; by rewrite Hres
    | inversion 1; merge_steps; done ].
  repeat (rewrite bind_outcome; cbn [emit print lift fst snd]).
  destruct (current_response w lat lon api_key units) as [curr|ec] eqn:Hc; cbn [lift fst snd].
  2:{ split; [intros [= <-]; eapply current_weather_failure; by rewrite ?Hres
             | inversion 1; merge_steps; done ]. }
  repeat (rewrite bind_outcome; cbn [emit print lift fst snd]).
  destruct (forecast_response w lat lon api_key units) as [forecast|ef] eqn:Hf;
    cbn [lift fst snd].
  2:{ split; [intros [= <-]; eapply forecast_failure; by rewrite ?Hres
             | inversion 1; merge_steps; done ]. }
  rewrite bind_outcome.
  destruct (save_raw_data w a name curr forecast) as [ts [[]|es|cs]] eqn:Hs;
    cbn [fst snd].
  2,3: split; [intros [= <-]; eapply save_failure; by rewrite ?Hres, ?Hs
              | inversion 1; merge_steps; done ].
  rewrite bind_outcome.
  destruct (print_current_weather curr units_label) as [tp [[]|ep|cp]] eqn:Hp;
    cbn [fst snd].
  2,3: split; [intros [= <-]; eapply current_report_failure; by rewrite ?Hres, ?Hs, ?Hp
              | inversion 1; merge_steps; done ].
  rewrite bind_outcome.
  destruct (summarize_forecast forecast) as [summary|esum] eqn:Hsum; cbn [lift fst snd].
  - rewrite print_forecast_summary_run. cbn [snd].
    split; [done | inversion 1; merge_steps; done].
  - split; [intros [= <-]; eapply summary_failure; by rewrite ?Hres, ?Hs, ?Hp
           | inversion 1; merge_steps; done ].
Qed.

Lemma resolve_location_outcome (w : env) (a : args) (api_key : string) :
  (resolve_location w a api_key).2
  = match args_lat a, args_lon a with
    | Some lat, Some lon =>
        Return (lat, lon, float_str w lat +:+ "," +:+ float_str w lon)
    | _, _ =>
        match geocoding_response w (args_city a) api_key with
        | Raise e => Except e
        | Ok [] => Except (not_found (args_city a))
        | Ok (item :: _) =>
            Return (geo_lat item, geo_lon item, resolved_name_of item)
        end
    end.
Proof.
  unfold resolve_location, geocode_city.
  destruct (args_lat a), (args_lon a); try done;
    by destruct (geocoding_response w (args_city a) api_key) as [[|item data]|e].
Qed.

Lemma get_api_key_Raise (w : env) (cli_key : option string) (e : exn) :
  get_api_key w cli_key = Raise e →
  truthy cli_key = false ∧ truthy (environ_OPENWEATHER_API_KEY w) = false
  ∧ exn_kind e = RuntimeError.
Proof.
  unfold get_api_key. destruct cli_key as [[|c k]|]; simpl;
    destruct (environ_OPENWEATHER_API_KEY w) as [[|c' k']|]; simpl;
    try done; by intros [= <-].
Qed.

Lemma get_api_key_missing (w : env) (cli_key : option string) :
  truthy cli_key = false → truthy (environ_OPENWEATHER_API_KEY w) = false →
  ∃ e, get_api_key w cli_key = Raise e.
Proof.
  unfold get_api_key. intros -> Henv.
  destruct (environ_OPENWEATHER_API_KEY w) as [[|c' k']|]; by eauto.
Qed.

(** C7 (as amended): a text-mode run exits with code 2 on the two usage
    errors [main] checks (a latitude without a longitude; neither a latitude
    nor a city), before any request is sent. With a missing API credential
    it does not exit with 2: [get_api_key] raises [RuntimeError] outside
    the [try] block, nothing catches it, and the interpreter ends with a
    traceback and status 1. Otherwise it exits with 1, after printing the
    error, exactly when a step of the [try] block raises (a request fails,
    a payload cannot be read, the place is not found, the file cannot be
    opened), and with 0 when none does. *)
Theorem text_mode_exit_status (w : env) (a : args) :
  args_streamlit a = false →
  let run := main w a in
  (usage_error a → exit_status run.2 = 2%Z ∧ ∀ which, HttpGet which ∉ run.1)
  ∧ (¬ usage_error a →
     match get_api_key w (args_api_key a) with
     | Raise e =>
         run = ([], Except e) ∧ exn_kind e = RuntimeError
         ∧ exit_status run.2 = 1%Z
     | Ok api_key =>
         let units := lower (args_units a) in
         let units_label := units_label_of units in
         (∀ e, runtime_failure w a api_key units units_label e →
               run.2 = Exit 1 ∧ exit_status run.2 = 1%Z
               ∧ last run.1 = Some (Stderr (ErrorLine e)))
         ∧ ((∀ e, ¬ runtime_failure w a api_key units units_label e) →
               run.2 = Return () ∧ exit_status run.2 = 0%Z)
         ∧ (args_lat a = None ∨ args_lon a = None →
            (∀ e, geocoding_response w (args_city a) api_key = Raise e →
                  runtime_failure w a api_key units units_label e)
            ∧ (geocoding_response w (args_city a) api_key = Ok [] →
                  runtime_failure w a api_key units units_label
                    (not_found (args_city a))))
     end).
Proof.
  intros Hst run. destruct (main_text_mode w a Hst) as [Husage Hrun].
  split.
  { intros Hu. destruct (Husage Hu) as [Hexit Hget]. unfold run.
    by rewrite Hexit. }
  intros Hno. unfold run. rewrite (Hrun Hno), run_cli_unfold.
  destruct (get_api_key w (args_api_key a)) as [api_key|e] eqn:Hkey.
  2:{ by apply get_api_key_Raise in Hkey as (_ & _ & ->). }
  cbn zeta.
  set (units := lower (args_units a)). set (units_label := units_label_of units).
  pose proof (run_cli_body_Except w a api_key units units_label) as Hexc.
  destruct (run_cli_body_run w a api_key units units_label) as [Hnever _].
  split; [|split].
  - intros e He. apply Hexc in He. rewrite He. cbn [fst snd].
    split; [done|]. split; [done|]. by rewrite last_snoc.
  - intros Hnone. destruct (run_cli_body _ _ _ _ _) as [t [[]|e|c]]; cbn [fst snd] in *.
    + done.
    + destruct (Hnone e). by apply Hexc.
    + by destruct (Hnever c).
  - intros Hgeo. split.
    + intros e He. apply location_failure. rewrite resolve_location_outcome, He.
      by destruct Hgeo as [-> | ->]; [|destruct (args_lat a)].
    + intros He. apply location_failure. rewrite resolve_location_outcome, He.
      by destruct Hgeo as [-> | ->]; [|destruct (args_lat a)].
Qed.
(** The only write of the [try] block, and what comes before and after. *)
Lemma run_cli_body_write (w : env) (a : args) (api_key units units_label : string)
    (path : string) (doc : list (string * saved_value)) :
  FileWrite path doc ∈ (run_cli_body w a api_key units units_label).1 →
  ∃ lat lon resolved_name curr forecast pre post,
    args_save_json a = Some path
    ∧ current_response w lat lon api_key units = Ok curr
    ∧ forecast_response w lat lon api_key units = Ok forecast
    ∧ doc = saved_document resolved_name curr forecast
    ∧ (run_cli_body w a api_key units units_label).1 = pre ++ FileWrite path doc :: post
    ∧ HttpGet CurrentWeather ∈ pre
    ∧ HttpGet Forecast ∈ pre
    ∧ (∀ p d, FileWrite p d ∉ pre)
    ∧ (∀ p d, FileWrite p d ∉ post).
Proof.
  destruct (run_cli_body_run w a api_key units units_label)
    as [_ [Hnone|(t0 & lat & lon & name & curr & forecast & rest
                  & Ht0 & Hcurr & Hfc & Hrest & Hshape)]];
    [by intros ?%Hnone|].
  rewrite Hshape. destruct (save_raw_data_run w a name curr forecast) as [_ ->].
  intros Hin.
  apply elem_of_app in Hin as [Hin|Hin]; [by apply not_write_of_geocoding in Hin|].
  apply elem_of_app in Hin as [Hin|Hin].
  { repeat (apply elem_of_cons in Hin as [?|Hin]; [done|]). by apply elem_of_nil in Hin. }
  apply elem_of_app in Hin as [Hin|Hin]; [|by apply not_write_of_print in Hin].
  destruct (args_save_json a) as [[|c p]|];
    [by apply elem_of_nil in Hin| |by apply elem_of_nil in Hin].
  destruct (open_for_writing w (String c p)); [|by apply elem_of_nil in Hin].
  apply elem_of_cons in Hin as [[= -> ->]|Hin];
    [|apply list_elem_of_singleton in Hin; done].
  exists lat, lon, name, curr, forecast.
  exists (t0 ++ [Stdout (ResolvedLocation name lat lon);
                 HttpGet CurrentWeather; HttpGet Forecast]).
  exists (Stdout (SavedRawData (String c p)) :: rest).
  split; [done|]. split; [done|]. split; [done|]. split; [done|].
  split; [by rewrite <-!app_assoc|].
  split; [apply elem_of_app; right; right; left|].
  split; [apply elem_of_app; right; right; right; left|].
  split.
  - intros p' d' [Hin|Hin]%elem_of_app; [by apply not_write_of_geocoding in Hin|].
    repeat (apply elem_of_cons in Hin as [?|Hin]; [done|]). by apply elem_of_nil in Hin.
  - intros p' d' [?|Hin]%elem_of_cons; [done|]. by apply not_write_of_print in Hin.
Qed.

(** C8: whenever a run writes a file, it is the file asked for with
    [--save-json], the document written is the object with exactly the keys
    [resolved], [current] and [forecast], in that order, holding the
    resolved name and the two payloads the endpoints returned, and the
    write comes after both requests, each of which has succeeded; nothing is
    written before it or after it. *)
Theorem save_json_after_both_fetches
    (w : env) (a : args) (path : string) (doc : list (string * saved_value)) :
  FileWrite path doc ∈ (run_cli w a).1 →
  ∃ api_key lat lon resolved_name curr forecast pre post,
    get_api_key w (args_api_key a) = Ok api_key
    ∧ args_save_json a = Some path
    ∧ current_response w lat lon api_key (lower (args_units a)) = Ok curr
    ∧ forecast_response w lat lon api_key (lower (args_units a)) = Ok forecast
    ∧ doc = [("resolved", SavedStr resolved_name);
             ("current", SavedCurrent curr);
             ("forecast", SavedForecast forecast)]
    ∧ doc.*1 = ["resolved"; "current"; "forecast"]
    ∧ (run_cli w a).1 = pre ++ FileWrite path doc :: post
    ∧ HttpGet CurrentWeather ∈ pre
    ∧ HttpGet Forecast ∈ pre
    ∧ (∀ p d, FileWrite p d ∉ pre)
    ∧ (∀ p d, FileWrite p d ∉ post).
Proof.
  rewrite run_cli_unfold.
  destruct (get_api_key w (args_api_key a)) as [api_key|e]; cbn zeta;
    [|by intros ?%elem_of_nil].
  set (units := lower (args_units a)). set (units_label := units_label_of units).
  pose proof (run_cli_body_write w a api_key units units_label path doc) as Hwrite.
  destruct (run_cli_body w a api_key units units_label) as [t [[]|e|c]];
    cbn [fst snd] in *.
  1,3: intros Hin;
    destruct (Hwrite Hin) as (lat & lon & name & curr & forecast & pre & post
                              & ? & ? & ? & -> & ? & ? & ? & ? & ?);
    by exists api_key, lat, lon, name, curr, forecast, pre, post.
  intros [Hin|Hin]%elem_of_app; [|by apply list_elem_of_singleton in Hin].
  destruct (Hwrite Hin) as (lat & lon & name & curr & forecast & pre & post
                            & ? & ? & ? & -> & -> & ? & ? & ? & Hpost).
  exists api_key, lat, lon, name, curr, forecast, pre, (post ++ [Stderr (ErrorLine e)]).
  repeat (split; [done|]). split; [by rewrite <-app_assoc|].
  repeat (split; [done|]).
  intros p d [Hin'|Hin']%elem_of_app; [by apply Hpost in Hin'|].
  by apply list_elem_of_singleton in Hin'.
Qed.
End cli_claims.

(** C7 (as stated) fails for a missing credential: with a city given and no
    API key on the command line or in the environment, the run ends with
    the uncaught [RuntimeError] and status 1, not 2. *)
Lemma missing_credential_exits_with_1 :
  ¬ usage_error london_args
  ∧ args_api_key london_args = None
  ∧ environ_OPENWEATHER_API_KEY (sample_env None) = None
  ∧ (main (O:=first_occurrence_order) (sample_env None) london_args).2
    = Except (Exn RuntimeError
        "OpenWeather API key not provided. Set OPENWEATHER_API_KEY or use --api-key.")
  ∧ exit_status (main (O:=first_occurrence_order) (sample_env None) london_args).2 = 1%Z.
Proof.
  split; [|by vm_compute].
  intros [[[? [=]] _]|[_ Hcity]]. vm_compute in Hcity. discriminate Hcity.
Qed.

(** ** The statements at sample inputs *)

Lemma scenario_day_reversed : reverse scenario_day ≡ₚ scenario_day.
Proof. apply reverse_Permutation. Defined.

Lemma typical_condition_strict_majority_witness :
  Forall (λ e, supported_timestamp (entry_dt e)) scenario_day
  ∧ reverse scenario_day ≡ₚ scenario_day
  ∧ strict_majority (entry_description <$> group "1970-01-02" scenario_day) "clear"
  ∧ ∃ out, summarize_forecast (O:=first_occurrence_order)
             (ForecastJson (Some (reverse scenario_day))) = Ok out
      ∧ (∃ s, s ∈ out ∧ date s = "1970-01-02")
      ∧ ∀ s, s ∈ out → date s = "1970-01-02" → typical_weather s = "clear".
Proof.
  split; [exact scenario_day_supported|].
  split; [exact scenario_day_reversed|].
  split; [exact scenario_day_majority|].
  exact (typical_condition_strict_majority scenario_day (reverse scenario_day)
           "1970-01-02" "clear"
           scenario_day_supported scenario_day_reversed scenario_day_majority).
Defined.



Lemma tie_day_supported :
  Forall (λ e, supported_timestamp (entry_dt e)) tie_day.
Proof. repeat constructor; by vm_compute. Defined.

Lemma tie_day_swapped_Permutation : tie_day_swapped ≡ₚ tie_day.
Proof. apply Permutation_swap. Defined.

Lemma reordered_input_same_summaries_witness :
  Forall (λ e, supported_timestamp (entry_dt e)) tie_day
  ∧ tie_day_swapped ≡ₚ tie_day
  ∧ ∃ out out',
      summarize_forecast (O:=last_occurrence_order) (ForecastJson (Some tie_day)) = Ok out
      ∧ summarize_forecast (O:=last_occurrence_order)
          (ForecastJson (Some tie_day_swapped)) = Ok out'
      ∧ StronglySorted (strict String.le) (date <$> out)
      ∧ Forall2 (λ s s',
          date s = date s' ∧ min_temp s = min_temp s'
          ∧ max_temp s = max_temp s' ∧ avg_temp s = avg_temp s'
          ∧ ((∃ c, strict_majority (entry_description <$> group (date s) tie_day) c) →
             typical_weather s = typical_weather s')
          ∧ ((∃ v, strict_majority (entry_icon <$> group (date s) tie_day) v) →
             icon s = icon s')) out out'
      ∧ ((∀ d, d ∈ date <$> out →
            (∃ c, strict_majority (entry_description <$> group d tie_day) c)
            ∧ (∃ v, strict_majority (entry_icon <$> group d tie_day) v)) →
         out = out').
Proof.
  split; [exact tie_day_supported|].
  split; [exact tie_day_swapped_Permutation|].
  exact (reordered_input_same_summaries tie_day tie_day_swapped
           tie_day_supported tie_day_swapped_Permutation).
Defined.



Lemma london_args_text_mode : args_streamlit london_args = false.
Proof. reflexivity. Defined.

Lemma text_mode_exit_status_witness :
  args_streamlit london_args = false
  ∧ let w := sample_env (Some "secret") in
    let a := london_args in
    let run := main (O:=first_occurrence_order) w a in
    (usage_error a → exit_status run.2 = 2%Z ∧ ∀ which, HttpGet which ∉ run.1)
    ∧ (¬ usage_error a →
       match get_api_key w (args_api_key a) with
       | Raise e =>
           run = ([], Except e) ∧ exn_kind e = RuntimeError
           ∧ exit_status run.2 = 1%Z
       | Ok api_key =>
           let units := lower (args_units a) in
           let units_label := units_label_of units in
           (∀ e, runtime_failure w a api_key units units_label e →
                 run.2 = Exit 1 ∧ exit_status run.2 = 1%Z
                 ∧ last run.1 = Some (Stderr (ErrorLine e)))
           ∧ ((∀ e, ¬ runtime_failure w a api_key units units_label e) →
                 run.2 = Return () ∧ exit_status run.2 = 0%Z)
           ∧ (args_lat a = None ∨ args_lon a = None →
              (∀ e, geocoding_response w (args_city a) api_key = Raise e →
                    runtime_failure w a api_key units units_label e)
              ∧ (geocoding_response w (args_city a) api_key = Ok [] →
                    runtime_failure w a api_key units units_label
                      (not_found (args_city a))))
       end).
Proof.
  split; [exact london_args_text_mode|].
  exact (text_mode_exit_status (sample_env (Some "secret")) london_args
           london_args_text_mode).
Defined.

Lemma sample_run_writes :
  FileWrite "out.json"
      (saved_document "London, GB" sample_current (ForecastJson (Some scenario_day)))
    ∈ (run_cli (O:=first_occurrence_order) (sample_env (Some "secret")) london_args).1.
Proof. apply (list_elem_of_lookup_2 _ 4). by vm_compute. Defined.

Lemma save_json_after_both_fetches_witness :
  let w := sample_env (Some "secret") in
  let a := london_args in
  let path := "out.json" in
  let doc := saved_document "London, GB" sample_current (ForecastJson (Some scenario_day)) in
  FileWrite path doc ∈ (run_cli (O:=first_occurrence_order) w a).1
  ∧ ∃ api_key lat lon resolved_name curr forecast pre post,
      get_api_key w (args_api_key a) = Ok api_key
      ∧ args_save_json a = Some path
      ∧ current_response w lat lon api_key (lower (args_units a)) = Ok curr
      ∧ forecast_response w lat lon api_key (lower (args_units a)) = Ok forecast
      ∧ doc = [("resolved", SavedStr resolved_name);
               ("current", SavedCurrent curr);
               ("forecast", SavedForecast forecast)]
      ∧ doc.*1 = ["resolved"; "current"; "forecast"]
      ∧ (run_cli (O:=first_occurrence_order) w a).1 = pre ++ FileWrite path doc :: post
      ∧ HttpGet CurrentWeather ∈ pre
      ∧ HttpGet Forecast ∈ pre
      ∧ (∀ p d, FileWrite p d ∉ pre)
      ∧ (∀ p d, FileWrite p d ∉ post).
Proof.
  split; [exact sample_run_writes|].
  exact (save_json_after_both_fetches (sample_env (Some "secret")) london_args
           "out.json" _ sample_run_writes).
Defined.

(** ** The scenario of the specification, evaluated *)

(** Samples of 10, 20 and 15 degrees on one day, "clear" twice and "rain"
    once: one summary, with minimum 10, maximum 20, average 15 and typical
    condition "clear". *)
Example scenario_day_summary :
  summarize_forecast (O:=first_occurrence_order) (ForecastJson (Some scenario_day))
  = Ok [mkDaySummary "1970-01-02" (Qc_of_Z 10) (Qc_of_Z 20) (Q2Qc 15) "clear" None].
Proof.
  apply (f_equal (λ out, Ok [out])).
  apply DaySummary_eq; try reflexivity. apply Qc_is_canon. reflexivity.
Qed.

(** The same three summaries rendered with a day count of 5: three lines. *)
Example three_days_rendered :
  length (rendered_days (print_forecast_summary three_days "°C" 5).1) = 3%nat.
Proof. by vm_compute. Qed.

(** * Further properties of the code *)

(** ** The aggregator: errors, ties, single samples, locality *)

Lemma supported_timestamp_bounds (ts : Z) :
  supported_timestamp ts ↔ (-62135596800 ≤ ts ≤ 253402300799)%Z.
Proof.
  unfold supported_timestamp, EPOCH_ORDINAL, MAX_ORDINAL.
  split; intros H; Z.div_mod_to_equations; lia.
Qed.

Lemma date_key_Raise (ts : Z) (e : exn) :
  date_key ts = Raise e →
  ¬ supported_timestamp ts ∧ e = Exn ValueError "year is out of range".
Proof.
  unfold date_key, utcfromtimestamp. case_bool_decide as Hs; [done|].
  by intros [= <-].
Qed.

(** The first loop stops at the first sample whose timestamp is out of
    range, with that sample's exception. *)
Lemma foldM_add_entry_Raise (items : list entry) (m : gmap string bucket) (e : exn) :
  foldM add_entry items m = Raise e →
  ∃ pre bad post,
    items = pre ++ bad :: post
    ∧ Forall (λ x, supported_timestamp (entry_dt x)) pre
    ∧ ¬ supported_timestamp (entry_dt bad)
    ∧ e = Exn ValueError "year is out of range".
Proof.
  revert m. induction items as [|x items IH]; intros m; [done|].
  cbn [foldM]. destruct (decide (supported_timestamp (entry_dt x))) as [Hx|Hx].
  - rewrite add_entry_supported by done. cbn [mbind result_bind].
    intros (pre & bad & post & -> & Hpre & Hbad & ->)%IH.
    exists (x :: pre), bad, post. by repeat split; [constructor|..].
  - unfold add_entry. destruct (date_key (entry_dt x)) as [k|e'] eqn:Hk.
    { by apply date_key_Ok in Hk as [? _]. }
    cbn [mbind result_bind]. intros [= <-].
    apply date_key_Raise in Hk as [_ ->].
    by exists [], x, items.
Qed.

Section aggregator_extras.
Context {O : PySetOrder}.

Local Abbreviation supported items :=
  (Forall (λ e, supported_timestamp (entry_dt e)) items).

(** X1: the aggregator returns a list exactly when every timestamp lies
    between -62135596800 (0001-01-01) and 253402300799 (9999-12-31
    23:59:59); otherwise it raises the exception of [utcfromtimestamp] met
    at the first sample out of that range, and gives no partial list. *)
Theorem summarize_forecast_out_of_range (items : list entry) :
  match summarize_forecast (ForecastJson (Some items)) with
  | Ok out =>
      Forall (λ x, -62135596800 ≤ entry_dt x ≤ 253402300799)%Z items
  | Raise e =>
      e = Exn ValueError "year is out of range"
      ∧ ∃ pre bad post,
          items = pre ++ bad :: post
          ∧ Forall (λ x, -62135596800 ≤ entry_dt x ≤ 253402300799)%Z pre
          ∧ ¬ (-62135596800 ≤ entry_dt bad ≤ 253402300799)%Z
  end.
Proof.
  destruct (summarize_forecast _) as [out|e] eqn:Hout.
  - apply summarize_items_Ok in Hout.
    eapply Forall_impl; [exact Hout|]. intros x. by rewrite supported_timestamp_bounds.
  - change (summarize_items items = Raise e) in Hout. unfold summarize_items in Hout.
    destruct (foldM add_entry items ∅) as [buckets|e'] eqn:Hfold.
    + pose proof (foldM_add_entry_Ok _ _ _ Hfold) as Hs.
      destruct (summarize_items_by_day items Hs) as (out & Hok & _).
      unfold summarize_items in Hok. rewrite Hfold in Hok.
      cbn [mbind result_bind] in Hok, Hout. congruence.
    + cbn in Hout. injection Hout as <-.
      apply foldM_add_entry_Raise in Hfold as (pre & bad & post & -> & Hpre & Hbad & ->).
      split; [done|]. exists pre, bad, post. split; [done|]. split.
      * eapply Forall_impl; [exact Hpre|]. intros x. by rewrite supported_timestamp_bounds.
      * by rewrite <-supported_timestamp_bounds.
Qed.

(** A summary is in the output exactly when it is the summary of the
    samples of its own date, and that date has samples. *)
Lemma elem_of_summarize_forecast (items : list entry) (out : list DaySummary)
    (s : DaySummary) :
  supported items →
  summarize_forecast (ForecastJson (Some items)) = Ok out →
  s ∈ out
  ↔ group (date s) items ≠ []
    ∧ summarize_bucket (date s) (bucket_of (group (date s) items)) = Ok s.
Proof.
  intros Hs Hout.
  destruct (summarize_forecast_spec items Hs) as (out' & Hout' & Hd & Hall).
  assert (out' = out) as -> by congruence.
  split; [apply Hall|]. intros [Hne Hb].
  destruct (summary_of_date items out (date s) Hd Hne) as (s' & Hin & Hdate).
  destruct (Hall s' Hin) as [_ Hb']. rewrite Hdate in Hb'.
  by assert (s' = s) as -> by congruence.
Qed.

(** X2: the typical condition of a summary is the description of one of the
    samples of its day, and no description of that day occurs more often,
    ties included and whatever the iteration order of sets. *)
Theorem typical_condition_most_frequent (items : list entry) :
  supported items →
  ∃ out, summarize_forecast (ForecastJson (Some items)) = Ok out
    ∧ ∀ s, s ∈ out →
        (∃ e, e ∈ items ∧ day_of e = date s
              ∧ entry_description e = typical_weather s)
        ∧ ∀ c, (count (entry_description <$> group (date s) items) c
                ≤ count (entry_description <$> group (date s) items)
                        (typical_weather s))%nat.
Proof.
  intros Hs. destruct (summarize_forecast_spec items Hs) as (out & Hout & _ & Hall).
  exists out. split; [exact Hout|]. intros s Hin.
  destruct (Hall s Hin) as [_ Hb].
  apply summarize_bucket_Ok in Hb as (_ & Hc & _).
  apply most_common_spec in Hc as [Hmem Hmax]. cbn [descs bucket_of] in Hmem, Hmax.
  split; [|exact Hmax].
  apply list_elem_of_fmap in Hmem as (e & He & [Hday Hitems]%elem_of_group).
  by exists e.
Qed.


(** X4: the summary of a day depends on the samples of that day only: two
    inputs with the same samples on a date, in the same order, have the
    same summary for it (or both none), whatever else they contain. *)
Theorem summary_depends_on_its_day (items items' : list entry) (d : string) :
  supported items → supported items' →
  group d items = group d items' →
  ∃ out out',
    summarize_forecast (ForecastJson (Some items)) = Ok out
    ∧ summarize_forecast (ForecastJson (Some items')) = Ok out'
    ∧ ∀ s, date s = d → s ∈ out ↔ s ∈ out'.
Proof.
  intros Hs Hs' Hg.
  destruct (summarize_forecast_spec items Hs) as (out & Hout & _).
  destruct (summarize_forecast_spec items' Hs') as (out' & Hout' & _).
  exists out, out'. split; [exact Hout|]. split; [exact Hout'|].
  intros s <-.
  rewrite (elem_of_summarize_forecast items out s Hs Hout).
  rewrite (elem_of_summarize_forecast items' out' s Hs' Hout').
  by rewrite Hg.
Qed.

(** X5: minimum and maximum of a summary coincide exactly when all the
    samples of the day have the same temperature. *)
Theorem min_max_equal_iff_constant (items : list entry) :
  supported items →
  ∃ out, summarize_forecast (ForecastJson (Some items)) = Ok out
    ∧ ∀ s, s ∈ out →
        (min_temp s ≤ max_temp s)%Qc
        ∧ (min_temp s = max_temp s
           ↔ ∀ e, e ∈ group (date s) items → entry_temp e = min_temp s).
Proof.
  intros Hs. destruct (summarize_forecast_spec items Hs) as (out & Hout & _ & Hall).
  exists out. split; [exact Hout|]. intros s Hin.
  destruct (Hall s Hin) as [_ Hb].
  apply summarize_bucket_Ok in Hb as (_ & _ & _ & Hmin & Hmax & _).
  cbn [bucket_of temps] in *.
  apply py_min_spec in Hmin as [Hmin_in Hmin]. apply py_max_spec in Hmax as [Hmax_in Hmax].
  split; [by apply Hmin|]. split.
  - intros Heq e He.
    assert (entry_temp e ∈ entry_temp <$> group (date s) items) as Ht
      by (apply list_elem_of_fmap; eauto).
    apply Qcle_antisym; [rewrite Heq; by apply Hmax | by apply Hmin].
  - intros Hall_eq. apply list_elem_of_fmap in Hmax_in as (e & -> & He).
    symmetry. by apply Hall_eq.
Qed.
End aggregator_extras.

(** ** Dates as strings and the calendar *)

Section chrono.
Local Open Scope Z_scope.

Lemma days_before_year_succ (y : Z) :
  days_before_year (y + 1)
  = days_before_year y + 365 + (if is_leap y then 1 else 0).
Proof.
  unfold days_before_year, is_leap. cbn zeta.
  replace (y + 1 - 1) with y by lia.
  assert (y `div` 4 = (y - 1) `div` 4 + (if bool_decide (y `mod` 4 = 0) then 1 else 0)) as H4.
  { clear; case_bool_decide; Z.div_mod_to_equations; lia. }
  assert (y `div` 100 = (y - 1) `div` 100 + (if bool_decide (y `mod` 100 = 0) then 1 else 0)) as H100.
  { clear; case_bool_decide; Z.div_mod_to_equations; lia. }
  assert (y `div` 400 = (y - 1) `div` 400 + (if bool_decide (y `mod` 400 = 0) then 1 else 0)) as H400.
  { clear; case_bool_decide; Z.div_mod_to_equations; lia. }
  rewrite H4, H100, H400.
  assert (y `mod` 400 = 0 → y `mod` 100 = 0) as Ha.
  { clear; intros ?; Z.div_mod_to_equations; lia. }
  assert (y `mod` 100 = 0 → y `mod` 4 = 0) as Hb.
  { clear; intros ?; Z.div_mod_to_equations; lia. }
  repeat case_bool_decide; lia.
Qed.

Lemma days_before_year_mono (y1 y2 : Z) :
  y1 ≤ y2 → days_before_year y1 ≤ days_before_year y2.
Proof.
  intros Hle. replace y2 with (y1 + Z.of_nat (Z.to_nat (y2 - y1))) by lia.
  induction (Z.to_nat (y2 - y1)) as [|k IH]; [by rewrite Z.add_0_r|].
  rewrite Nat2Z.inj_succ, <-Z.add_1_r, Z.add_assoc, days_before_year_succ.
  destruct (is_leap _); lia.
Qed.

Lemma month_day_step (leapyear : bool) (n : Z) :
  0 ≤ n ≤ 363 + (if leapyear then 1 else 0) →
  month_day_lt (month_day leapyear n) (month_day leapyear (n + 1)).
Proof.
  intros Hn.
  assert (Forall (λ n, month_day_lt (month_day leapyear n) (month_day leapyear (n + 1)))
                 (seqZ 0 (364 + (if leapyear then 1 else 0)))) as Hall.
  { apply (bool_decide_unpack _). by destruct leapyear; vm_compute. }
  eapply Forall_forall in Hall; [exact Hall|]. apply elem_of_seqZ. lia.
Qed.

Lemma month_day_mono (leapyear : bool) (n1 n2 : Z) :
  0 ≤ n1 → n1 < n2 → n2 ≤ 364 + (if leapyear then 1 else 0) →
  month_day_lt (month_day leapyear n1) (month_day leapyear n2).
Proof.
  intros H0 Hlt Hn2. replace n2 with (n1 + 1 + Z.of_nat (Z.to_nat (n2 - n1 - 1))) in * by lia.
  induction (Z.to_nat (n2 - n1 - 1)) as [|k IH].
  - rewrite Z.add_0_r. apply month_day_step. lia.
  - assert (month_day_lt (month_day leapyear n1) (month_day leapyear (n1 + 1 + Z.of_nat k))) as IH'
      by (apply IH; lia).
    pose proof (month_day_step leapyear (n1 + 1 + Z.of_nat k)) as Hstep.
    replace (n1 + 1 + Z.of_nat (S k)) with (n1 + 1 + Z.of_nat k + 1) by lia.
    unfold month_day_lt in *. lia.
Qed.

(** [ord2ymd] read off the year and the day of the year (from 0). *)
Lemma ord2ymd_year_day (n : Z) :
  ∃ y r, n = days_before_year y + r + 1
    ∧ 0 ≤ r ≤ 364 + (if is_leap y then 1 else 0)
    ∧ ord2ymd n = PyDate y (month_day (is_leap y) r).1 (month_day (is_leap y) r).2.
Proof.
  destruct (ord2ymd_split n)
    as (a & b & c & e & r & Hn & Hb & Hc & He & Hr & H1 & H2 & H3 & ->).
  case_bool_decide as Hspecial.
  - exists (400 * a + 100 * b + 4 * c + e), 365.
    assert (400 * a + 100 * b + 4 * c + e
            = 400 * a + 100 * (if bool_decide (b = 4) then 3 else b)
              + 4 * (if bool_decide (b = 4) then 24 else c) + 3 + 1) as ->
      by (case_bool_decide; lia).
    rewrite days_before_year_split, is_leap_split by (repeat case_bool_decide; lia).
    rewrite (bool_decide_eq_true_2 (3 = 3 ∧ _)) by (repeat case_bool_decide; lia).
    split; [case_bool_decide; lia|]. split; [lia|]. done.
  - exists (400 * a + 100 * b + 4 * c + e + 1), r.
    rewrite days_before_year_split, is_leap_split by lia.
    split; [lia|]. split; [case_bool_decide; lia|]. done.
Qed.

Lemma ord2ymd_mono (n1 n2 : Z) :
  n1 < n2 → date_compare (ord2ymd n1) (ord2ymd n2) = Lt.
Proof.
  intros Hlt.
  destruct (ord2ymd_year_day n1) as (y1 & r1 & Hn1 & Hr1 & ->).
  destruct (ord2ymd_year_day n2) as (y2 & r2 & Hn2 & Hr2 & ->).
  unfold date_compare. cbn [year month day].
  destruct (Z.compare_spec y1 y2) as [->|Hy|Hy].
  - pose proof (month_day_mono (is_leap y2) r1 r2) as Hmd.
    unfold month_day_lt in Hmd.
    destruct Hmd as [Hm|[Hm Hd]]; [lia..| |].
    + by rewrite (proj2 (Z.compare_lt_iff _ _) Hm).
    + rewrite Hm, Z.compare_refl. by apply Z.compare_lt_iff.
  - done.
  - pose proof (days_before_year_succ y2) as Hs.
    pose proof (days_before_year_mono (y2 + 1) y1). lia.
Qed.

Lemma digit_compare (n m : Z) :
  Ascii.compare (digit n) (digit m) = (n `mod` 10 ?= m `mod` 10).
Proof.
  unfold Ascii.compare, digit, ascii_of_nat.
  assert (0 ≤ n `mod` 10 < 10 ∧ 0 ≤ m `mod` 10 < 10) as [Hn Hm]
    by (split; apply Z.mod_pos_bound; lia).
  rewrite !N_ascii_embedding by lia.
  rewrite <-N2Z.inj_compare.
  destruct (Z.compare_spec (n `mod` 10) (m `mod` 10));
    [apply Z.compare_eq_iff | apply Z.compare_lt_iff | apply Z.compare_gt_iff]; lia.
Qed.

Lemma zdigits_compare (w : nat) (n m : Z) (acc acc' : string) :
  0 ≤ n < 10 ^ Z.of_nat w → 0 ≤ m < 10 ^ Z.of_nat w →
  String.compare (zdigits w n acc) (zdigits w m acc')
  = match n ?= m with Eq => String.compare acc acc' | c => c end.
Proof.
  revert n m acc acc'. induction w as [|w IH]; intros n m acc acc' Hn Hm; cbn [zdigits].
  - change (10 ^ Z.of_nat 0) with 1 in *.
    assert (n = m) as -> by lia. by rewrite Z.compare_refl.
  - rewrite Nat2Z.inj_succ, Z.pow_succ_r in Hn, Hm by lia.
    rewrite IH by (split; [apply Z.div_pos; lia | apply Z.div_lt_upper_bound; lia]).
    cbn [String.compare]. rewrite digit_compare.
    pose proof (Z.div_mod n 10) as Hdn. pose proof (Z.div_mod m 10) as Hdm.
    pose proof (Z.mod_pos_bound n 10) as Hbn. pose proof (Z.mod_pos_bound m 10) as Hbm.
    destruct (Z.compare_spec (n `div` 10) (m `div` 10)) as [Hq|Hq|Hq].
    + destruct (Z.compare_spec (n `mod` 10) (m `mod` 10)) as [Hr|Hr|Hr].
      * assert (n = m) as -> by lia. by rewrite Z.compare_refl.
      * by rewrite (proj2 (Z.compare_lt_iff n m)) by lia.
      * by rewrite (proj2 (Z.compare_gt_iff n m)) by lia.
    + by rewrite (proj2 (Z.compare_lt_iff n m)) by lia.
    + by rewrite (proj2 (Z.compare_gt_iff n m)) by lia.
Qed.

(** ISO dates compare as strings the way the dates compare in the
    calendar. *)
Lemma isoformat_compare (d1 d2 : pydate) :
  0 ≤ year d1 ≤ 9999 → 0 ≤ month d1 ≤ 99 → 0 ≤ day d1 ≤ 99 →
  0 ≤ year d2 ≤ 9999 → 0 ≤ month d2 ≤ 99 → 0 ≤ day d2 ≤ 99 →
  String.compare (isoformat d1) (isoformat d2) = date_compare d1 d2.
Proof.
  destruct d1 as [y1 m1 dd1], d2 as [y2 m2 dd2].
  unfold isoformat, date_compare. cbn [year month day]. intros ??????.
  rewrite zdigits_compare by (simpl; lia).
  destruct (y1 ?= y2); [|done..].
  cbn [String.compare]. change (Ascii.compare "-" "-") with Eq. cbn match.
  rewrite zdigits_compare by (simpl; lia).
  destruct (m1 ?= m2); [|done..].
  cbn [String.compare]. change (Ascii.compare "-" "-") with Eq. cbn match.
  rewrite zdigits_compare by (simpl; lia).
  by destruct (dd1 ?= dd2).
Qed.

(** The date string of an earlier UTC day is smaller. *)
Lemma day_of_lt (e1 e2 : entry) :
  supported_timestamp (entry_dt e1) → supported_timestamp (entry_dt e2) →
  strict String.le (day_of e1) (day_of e2) →
  entry_dt e1 `div` 86400 < entry_dt e2 `div` 86400.
Proof.
  unfold supported_timestamp. intros H1 H2 [Hle Hnle].
  destruct (Z.lt_trichotomy (entry_dt e1 `div` 86400) (entry_dt e2 `div` 86400))
    as [Hlt|[Heq|Hgt]]; [done| |].
  - destruct Hnle. unfold day_of, utc_date. by rewrite Heq.
  - exfalso. unfold day_of, utc_date in Hle.
    pose proof (ord2ymd_range _ H1) as (? & ? & ?).
    pose proof (ord2ymd_range _ H2) as (? & ? & ?).
    unfold String.le, String.leb in Hle.
    rewrite String.compare_antisym, isoformat_compare, ord2ymd_mono in Hle by lia.
    done.
Qed.
End chrono.

Section aggregator_extras2.
Context {O : PySetOrder}.
Local Abbreviation supported items := (Forall (λ e, supported_timestamp (entry_dt e)) items).

(** X6: the summaries come in chronological order: every sample of a
    summary is earlier than every sample of the summaries after it. *)
Theorem summaries_in_chronological_order (items : list entry) :
  supported items →
  ∃ out, summarize_forecast (ForecastJson (Some items)) = Ok out
    ∧ ∀ before s1 after s2 e1 e2,
        out = before ++ s1 :: after → s2 ∈ after →
        e1 ∈ items → day_of e1 = date s1 →
        e2 ∈ items → day_of e2 = date s2 →
        (entry_dt e1 < entry_dt e2)%Z.
Proof.
  intros Hs. destruct (summarize_forecast_spec items Hs) as (out & Hout & Hd & _).
  exists out. split; [exact Hout|].
  intros before s1 after s2 e1 e2 -> Hs2 He1 Hd1 He2 Hd2.
  pose proof (Sorted_NoDup_strict _ (sorted_days_Sorted items) (sorted_days_NoDup items))
    as Hsorted.
  rewrite <-Hd, fmap_app, fmap_cons in Hsorted.
  apply StronglySorted_app in Hsorted as (_ & _ & Hsorted).
  apply StronglySorted_cons in Hsorted as [Hlt _].
  assert (strict String.le (day_of e1) (day_of e2)) as Hstrict.
  { rewrite Hd1, Hd2. eapply Forall_forall in Hlt; [exact Hlt|].
    apply list_elem_of_fmap. eauto. }
  apply day_of_lt in Hstrict;
    [|by eapply Forall_forall in Hs; [|exact He1]
      |by eapply Forall_forall in Hs; [|exact He2]].
  Z.div_mod_to_equations. lia.
Qed.
End aggregator_extras2.

(** ** The renderer *)




(** [round(x, 1)] is within half a tenth of [x]. *)
Lemma round1_close (x : Qc) :
  (x - Q2Qc (1 # 20) ≤ round1 x ∧ round1 x ≤ x + Q2Qc (1 # 20))%Qc.
Proof.
  unfold round1. set (y := (x * Qc_of_Z 10)%Qc). cbn zeta.
  pose proof (Qfloor_le y) as Hlo. pose proof (Qlt_floor y) as Hhi.
  assert (this y == this x * 10)%Q as Hyx.
  { unfold y. cbn [this Qcmult Q2Qc Qc_of_Z]. by rewrite !Qred_correct. }
  set (f := Qfloor y) in *.
  assert (this (y - Qc_of_Z f)%Qc == this y - inject_Z f)%Q as Hr.
  { unfold Qcminus, Qcplus, Qcopp, Qc_of_Z. cbn [this Q2Qc]. by rewrite !Qred_correct. }
  rewrite inject_Z_plus in Hhi.
  assert (∀ k : Z, (10 * this x - (1 # 2) <= inject_Z k)%Q → (inject_Z k <= 10 * this x + (1 # 2))%Q →
     (x - Q2Qc (1 # 20) ≤ Q2Qc (k # 10) ∧ Q2Qc (k # 10) ≤ x + Q2Qc (1 # 20))%Qc) as Hfin.
  { intros k Hk1 Hk2. unfold Qcle, Qcminus, Qcplus, Qcopp. cbn [this Q2Qc].
    rewrite !Qred_correct.
    assert (k # 10 == inject_Z k * (1 # 10))%Q as ->.
    { unfold Qeq, inject_Z. cbn. lia. }
    split; lra. }
  assert ((y - Qc_of_Z f < Q2Qc (1 # 2))%Qc ↔ (this y - inject_Z f < 1 # 2)%Q) as Hlt.
  { unfold Qclt. rewrite Hr. cbn [this Q2Qc]. by rewrite Qred_correct. }
  assert ((Q2Qc (1 # 2) < y - Qc_of_Z f)%Qc ↔ (1 # 2 < this y - inject_Z f)%Q) as Hgt.
  { unfold Qclt. rewrite Hr. cbn [this Q2Qc]. by rewrite Qred_correct. }
  apply Hfin.
  - destruct (decide (_ < _)%Qc) as [H1|H1]; rewrite Hlt in H1; [lra|].
    destruct (decide (_ < _)%Qc) as [H2|H2]; rewrite Hgt in H2;
      [rewrite inject_Z_plus; change (inject_Z 1) with 1%Q in *; lra|].
    destruct (Z.even f); [|rewrite inject_Z_plus; change (inject_Z 1) with 1%Q in *]; lra.
  - destruct (decide (_ < _)%Qc) as [H1|H1]; rewrite Hlt in H1; [lra|].
    destruct (decide (_ < _)%Qc) as [H2|H2]; rewrite Hgt in H2;
      [rewrite inject_Z_plus; change (inject_Z 1) with 1%Q in *; lra|].
    destruct (Z.even f); [|rewrite inject_Z_plus; change (inject_Z 1) with 1%Q in *]; lra.
Qed.

Lemma slice_to_take {A} (l : list A) (k : Z) :
  ∃ n, (n ≤ length l)%nat ∧ slice_to l k = take n l
    ∧ Z.of_nat n = (if bool_decide (k < 0)
                    then Z.max 0 (Z.of_nat (length l) + k)
                    else Z.min k (Z.of_nat (length l)))%Z.
Proof.
  unfold slice_to.
  set (stop := if bool_decide (k < 0)%Z then _ else _).
  assert (0 ≤ stop ≤ Z.of_nat (length l))%Z as Hstop
    by (unfold stop; case_bool_decide; lia).
  exists (Z.to_nat stop). split; [lia|]. split; [done|]. lia.
Qed.

(** X7: whatever the day count, negative ones included, the renderer
    returns normally and its day lines are those of a prefix of the
    summaries, in order: the first [min(days, len)] of them for
    [days ≥ 0], all but the last [-days] for [days < 0]. The header
    announces [min(days, len)] in both cases, so it agrees with the number
    of day lines exactly when [days ≥ 0]. *)
Theorem print_forecast_summary_any_day_count
    (summary : list DaySummary) (units_label : string) (days : Z) :
  let run := print_forecast_summary summary units_label days in
  let len := Z.of_nat (length summary) in
  run.2 = Return ()
  ∧ (∃ n, (n ≤ length summary)%nat
      ∧ rendered_days run.1
        = (λ d, Stdout (day_line units_label d)) <$> take n summary
      ∧ Z.of_nat n = (if bool_decide (days < 0) then Z.max 0 (len + days)
                      else Z.min days len)%Z)
  ∧ head run.1 = Some (Stdout (ForecastHeader (Z.min days len)))
  ∧ (Z.of_nat (length (rendered_days run.1)) = Z.min days len ↔ (0 ≤ days)%Z).
Proof.
  intros run len. unfold run.
  rewrite rendered_days_print_forecast_summary, print_forecast_summary_run.
  cbn [fst snd head].
  destruct (slice_to_take summary days) as (n & Hn & -> & Hlen). fold len in Hlen.
  split; [done|]. split; [by exists n|]. split; [done|].
  rewrite length_fmap, length_take, Nat.min_l by done. rewrite Hlen.
  case_bool_decide; lia.
Qed.

Section renderer_extras.
Context {O : PySetOrder}.
Local Abbreviation supported items := (Forall (λ e, supported_timestamp (entry_dt e)) items).

End renderer_extras.

(** X9: a temperature is printed to one decimal, at most 0.05 away from
    the value of the summary. *)
Theorem rendered_temperature_close (units_label : string) (s : DaySummary) :
  ∃ mi ma av,
    day_line units_label s
    = ForecastDay (date s) (capitalize (typical_weather s)) mi ma av units_label
    ∧ (min_temp s - Q2Qc (1 # 20) ≤ mi ∧ mi ≤ min_temp s + Q2Qc (1 # 20))%Qc
    ∧ (max_temp s - Q2Qc (1 # 20) ≤ ma ∧ ma ≤ max_temp s + Q2Qc (1 # 20))%Qc
    ∧ (avg_temp s - Q2Qc (1 # 20) ≤ av ∧ av ≤ avg_temp s + Q2Qc (1 # 20))%Qc
    ∧ ∃ a b c : Z, mi = Q2Qc (a # 10) ∧ ma = Q2Qc (b # 10) ∧ av = Q2Qc (c # 10).
Proof.
  exists (round1 (min_temp s)), (round1 (max_temp s)), (round1 (avg_temp s)).
  split; [done|]. split; [apply round1_close|]. split; [apply round1_close|].
  split; [apply round1_close|]. unfold round1. cbn zeta.
  eexists _, _, _. split; [reflexivity|]. split; reflexivity.
Qed.

(** ** The local time of the report *)

Section clock.
Local Open Scope Z_scope.

Lemma zdigits_app (w : nat) (n : Z) (acc s : string) :
  zdigits w n acc +:+ s = zdigits w n (acc +:+ s).
Proof.
  revert n acc. induction w as [|w IH]; intros n acc; [done|].
  cbn [zdigits]. by rewrite IH.
Qed.

Lemma isoformat_app (d : pydate) (s : string) :
  isoformat d +:+ s
  = zdigits 4 (year d) (String "-" (zdigits 2 (month d) (String "-" (zdigits 2 (day d) s)))).
Proof.
  unfold isoformat. rewrite zdigits_app.
  change (String "-" ?a +:+ s) with (String "-" (a +:+ s)). rewrite zdigits_app.
  change (String "-" ?a +:+ s) with (String "-" (a +:+ s)). by rewrite zdigits_app.
Qed.


(** Hour and minute of the day are read off the minute count. *)
Lemma minute_of_day (t : Z) :
  t `div` 86400 = (t `div` 60) `div` 1440
  ∧ (t `mod` 86400) `div` 3600 = ((t `div` 60) `mod` 1440) `div` 60
  ∧ ((t `mod` 86400) `mod` 3600) `div` 60 = ((t `div` 60) `mod` 1440) `mod` 60.
Proof.
  set (q := t `div` 60). set (r := t `mod` 60).
  assert (t = 60 * q + r ∧ 0 ≤ r < 60) as [Ht Hr]
    by (unfold q, r; split; [apply Z.div_mod; lia | apply Z.mod_pos_bound; lia]).
  set (d := q `div` 1440). set (m := q `mod` 1440).
  assert (q = 1440 * d + m ∧ 0 ≤ m < 1440) as [Hq Hm]
    by (unfold d, m; split; [apply Z.div_mod; lia | apply Z.mod_pos_bound; lia]).
  set (h := m `div` 60). set (mi := m `mod` 60).
  assert (m = 60 * h + mi ∧ 0 ≤ mi < 60) as [Hm' Hmi]
    by (unfold h, mi; split; [apply Z.div_mod; lia | apply Z.mod_pos_bound; lia]).
  clearbody q r d m h mi.
  assert (0 ≤ h < 24) as Hh by lia.
  assert (t `div` 86400 = d) as Hd by (symmetry; apply (Z.div_unique t 86400 d (60 * m + r)); lia).
  assert (t `mod` 86400 = 60 * m + r) as Hs
    by (symmetry; apply (Z.mod_unique t 86400 d (60 * m + r)); lia).
  rewrite Hd, Hs. split; [done|]. split.
  - symmetry. apply (Z.div_unique _ 3600 h (60 * mi + r)); lia.
  - assert ((60 * m + r) `mod` 3600 = 60 * mi + r) as ->
      by (symmetry; apply (Z.mod_unique _ 3600 h (60 * mi + r)); lia).
    symmetry. apply (Z.div_unique _ 60 mi r); lia.
Qed.

Lemma strftime_ymd_hm_inj (dt1 dt2 : pydatetime) :
  0 ≤ year (dt_date dt1) ≤ 9999 → 0 ≤ month (dt_date dt1) ≤ 99 →
  0 ≤ day (dt_date dt1) ≤ 99 → 0 ≤ hour dt1 ≤ 99 → 0 ≤ minute dt1 ≤ 99 →
  0 ≤ year (dt_date dt2) ≤ 9999 → 0 ≤ month (dt_date dt2) ≤ 99 →
  0 ≤ day (dt_date dt2) ≤ 99 → 0 ≤ hour dt2 ≤ 99 → 0 ≤ minute dt2 ≤ 99 →
  strftime_ymd_hm dt1 = strftime_ymd_hm dt2 →
  dt_date dt1 = dt_date dt2 ∧ hour dt1 = hour dt2 ∧ minute dt1 = minute dt2.
Proof.
  destruct dt1 as [[y1 m1 d1] h1 mi1 s1], dt2 as [[y2 m2 d2] h2 mi2 s2].
  unfold strftime_ymd_hm. rewrite !isoformat_app.
  cbn [dt_date year month day hour minute].
  intros ?????????? Heq.
  apply zdigits_inj in Heq as [-> Heq]; [|simpl; lia..].
  apply String_tail_inj in Heq.
  apply zdigits_inj in Heq as [-> Heq]; [|simpl; lia..].
  apply String_tail_inj in Heq.
  apply zdigits_inj in Heq as [-> Heq]; [|simpl; lia..].
  apply String_tail_inj in Heq.
  apply zdigits_inj in Heq as [-> Heq]; [|simpl; lia..].
  apply String_tail_inj in Heq.
  apply zdigits_inj in Heq as [-> _]; [|simpl; lia..].
  done.
Qed.
End clock.

Lemma pretty_time_from_unix_supported (ts tz : Z) :
  supported_timestamp (ts + tz) →
  pretty_time_from_unix ts tz
  = Ok (strftime_ymd_hm
          (PyDateTime (ord2ymd (EPOCH_ORDINAL + ((ts + tz) `div` 60) `div` 1440))
                      ((((ts + tz) `div` 60) `mod` 1440) `div` 60)
                      ((((ts + tz) `div` 60) `mod` 1440) `mod` 60)
                      (((ts + tz) `mod` 86400) `mod` 60)))%Z.
Proof.
  unfold supported_timestamp, pretty_time_from_unix, utcfromtimestamp. intros Hs.
  rewrite bool_decide_eq_true_2 by done.
  destruct (minute_of_day (ts + tz)) as (-> & -> & ->). reflexivity.
Qed.

(** X10: the local time shown depends on the sum of timestamp and offset
    only, and two instants are shown alike exactly when they fall in the
    same minute. *)
Theorem pretty_time_same_minute (ts tz ts' tz' : Z) :
  supported_timestamp (ts + tz) → supported_timestamp (ts' + tz') →
  pretty_time_from_unix ts tz = pretty_time_from_unix ts' tz'
  ↔ ((ts + tz) `div` 60 = (ts' + tz') `div` 60)%Z.
Proof.
  intros H1 H2. rewrite !pretty_time_from_unix_supported by done.
  unfold supported_timestamp in H1, H2.
  destruct (minute_of_day (ts + tz)) as (Hd1 & _).
  destruct (minute_of_day (ts' + tz')) as (Hd2 & _).
  rewrite Hd1 in H1. rewrite Hd2 in H2.
  set (q := ((ts + tz) `div` 60)%Z) in *. set (q' := ((ts' + tz') `div` 60)%Z) in *.
  clearbody q q'. clear Hd1 Hd2.
  split.
  - intros Heq.
    pose proof (ord2ymd_range _ H1) as (? & ? & ?).
    pose proof (ord2ymd_range _ H2) as (? & ? & ?).
    pose proof (Z.div_mod q 1440) as Hq. pose proof (Z.div_mod q' 1440) as Hq'.
    pose proof (Z.mod_pos_bound q 1440) as Hb. pose proof (Z.mod_pos_bound q' 1440) as Hb'.
    pose proof (Z.div_mod (q `mod` 1440) 60) as Hm.
    pose proof (Z.div_mod (q' `mod` 1440) 60) as Hm'.
    pose proof (Z.mod_pos_bound (q `mod` 1440) 60) as Hc.
    pose proof (Z.mod_pos_bound (q' `mod` 1440) 60) as Hc'.
    assert (0 ≤ (q `mod` 1440) `div` 60 ≤ 99)%Z
      by (split; [apply Z.div_pos; lia | apply Z.div_le_upper_bound; lia]).
    assert (0 ≤ (q' `mod` 1440) `div` 60 ≤ 99)%Z
      by (split; [apply Z.div_pos; lia | apply Z.div_le_upper_bound; lia]).
    assert (∀ a b, Ok a = @Ok string b → a = b) as Hinj by (by intros a b [= ->]).
    apply Hinj in Heq. clear Hinj.
    apply strftime_ymd_hm_inj in Heq as (Hdate & Hh & Hmin);
      cbn [dt_date hour minute] in *; [|lia..].
    apply ord2ymd_inj in Hdate. lia.
  - by intros ->.
Qed.


(** ** The current-weather report and the runs *)

(** X12: the report of the current weather prints its header first, whatever
    happens next. It returns exactly when the payload's [weather] list is
    not empty and timestamp plus offset is an instant of the years 1 to
    9999, after 9 or 10 lines, the last of them empty. Otherwise it raises
    with the header as its only output: [IndexError] for an empty
    [weather] list, else the exception of [utcfromtimestamp]. *)
Theorem print_current_weather_outcome (current : current_json) (units_label : string) :
  let run := print_current_weather current units_label in
  let t := (default 0 (cur_dt current) + default 0 (cur_timezone current))%Z in
  head run.1 = Some (Stdout (CurrentHeader (default "" (cur_name current))
                                           (default "" (cur_sys_country current))))
  ∧ match run.2 with
    | Return _ =>
        cur_weather current ≠ Some []
        ∧ (-62135596800 ≤ t ≤ 253402300799)%Z
        ∧ last run.1 = Some (Stdout (Text ""))
        ∧ (9 ≤ length run.1 ≤ 10)%nat
    | Except e =>
        length run.1 = 1%nat
        ∧ ((cur_weather current = Some []
            ∧ e = Exn IndexError "list index out of range")
           ∨ (cur_weather current ≠ Some []
              ∧ ¬ (-62135596800 ≤ t ≤ 253402300799)%Z
              ∧ e = Exn ValueError "year is out of range"))
    | Exit _ => False
    end.
Proof.
  intros run t. unfold run, print_current_weather, pretty_time_from_unix.
  fold t. pose proof (supported_timestamp_bounds t) as Hb.
  unfold utcfromtimestamp. unfold supported_timestamp in Hb.
  destruct (cur_weather current) as [[|w ws]|]; cbn [default].
  - split; [done|]. cbn. split; [done|]. by left.
  - case_bool_decide as Hs.
    + destruct (cur_coord current) as [[[?|] [?|]]|]; cbn;
        (split; [done|]); (split; [done|]); (split; [by apply Hb|]);
        (split; [done|]); lia.
    + cbn. split; [done|]. split; [done|]. right.
      split; [done|]. split; [by rewrite <-Hb|done].
  - case_bool_decide as Hs.
    + destruct (cur_coord current) as [[[?|] [?|]]|]; cbn;
        (split; [done|]); (split; [done|]); (split; [by apply Hb|]);
        (split; [done|]); lia.
    + cbn. split; [done|]. split; [done|]. right.
      split; [done|]. split; [by rewrite <-Hb|done].
Qed.

Lemma requests_app (t1 t2 : list event) :
  requests (t1 ++ t2) = requests t1 ++ requests t2.
Proof. apply omap_app. Qed.

Lemma stderr_lines_app (t1 t2 : list event) :
  stderr_lines (t1 ++ t2) = stderr_lines t1 ++ stderr_lines t2.
Proof. apply omap_app. Qed.

Lemma only_prints_quiet (t : list event) :
  only_prints t → requests t = [] ∧ stderr_lines t = [].
Proof.
  induction t as [|ev t IH]; intros Ht; [done|].
  destruct (Ht ev) as [l ->]; [left|].
  destruct IH as [IH1 IH2]; [intros ev' Hev'; apply Ht; by right|].
  by split.
Qed.

Lemma save_raw_data_quiet (w : env) (a : args) (resolved_name : string)
    (curr : current_json) (forecast : forecast_json) :
  requests (save_raw_data w a resolved_name curr forecast).1 = []
  ∧ stderr_lines (save_raw_data w a resolved_name curr forecast).1 = []
  ∧ rendered_days (save_raw_data w a resolved_name curr forecast).1 = [].
Proof.
  destruct (save_raw_data_run w a resolved_name curr forecast) as [_ ->].
  destruct (args_save_json a) as [[|c p]|]; [done| |done].
  by destruct (open_for_writing w (String c p)).
Qed.

Lemma resolve_location_trace (w : env) (a : args) (api_key : string) :
  (resolve_location w a api_key).1
  = match args_lat a, args_lon a with
    | Some _, Some _ => []
    | _, _ => [HttpGet Geocoding]
    end.
Proof.
  unfold resolve_location, geocode_city.
  destruct (args_lat a), (args_lon a); try done;
    by destruct (geocoding_response w (args_city a) api_key) as [[|item data]|e].
Qed.

Lemma print_current_weather_no_day_line (current : current_json) (units_label : string) :
  rendered_days (print_current_weather current units_label).1 = [].
Proof.
  unfold print_current_weather, pretty_time_from_unix.
  destruct (utcfromtimestamp _) as [dt|e];
    destruct (default _ (cur_weather current)) as [|w ws];
    destruct (cur_coord current) as [[[?|] [?|]]|]; reflexivity.
Qed.

Lemma print_current_weather_lines (current : current_json) (units_label : string)
    (name : string) (lat lon : Qc) :
  Stdout (ResolvedLocation name lat lon) ∉ (print_current_weather current units_label).1.
Proof.
  unfold print_current_weather, pretty_time_from_unix.
  destruct (utcfromtimestamp _) as [dt|e];
    destruct (default _ (cur_weather current)) as [|w ws];
    destruct (cur_coord current) as [[[?|] [?|]]|]; cbn;
    intros Hin; repeat (apply elem_of_cons in Hin as [?|Hin]; [done|]);
    by apply elem_of_nil in Hin.
Qed.

Section cli_extras.
Context {O : PySetOrder}.

(** The [try] block of [run_cli], step by step. *)
Lemma run_cli_body_shape (w : env) (a : args) (api_key units units_label : string) :
  run_cli_body w a api_key units units_label
  = let r := resolve_location w a api_key in
    match r.2 with
    | Return (lat, lon, name) =>
        let located := r.1 ++ [Stdout (ResolvedLocation name lat lon);
                               HttpGet CurrentWeather] in
        match current_response w lat lon api_key units with
        | Raise e => (located, Except e)
        | Ok curr =>
            match forecast_response w lat lon api_key units with
            | Raise e => (located ++ [HttpGet Forecast], Except e)
            | Ok forecast =>
                let rep := report w a units_label name curr forecast in
                (located ++ [HttpGet Forecast] ++ rep.1, rep.2)
            end
        end
    | Except e => (r.1, Except e)
    | Exit c => (r.1, Exit c)
    end.
Proof.
  unfold run_cli_body. rewrite io_bind_unfold.
  destruct (resolve_location w a api_key) as [t0 [[[lat lon] name]|e|c]];
    cbn [fst snd]; [|done..].
  unfold fetch_current_weather, fetch_forecast.
  destruct (current_response w lat lon api_key units) as [curr|e].
  2:{ cbn. by rewrite <-?app_assoc. }
  destruct (forecast_response w lat lon api_key units) as [forecast|e].
  2:{ cbn. by rewrite <-?app_assoc. }
  rewrite !io_bind_unfold. cbn [emit print lift fst snd].
  rewrite !io_bind_unfold. cbn [emit print lift fst snd].
  destruct (report w a units_label name curr forecast) as [t [[]|e|c]];
    cbn [fst snd]; by rewrite <-?app_assoc.
Qed.

(** What follows the two fetches, step by step. *)
Lemma report_shape (w : env) (a : args) (units_label resolved_name : string)
    (curr : current_json) (forecast : forecast_json) :
  report w a units_label resolved_name curr forecast
  = let s := save_raw_data w a resolved_name curr forecast in
    match s.2 with
    | Return _ =>
        let p := print_current_weather curr units_label in
        match p.2 with
        | Return _ =>
            match summarize_forecast forecast with
            | Ok summary =>
                (s.1 ++ p.1
                 ++ (print_forecast_summary summary units_label (args_days a)).1,
                 Return ())
            | Raise e => (s.1 ++ p.1, Except e)
            end
        | Except e => (s.1 ++ p.1, Except e)
        | Exit c => (s.1 ++ p.1, Exit c)
        end
    | Except e => (s.1, Except e)
    | Exit c => (s.1, Exit c)
    end.
Proof.
  unfold report. rewrite io_bind_unfold.
  destruct (save_raw_data w a resolved_name curr forecast) as [ts [[]|e|c]];
    cbn [fst snd]; [|done..].
  rewrite io_bind_unfold.
  destruct (print_current_weather curr units_label) as [tp [[]|e|c]];
    cbn [fst snd]; [|done..].
  rewrite io_bind_unfold.
  destruct (summarize_forecast forecast) as [summary|e]; cbn [lift fst snd].
  - rewrite print_forecast_summary_run. cbn [fst snd]. by rewrite app_nil_l.
  - by rewrite app_nil_r.
Qed.

Lemma report_quiet (w : env) (a : args) (units_label resolved_name : string)
    (curr : current_json) (forecast : forecast_json) :
  requests (report w a units_label resolved_name curr forecast).1 = []
  ∧ stderr_lines (report w a units_label resolved_name curr forecast).1 = [].
Proof.
  destruct (report_run w a units_label resolved_name curr forecast)
    as [_ (rest & Hrest & ->)].
  destruct (save_raw_data_quiet w a resolved_name curr forecast) as (Hr & He & _).
  destruct (only_prints_quiet rest Hrest) as [Hr' He'].
  by rewrite requests_app, stderr_lines_app, Hr, He, Hr', He'.
Qed.

(** The requests of a run are a beginning of the sequence geocoder,
    current weather, forecast. *)
Lemma requests_in_fixed_order_aux (w : env) (a : args) :
  requests (run_cli w a).1
  `prefix_of` match args_lat a, args_lon a with
              | Some _, Some _ => [CurrentWeather; Forecast]
              | _, _ => [Geocoding; CurrentWeather; Forecast]
              end.
Proof.
  rewrite run_cli_unfold.
  destruct (get_api_key w (args_api_key a)) as [api_key|e]; [|apply prefix_nil].
  cbn zeta. set (units := lower (args_units a)).
  set (units_label := units_label_of units).
  assert (requests (run_cli_body w a api_key units units_label).1
          `prefix_of` match args_lat a, args_lon a with
                      | Some _, Some _ => [CurrentWeather; Forecast]
                      | _, _ => [Geocoding; CurrentWeather; Forecast]
                      end) as Hbody.
  { rewrite run_cli_body_shape. cbn zeta.
    pose proof (resolve_location_trace w a api_key) as Ht.
    pose proof (resolve_location_outcome w a api_key) as Ho.
    destruct (resolve_location w a api_key) as [t0 [[[lat lon] name]|e|c]];
      cbn [fst snd] in *; subst t0.
    - destruct (current_response w lat lon api_key units) as [curr|e];
        [destruct (forecast_response w lat lon api_key units) as [forecast|e]|];
        cbn [fst]; rewrite ?requests_app;
        try (destruct (report_quiet w a units_label name curr forecast) as [-> _]);
        destruct (args_lat a), (args_lon a); cbn;
        repeat first [done | apply prefix_cons | apply prefix_nil].
    - destruct (args_lat a), (args_lon a); try done; cbn;
        repeat first [done | apply prefix_cons | apply prefix_nil].
    - destruct (args_lat a), (args_lon a); try done; cbn;
        repeat first [done | apply prefix_cons | apply prefix_nil]. }
  destruct (run_cli_body w a api_key units units_label) as [t [[]|e|c]];
    cbn [fst snd] in *; try done.
  rewrite requests_app. cbn. by rewrite app_nil_r.
Qed.

(** X13: a run asks each endpoint at most once and in a fixed order: the
    geocoder (never when both coordinates were given), then the current
    weather, then the forecast. The requests of a run are a beginning of
    that sequence. *)
Theorem requests_in_fixed_order (w : env) (a : args) :
  requests (run_cli w a).1
  `prefix_of` match args_lat a, args_lon a with
              | Some _, Some _ => [CurrentWeather; Forecast]
              | _, _ => [Geocoding; CurrentWeather; Forecast]
              end.
Proof. apply requests_in_fixed_order_aux. Qed.

Lemma run_cli_body_no_stderr (w : env) (a : args) (api_key units units_label : string) :
  stderr_lines (run_cli_body w a api_key units units_label).1 = [].
Proof.
  rewrite run_cli_body_shape. cbn zeta.
  pose proof (resolve_location_trace w a api_key) as Ht.
  assert (stderr_lines (resolve_location w a api_key).1 = []) as Hr
    by (rewrite Ht; by destruct (args_lat a), (args_lon a)).
  destruct (resolve_location w a api_key) as [t0 [[[lat lon] name]|e|c]];
    cbn [fst snd] in *; [|done..].
  destruct (current_response w lat lon api_key units) as [curr|e];
    [destruct (forecast_response w lat lon api_key units) as [forecast|e]|];
    cbn [fst]; rewrite ?stderr_lines_app, ?Hr;
    try (destruct (report_quiet w a units_label name curr forecast) as [_ ->]);
    done.
Qed.

(** X14: the program writes to the standard error stream only when a step
    of the [try] block fails: a run that ends with [sys.exit] has status 1
    and its last event is the one line of the error stream, the error
    message; a run that ends otherwise writes nothing there itself (the
    traceback of the uncaught missing-key error is the interpreter's). *)
Theorem error_line_only_on_failure (w : env) (a : args) :
  match (run_cli w a).2 with
  | Exit code =>
      code = 1%Z
      ∧ ∃ e pre, (run_cli w a).1 = pre ++ [Stderr (ErrorLine e)]
                 ∧ stderr_lines pre = []
  | _ => stderr_lines (run_cli w a).1 = []
  end.
Proof.
  rewrite run_cli_unfold.
  destruct (get_api_key w (args_api_key a)) as [api_key|e]; [|done].
  cbn zeta. set (units := lower (args_units a)).
  set (units_label := units_label_of units).
  pose proof (run_cli_body_no_stderr w a api_key units units_label) as Hquiet.
  destruct (run_cli_body_run w a api_key units units_label) as [Hnever _].
  destruct (run_cli_body w a api_key units units_label) as [t [[]|e|c]];
    cbn [fst snd] in *.
  - done.
  - split; [done|]. by exists e, t.
  - by destruct (Hnever c).
Qed.

Lemma rendered_days_app (t1 t2 : list event) :
  rendered_days (t1 ++ t2) = rendered_days t1 ++ rendered_days t2.
Proof. apply filter_app. Qed.

Lemma rendered_days_cons_other (ev : event) (t : list event) :
  is_day_line ev = false → rendered_days (ev :: t) = rendered_days t.
Proof.
  intros Hev. unfold rendered_days. rewrite filter_cons_False; [done|].
  intros H. cbn beta in H. by rewrite Hev in H.
Qed.

(** X15: a run that returns has rendered the forecast it fetched: its day
    lines are those of the first [days] summaries the aggregator makes of
    the forecast payload, with the unit label of the lower-cased units. *)
Theorem successful_run_renders_the_forecast (w : env) (a : args) :
  (run_cli w a).2 = Return () →
  ∃ api_key lat lon name curr forecast summary,
    get_api_key w (args_api_key a) = Ok api_key
    ∧ (resolve_location w a api_key).2 = Return (lat, lon, name)
    ∧ current_response w lat lon api_key (lower (args_units a)) = Ok curr
    ∧ forecast_response w lat lon api_key (lower (args_units a)) = Ok forecast
    ∧ summarize_forecast forecast = Ok summary
    ∧ rendered_days (run_cli w a).1
      = (λ d, Stdout (day_line (units_label_of (lower (args_units a))) d))
          <$> slice_to summary (args_days a)
    ∧ stderr_lines (run_cli w a).1 = [].
Proof.
  rewrite run_cli_unfold.
  destruct (get_api_key w (args_api_key a)) as [api_key|e]; [|done].
  cbn zeta. set (units := lower (args_units a)).
  set (units_label := units_label_of units).
  pose proof (run_cli_body_no_stderr w a api_key units units_label) as Hquiet.
  pose proof (run_cli_body_shape w a api_key units units_label) as Hshape.
  destruct (run_cli_body w a api_key units units_label) as [t [[]|e|c]];
    cbn [fst snd] in *; [|done..].
  intros _. cbn zeta in Hshape.
  pose proof (resolve_location_trace w a api_key) as Ht.
  destruct (resolve_location w a api_key) as [t0 [[[lat lon] name]|e|c]] eqn:Hres;
    cbn [fst snd] in Hshape, Ht; [|done..].
  destruct (current_response w lat lon api_key units) as [curr|e] eqn:Hcurr; [|done].
  destruct (forecast_response w lat lon api_key units) as [forecast|e] eqn:Hfc; [|done].
  rewrite report_shape in Hshape. cbn zeta in Hshape.
  pose proof (save_raw_data_quiet w a name curr forecast) as (_ & _ & Hsave).
  destruct (save_raw_data w a name curr forecast) as [ts [[]|e|c]];
    cbn [fst snd] in *; [|done..].
  pose proof (print_current_weather_no_day_line curr units_label) as Hpcw.
  destruct (print_current_weather curr units_label) as [tp [[]|e|c]];
    cbn [fst snd] in *; [|done..].
  destruct (summarize_forecast forecast) as [summary|e] eqn:Hsum; [|done].
  exists api_key, lat, lon, name, curr, forecast, summary.
  split; [done|]. split; [by rewrite Hres|]. split; [done|]. split; [done|].
  split; [done|]. split; [|done].
  injection Hshape as ->.
  assert (rendered_days t0 = []) as Hgeo
    by (subst t0; by destruct (args_lat a), (args_lon a)).
  rewrite rendered_days_app, (rendered_days_app t0), Hgeo.
  rewrite (rendered_days_cons_other (HttpGet Forecast)) by done.
  rewrite !rendered_days_app, Hsave, Hpcw.
  change (rendered_days (Stdout (ForecastHeader _) :: _))
    with (rendered_days (print_forecast_summary summary units_label (args_days a)).1).
  by rewrite rendered_days_print_forecast_summary.
Qed.

(** X16: until both fetches have succeeded a run prints nothing but the
    resolved location: any other line on standard output means that the
    current-weather and the forecast endpoint have both answered. *)
Theorem report_only_after_both_fetches (w : env) (a : args) (l : line) :
  Stdout l ∈ (run_cli w a).1 →
  (∀ name lat lon, l ≠ ResolvedLocation name lat lon) →
  ∃ api_key lat lon name curr forecast,
    get_api_key w (args_api_key a) = Ok api_key
    ∧ (resolve_location w a api_key).2 = Return (lat, lon, name)
    ∧ current_response w lat lon api_key (lower (args_units a)) = Ok curr
    ∧ forecast_response w lat lon api_key (lower (args_units a)) = Ok forecast.
Proof.
  rewrite run_cli_unfold.
  destruct (get_api_key w (args_api_key a)) as [api_key|e]; [|by intros ?%elem_of_nil].
  cbn zeta. set (units := lower (args_units a)).
  set (units_label := units_label_of units).
  intros Hin Hl.
  assert (Stdout l ∈ (run_cli_body w a api_key units units_label).1) as Hbody.
  { destruct (run_cli_body w a api_key units units_label) as [t [[]|e|c]];
      cbn [fst snd] in *; try done.
    apply elem_of_app in Hin as [Hin|Hin]; [done|].
    by apply list_elem_of_singleton in Hin. }
  clear Hin. rewrite run_cli_body_shape in Hbody. cbn zeta in Hbody.
  pose proof (resolve_location_trace w a api_key) as Ht.
  assert (Stdout l ∉ (resolve_location w a api_key).1) as Hres.
  { rewrite Ht. destruct (args_lat a), (args_lon a);
      intros Hin; repeat (apply elem_of_cons in Hin as [?|Hin]; [done|]);
      by apply elem_of_nil in Hin. }
  destruct (resolve_location w a api_key) as [t0 [[[lat lon] name]|e|c]] eqn:Hloc;
    cbn [fst snd] in Hbody, Ht, Hres; [|done..].
  destruct (current_response w lat lon api_key units) as [curr|e] eqn:Hcurr.
  2:{ cbn [fst] in Hbody. apply elem_of_app in Hbody as [?|Hin]; [done|].
      apply elem_of_cons in Hin as [[= ->]|Hin]; [by destruct (Hl name lat lon)|].
      by apply list_elem_of_singleton in Hin. }
  destruct (forecast_response w lat lon api_key units) as [forecast|e] eqn:Hfc.
  2:{ cbn [fst] in Hbody. apply elem_of_app in Hbody as [Hin|Hin].
      - apply elem_of_app in Hin as [?|Hin]; [done|].
        apply elem_of_cons in Hin as [[= ->]|Hin]; [by destruct (Hl name lat lon)|].
        by apply list_elem_of_singleton in Hin.
      - by apply list_elem_of_singleton in Hin. }
  exists api_key, lat, lon, name, curr, forecast.
  split; [done|]. split; [by rewrite Hloc|]. done.
Qed.

Lemma run_cli_trace (w : env) (a : args) :
  ∃ tail,
    (run_cli w a).1
    = match get_api_key w (args_api_key a) with
      | Ok api_key =>
          (run_cli_body w a api_key (lower (args_units a))
                        (units_label_of (lower (args_units a)))).1
      | Raise _ => []
      end ++ tail
    ∧ (tail = [] ∨ ∃ e, tail = [Stderr (ErrorLine e)]).
Proof.
  rewrite run_cli_unfold.
  destruct (get_api_key w (args_api_key a)) as [api_key|e]; [|exists []; by split; [|left]].
  cbn zeta.
  destruct (run_cli_body _ _ _ _ _) as [t [[]|e|c]]; cbn [fst snd].
  - exists []. split; [by rewrite app_nil_r | by left].
  - eexists. split; [reflexivity|]. right. by eexists.
  - exists []. split; [by rewrite app_nil_r | by left].
Qed.

(** X17: with both coordinates on the command line the geocoder is not
    asked and the city is not looked at: the location printed is the pair
    of coordinates as given, under the name made of the two numbers. *)
Theorem coordinates_used_as_given (w : env) (a : args) (lat lon : Qc) :
  args_lat a = Some lat → args_lon a = Some lon →
  (HttpGet Geocoding ∉ (run_cli w a).1)
  ∧ (is_Ok (get_api_key w (args_api_key a)) →
     head (run_cli w a).1
     = Some (Stdout (ResolvedLocation (float_str w lat +:+ "," +:+ float_str w lon)
                                      lat lon)))
  ∧ ∀ name la lo, Stdout (ResolvedLocation name la lo) ∈ (run_cli w a).1 →
      la = lat ∧ lo = lon ∧ name = float_str w lat +:+ "," +:+ float_str w lon.
Proof.
  intros Hlat Hlon.
  pose proof (requests_in_fixed_order_aux w a) as Hreq.
  rewrite Hlat, Hlon in Hreq.
  split.
  { intros Hin.
    assert (Geocoding ∈ requests (run_cli w a).1) as Hgeo.
    { apply list_elem_of_omap. by exists (HttpGet Geocoding). }
    destruct Hreq as [k Hk].
    assert (Geocoding ∈ [CurrentWeather; Forecast]) as Hbad
      by (rewrite Hk; apply elem_of_app; by left).
    repeat (apply elem_of_cons in Hbad as [?|Hbad]; [done|]).
    by apply elem_of_nil in Hbad. }
  destruct (run_cli_trace w a) as (tail & -> & Htail).
  destruct (get_api_key w (args_api_key a)) as [api_key|e].
  2:{ split; [done|]. intros name la lo Hin. cbn [app] in Hin.
      destruct Htail as [->|[e' ->]];
        [by apply elem_of_nil in Hin | by apply list_elem_of_singleton in Hin]. }
  set (units := lower (args_units a)).
  set (units_label := units_label_of units).
  pose proof (run_cli_body_shape w a api_key units units_label) as Hshape.
  cbn zeta in Hshape. unfold resolve_location in Hshape.
  rewrite Hlat, Hlon in Hshape. cbn [mret io_ret fst snd app] in Hshape.
  set (name0 := float_str w lat +:+ "," +:+ float_str w lon) in *.
  assert (∃ rest, (run_cli_body w a api_key units units_label).1
                  = Stdout (ResolvedLocation name0 lat lon) :: HttpGet CurrentWeather :: rest
                  ∧ ∀ name la lo, Stdout (ResolvedLocation name la lo) ∉ rest) as (rest & Hrest & Hno).
  { rewrite Hshape.
    destruct (current_response w lat lon api_key units) as [curr|e].
    2:{ exists []. split; [done|]. by intros ??? ?%elem_of_nil. }
    destruct (forecast_response w lat lon api_key units) as [forecast|e].
    2:{ exists [HttpGet Forecast]. split; [done|].
        by intros ??? ?%list_elem_of_singleton. }
    eexists. split; [reflexivity|]. intros name la lo Hin.
    apply elem_of_cons in Hin as [?|Hin]; [done|].
    rewrite report_shape in Hin. cbn zeta in Hin.
    pose proof (save_raw_data_run w a name0 curr forecast) as [_ Hsave].
    pose proof (print_current_weather_lines curr units_label) as Hpcw.
    assert (Stdout (ResolvedLocation name la lo)
              ∉ (save_raw_data w a name0 curr forecast).1) as Hs.
    { rewrite Hsave. destruct (args_save_json a) as [[|c p]|];
        [by intros ?%elem_of_nil| |by intros ?%elem_of_nil].
      destruct (open_for_writing w (String c p)); [|by intros ?%elem_of_nil].
      intros Hin'. repeat (apply elem_of_cons in Hin' as [?|Hin']; [done|]).
      by apply elem_of_nil in Hin'. }
    destruct (save_raw_data w a name0 curr forecast) as [ts [[]|e|c]];
      cbn [fst snd] in *; [|done..].
    destruct (print_current_weather curr units_label) as [tp [[]|e|c]];
      cbn [fst snd] in *.
    - destruct (summarize_forecast forecast) as [summary|e]; cbn [fst] in Hin.
      + rewrite print_forecast_summary_run in Hin. cbn [fst] in Hin.
        rewrite !elem_of_app in Hin. destruct Hin as [?|[Hin|Hin]]; [done| |].
        * by apply (Hpcw name la lo).
        * apply elem_of_cons in Hin as [?|Hin]; [done|].
          apply elem_of_app in Hin as [Hin|Hin].
          -- by apply list_elem_of_fmap in Hin as (d & ? & _).
          -- by apply list_elem_of_singleton in Hin.
      + apply elem_of_app in Hin as [?|Hin]; [done|]. by apply (Hpcw name la lo).
    - apply elem_of_app in Hin as [?|Hin]; [done|]. by apply (Hpcw name la lo).
    - apply elem_of_app in Hin as [?|Hin]; [done|]. by apply (Hpcw name la lo). }
  rewrite Hrest. split; [done|].
  intros name la lo Hin. cbn [app] in Hin.
  apply elem_of_cons in Hin as [[= -> -> ->]|Hin]; [done|].
  apply elem_of_cons in Hin as [?|Hin]; [done|].
  apply elem_of_app in Hin as [Hin|Hin]; [by apply Hno in Hin|].
  destruct Htail as [->|[e' ->]];
    [by apply elem_of_nil in Hin | by apply list_elem_of_singleton in Hin].
Qed.
End cli_extras.

(** ** Credentials, the geocoder and the entry point *)

(** X18: the key given on the command line wins over the one of the
    environment; an empty one counts as missing; the key returned is never
    empty; and the call raises [RuntimeError] exactly when neither source
    has a non-empty key. *)
Theorem get_api_key_precedence (w : env) (cli_key : option string) :
  match get_api_key w cli_key with
  | Ok key =>
      key ≠ ""
      ∧ (if truthy cli_key then cli_key = Some key
         else environ_OPENWEATHER_API_KEY w = Some key)
  | Raise e =>
      truthy cli_key = false
      ∧ truthy (environ_OPENWEATHER_API_KEY w) = false
      ∧ e = Exn RuntimeError
          "OpenWeather API key not provided. Set OPENWEATHER_API_KEY or use --api-key."
  end.
Proof.
  unfold get_api_key.
  destruct cli_key as [[|c k]|]; cbn [truthy];
    destruct (environ_OPENWEATHER_API_KEY w) as [[|c' k']|]; done.
Qed.

(** X19: the display name of a place is made of the name, the state and the
    country that are present and not empty, in this order, separated by a
    comma and a space; a part that is missing or empty leaves no separator
    behind, and the name is empty when all three are. *)
Theorem resolved_name_skips_missing_parts (item : geo_item) :
  let part o := if truthy o then [default "" o] else [] in
  resolved_name_of item
  = join ", " (part (geo_name item) ++ part (geo_state item) ++ part (geo_country item))
  ∧ (truthy (geo_name item) = false → truthy (geo_state item) = false →
     truthy (geo_country item) = false → resolved_name_of item = "").
Proof.
  unfold resolved_name_of.
  destruct (geo_name item) as [[|c1 n]|], (geo_state item) as [[|c2 s]|],
    (geo_country item) as [[|c3 k]|]; cbn [truthy default app];
    (split; [|try done]);
    repeat first
      [ rewrite filter_nil
      | rewrite filter_cons_True by done
      | rewrite filter_cons_False by (intros H; by apply H) ];
    done.
Qed.

(** X20: resolving a city sends one request to the geocoder and nothing
    else. The answer decides the outcome: its error propagates; an empty
    list of matches raises [ValueError] naming the city; otherwise the
    first match gives the coordinates and the display name, and further
    matches are ignored. *)
Theorem geocode_city_first_match (w : env) (city : option string) (api_key : string) :
  (geocode_city w city api_key).1 = [HttpGet Geocoding]
  ∧ match geocoding_response w city api_key with
    | Raise e => (geocode_city w city api_key).2 = Except e
    | Ok [] =>
        (geocode_city w city api_key).2
        = Except (Exn ValueError
                    ("Could not find location for '" +:+ default "None" city +:+ "'"))
    | Ok (item :: others) =>
        (geocode_city w city api_key).2
        = Return (geo_lat item, geo_lon item, resolved_name_of item)
    end.
Proof.
  unfold geocode_city.
  by destruct (geocoding_response w city api_key) as [[|item others]|e].
Qed.

Section main_extras.
Context {O : PySetOrder}.

(** X21: a latitude without a longitude is rejected in every mode, with the
    message on the error stream and exit code 2, before the Streamlit
    front end or the text run is started; any other command line with
    [--streamlit] is handed to the Streamlit front end as it is, a missing
    city included. *)
Theorem main_streamlit_mode (w : env) (a : args) :
  (is_Some (args_lat a) → args_lon a = None →
   main w a = ([Stderr (Text "[!] --lon is required when --lat is provided.")], Exit 2))
  ∧ (args_streamlit a = true → ¬ (is_Some (args_lat a) ∧ args_lon a = None) →
     main w a = run_streamlit_app w a).
Proof.
  unfold main. split.
  - intros [lat ->] ->. reflexivity.
  - intros -> Hok.
    destruct (args_lat a) as [lat|], (args_lon a) as [lon|];
      try (by destruct (run_streamlit_app w a) as [t [[]|e|c]]).
    destruct Hok. by split; [eexists|].
Qed.

(** X22: when the place has to be looked up and the geocoder fails or knows
    no match, the run consists of the one request and the error line, and
    ends with exit code 1: nothing is printed to standard output and no
    other endpoint is asked. *)
Theorem geocoding_failure_run (w : env) (a : args) (api_key : string) (e : exn) :
  get_api_key w (args_api_key a) = Ok api_key →
  args_lat a = None ∨ args_lon a = None →
  geocoding_response w (args_city a) api_key = Raise e
  ∨ (geocoding_response w (args_city a) api_key = Ok []
     ∧ e = Exn ValueError ("Could not find location for '"
                           +:+ default "None" (args_city a) +:+ "'")) →
  run_cli w a = ([HttpGet Geocoding; Stderr (ErrorLine e)], Exit 1).
Proof.
  intros Hkey Hcoords Hgeo. rewrite run_cli_unfold, Hkey. cbn zeta.
  assert (resolve_location w a api_key = ([HttpGet Geocoding], Except e)) as Hres.
  { unfold resolve_location, geocode_city.
    destruct Hgeo as [Hgeo|[Hgeo ->]]; rewrite Hgeo;
      by destruct Hcoords as [-> | ->]; [|destruct (args_lat a)]. }
  unfold run_cli_body. rewrite Hres. reflexivity.
Qed.
End main_extras.

(** ** The further properties at sample inputs *)

Lemma two_days_supported :
  Forall (λ e, supported_timestamp (entry_dt e)) two_days.
Proof. repeat constructor; by vm_compute. Defined.

Lemma last_day_supported :
  Forall (λ e, supported_timestamp (entry_dt e)) last_day.
Proof. repeat constructor; by vm_compute. Defined.

Lemma last_day_group : group "1970-01-03" two_days = group "1970-01-03" last_day.
Proof. reflexivity. Defined.

Lemma typical_condition_most_frequent_witness :
  Forall (λ e, supported_timestamp (entry_dt e)) tie_day
  ∧ ∃ out, summarize_forecast (O:=first_occurrence_order)
             (ForecastJson (Some tie_day)) = Ok out
      ∧ ∀ s, s ∈ out →
          (∃ e, e ∈ tie_day ∧ day_of e = date s
                ∧ entry_description e = typical_weather s)
          ∧ ∀ c, (count (entry_description <$> group (date s) tie_day) c
                  ≤ count (entry_description <$> group (date s) tie_day)
                          (typical_weather s))%nat.
Proof.
  split; [exact tie_day_supported|].
  exact (typical_condition_most_frequent tie_day tie_day_supported).
Defined.


Lemma summary_depends_on_its_day_witness :
  Forall (λ e, supported_timestamp (entry_dt e)) two_days
  ∧ Forall (λ e, supported_timestamp (entry_dt e)) last_day
  ∧ group "1970-01-03" two_days = group "1970-01-03" last_day
  ∧ ∃ out out',
      summarize_forecast (O:=first_occurrence_order) (ForecastJson (Some two_days)) = Ok out
      ∧ summarize_forecast (O:=first_occurrence_order) (ForecastJson (Some last_day))
        = Ok out'
      ∧ ∀ s, date s = "1970-01-03" → s ∈ out ↔ s ∈ out'.
Proof.
  split; [exact two_days_supported|].
  split; [exact last_day_supported|].
  split; [exact last_day_group|].
  exact (summary_depends_on_its_day two_days last_day "1970-01-03"
           two_days_supported last_day_supported last_day_group).
Defined.

Lemma min_max_equal_iff_constant_witness :
  Forall (λ e, supported_timestamp (entry_dt e)) two_days
  ∧ ∃ out, summarize_forecast (O:=first_occurrence_order)
             (ForecastJson (Some two_days)) = Ok out
      ∧ ∀ s, s ∈ out →
          (min_temp s ≤ max_temp s)%Qc
          ∧ (min_temp s = max_temp s
             ↔ ∀ e, e ∈ group (date s) two_days → entry_temp e = min_temp s).
Proof.
  split; [exact two_days_supported|].
  exact (min_max_equal_iff_constant two_days two_days_supported).
Defined.

Lemma summaries_in_chronological_order_witness :
  Forall (λ e, supported_timestamp (entry_dt e)) two_days
  ∧ ∃ out, summarize_forecast (O:=first_occurrence_order)
             (ForecastJson (Some two_days)) = Ok out
      ∧ ∀ before s1 after s2 e1 e2,
          out = before ++ s1 :: after → s2 ∈ after →
          e1 ∈ two_days → day_of e1 = date s1 →
          e2 ∈ two_days → day_of e2 = date s2 →
          (entry_dt e1 < entry_dt e2)%Z.
Proof.
  split; [exact two_days_supported|].
  exact (summaries_in_chronological_order two_days two_days_supported).
Defined.


Lemma late_evening_supported : supported_timestamp (82800 + 7200).
Proof. by vm_compute. Defined.

Lemma next_morning_supported : supported_timestamp (90030 + 0).
Proof. by vm_compute. Defined.

Lemma pretty_time_same_minute_witness :
  supported_timestamp (82800 + 7200)
  ∧ supported_timestamp (90030 + 0)
  ∧ (pretty_time_from_unix 82800 7200 = pretty_time_from_unix 90030 0
     ↔ ((82800 + 7200) `div` 60 = (90030 + 0) `div` 60)%Z).
Proof.
  split; [exact late_evening_supported|].
  split; [exact next_morning_supported|].
  exact (pretty_time_same_minute 82800 7200 90030 0
           late_evening_supported next_morning_supported).
Defined.

Lemma coords_args_lat : args_lat coords_args = Some (Qc_of_Z 51).
Proof. reflexivity. Defined.

Lemma coords_args_lon : args_lon coords_args = Some (Qc_of_Z 0).
Proof. reflexivity. Defined.

Lemma coordinates_used_as_given_witness :
  let w := sample_env None in
  let a := coords_args in
  args_lat a = Some (Qc_of_Z 51)
  ∧ args_lon a = Some (Qc_of_Z 0)
  ∧ (HttpGet Geocoding ∉ (run_cli (O:=first_occurrence_order) w a).1)
  ∧ (is_Ok (get_api_key w (args_api_key a)) →
     head (run_cli (O:=first_occurrence_order) w a).1
     = Some (Stdout (ResolvedLocation
                       (float_str w (Qc_of_Z 51) +:+ "," +:+ float_str w (Qc_of_Z 0))
                       (Qc_of_Z 51) (Qc_of_Z 0))))
  ∧ ∀ name la lo,
      Stdout (ResolvedLocation name la lo) ∈ (run_cli (O:=first_occurrence_order) w a).1 →
      la = Qc_of_Z 51 ∧ lo = Qc_of_Z 0
      ∧ name = float_str w (Qc_of_Z 51) +:+ "," +:+ float_str w (Qc_of_Z 0).
Proof.
  split; [exact coords_args_lat|].
  split; [exact coords_args_lon|].
  exact (coordinates_used_as_given (sample_env None) coords_args _ _
           coords_args_lat coords_args_lon).
Defined.

Lemma sample_run_returns :
  (run_cli (O:=first_occurrence_order) (sample_env (Some "secret")) london_args).2
  = Return ().
Proof. by vm_compute. Defined.

Lemma successful_run_renders_the_forecast_witness :
  let w := sample_env (Some "secret") in
  let a := london_args in
  (run_cli (O:=first_occurrence_order) w a).2 = Return ()
  ∧ ∃ api_key lat lon name curr forecast summary,
      get_api_key w (args_api_key a) = Ok api_key
      ∧ (resolve_location w a api_key).2 = Return (lat, lon, name)
      ∧ current_response w lat lon api_key (lower (args_units a)) = Ok curr
      ∧ forecast_response w lat lon api_key (lower (args_units a)) = Ok forecast
      ∧ summarize_forecast (O:=first_occurrence_order) forecast = Ok summary
      ∧ rendered_days (run_cli (O:=first_occurrence_order) w a).1
        = (λ d, Stdout (day_line (units_label_of (lower (args_units a))) d))
            <$> slice_to summary (args_days a)
      ∧ stderr_lines (run_cli (O:=first_occurrence_order) w a).1 = [].
Proof.
  split; [exact sample_run_returns|].
  exact (successful_run_renders_the_forecast (sample_env (Some "secret")) london_args
           sample_run_returns).
Defined.

Lemma sample_run_prints_saved :
  Stdout (SavedRawData "out.json")
    ∈ (run_cli (O:=first_occurrence_order) (sample_env (Some "secret")) london_args).1.
Proof. apply (list_elem_of_lookup_2 _ 5). by vm_compute. Defined.

Lemma saved_is_not_location (name : string) (lat lon : Qc) :
  SavedRawData "out.json" ≠ ResolvedLocation name lat lon.
Proof. discriminate. Defined.

Lemma report_only_after_both_fetches_witness :
  let w := sample_env (Some "secret") in
  let a := london_args in
  Stdout (SavedRawData "out.json") ∈ (run_cli (O:=first_occurrence_order) w a).1
  ∧ (∀ name lat lon, SavedRawData "out.json" ≠ ResolvedLocation name lat lon)
  ∧ ∃ api_key lat lon name curr forecast,
      get_api_key w (args_api_key a) = Ok api_key
      ∧ (resolve_location w a api_key).2 = Return (lat, lon, name)
      ∧ current_response w lat lon api_key (lower (args_units a)) = Ok curr
      ∧ forecast_response w lat lon api_key (lower (args_units a)) = Ok forecast.
Proof.
  split; [exact sample_run_prints_saved|].
  split; [exact saved_is_not_location|].
  exact (report_only_after_both_fetches (O:=first_occurrence_order)
           (sample_env (Some "secret")) london_args _
           sample_run_prints_saved saved_is_not_location).
Defined.

Lemma nowhere_env_key : get_api_key nowhere_env (args_api_key london_args) = Ok "secret".
Proof. reflexivity. Defined.

Lemma london_args_no_lat : args_lat london_args = None ∨ args_lon london_args = None.
Proof. by left. Defined.

Lemma nowhere_env_no_match :
  geocoding_response nowhere_env (args_city london_args) "secret"
  = Raise (Exn ValueError "Could not find location for 'London'")
  ∨ (geocoding_response nowhere_env (args_city london_args) "secret" = Ok []
     ∧ Exn ValueError "Could not find location for 'London'"
       = Exn ValueError ("Could not find location for '"
                         +:+ default "None" (args_city london_args) +:+ "'")).
Proof. right. by split. Defined.

Lemma geocoding_failure_run_witness :
  get_api_key nowhere_env (args_api_key london_args) = Ok "secret"
  ∧ (args_lat london_args = None ∨ args_lon london_args = None)
  ∧ (geocoding_response nowhere_env (args_city london_args) "secret"
     = Raise (Exn ValueError "Could not find location for 'London'")
     ∨ (geocoding_response nowhere_env (args_city london_args) "secret" = Ok []
        ∧ Exn ValueError "Could not find location for 'London'"
          = Exn ValueError ("Could not find location for '"
                            +:+ default "None" (args_city london_args) +:+ "'")))
  ∧ run_cli (O:=first_occurrence_order) nowhere_env london_args
    = ([HttpGet Geocoding;
        Stderr (ErrorLine (Exn ValueError "Could not find location for 'London'"))],
       Exit 1).
Proof.
  split; [exact nowhere_env_key|].
  split; [exact london_args_no_lat|].
  split; [exact nowhere_env_no_match|].
  exact (geocoding_failure_run nowhere_env london_args "secret" _
           nowhere_env_key london_args_no_lat nowhere_env_no_match).
Defined.
